(** * The GitHub webhook relay

    A shallow embedding of the request handler that
    [supabase/functions/github-webhook/index.ts] passes to [serve] (the
    second part of [src/scripts/manage-webhooks.js]): the JavaScript values
    it reads from the webhook payload, the plain objects it uses as maps
    ([inputs], [workflowMapping]), its early returns and [try]/[catch]
    blocks, and the two outbound calls it makes (the metadata of the
    automation repository, then the workflow dispatch).

    Conventions of the model.
    - A string is a sequence of code units below 256, so [trim] strips the
      ASCII white space and U+00A0.
    - A JSON number is an integer literal ([Z]).  Its value is the double
      nearest to it, and its text is the one [Number::toString] gives that
      double: the shortest decimal that reads back as the same double,
      written in full below 1e21 and with an exponent from there on.
    - What the runtime decides (environment variables, the clock, the
      network, the text of engine errors, [JSON.stringify]) is read from a
      [world]; the handler is a function of the world and the request, and
      returns its response together with the outbound calls it made. *)

From Stdlib Require Import List String Ascii ZArith NArith Bool Lia.
From Stdlib Require Import Permutation DecimalString.
Import ListNotations.

Open Scope string_scope.
Open Scope list_scope.

(** ** Strings *)

Module Str.

(** [s === ""], that is [!s] for a string. *)
Definition is_empty (s : string) : bool :=
  match s with
  | EmptyString => true
  | String _ _ => false
  end.

(** White space of [String.prototype.trim], below 256. *)
Definition is_space (a : ascii) : bool :=
  let n := nat_of_ascii a in
  ((9 <=? n) && (n <=? 13) || (n =? 32) || (n =? 160))%nat.

Fixpoint trim_start (s : string) : string :=
  match s with
  | EmptyString => EmptyString
  | String a rest => if is_space a then trim_start rest else s
  end.

Fixpoint trim_end (s : string) : string :=
  match s with
  | EmptyString => EmptyString
  | String a rest =>
      let rest' := trim_end rest in
      if is_space a && is_empty rest' then EmptyString else String a rest'
  end.

(** [s.trim()] *)
Definition trim (s : string) : string := trim_end (trim_start s).

(** [s.split(c)] for a separator of one character. *)
Fixpoint split (c : ascii) (s : string) : list string :=
  match s with
  | EmptyString => [EmptyString]
  | String a rest =>
      if Ascii.eqb a c then EmptyString :: split c rest
      else match split c rest with
           | piece :: pieces => String a piece :: pieces
           | [] => [String a EmptyString]
           end
  end.

Fixpoint drop (n : nat) (s : string) : string :=
  match n, s with
  | O, _ => s
  | S _, EmptyString => EmptyString
  | S n', String _ rest => drop n' rest
  end.

(** [s.replace(pat, "")]: the first occurrence of [pat] is removed. *)
Fixpoint remove_first (pat s : string) : string :=
  if prefix pat s then drop (length pat) s
  else match s with
       | EmptyString => EmptyString
       | String a rest => String a (remove_first pat rest)
       end.

(** [s.substring(0, n)] *)
Fixpoint take (n : nat) (s : string) : string :=
  match n, s with
  | O, _ => EmptyString
  | S _, EmptyString => EmptyString
  | S n', String a rest => String a (take n' rest)
  end.

(** [l.join(sep)] *)
Fixpoint join (sep : string) (l : list string) : string :=
  match l with
  | [] => EmptyString
  | [s] => s
  | s :: rest => s ++ sep ++ join sep rest
  end.

(** Decimal text of an integer. *)
Definition of_Z (z : Z) : string := NilZero.string_of_int (Z.to_int z).

End Str.

(** ** Numbers

    [JSON.parse] reads an integer literal as the nearest double, and
    [String(n)], [n.toString()] and a template literal print a double by
    [Number::toString]. *)

Module Num.

(** The double nearest to the integer [n > 0], ties to the even
    significand; [None] is [Infinity]. *)
Definition nearest_double (n : Z) : option Z :=
  let e := (Z.log2 n - 52)%Z in
  if (e <=? 0)%Z then Some n
  else
    let ulp := (2 ^ e)%Z in
    let q := (n / ulp)%Z in
    let r := (n mod ulp)%Z in
    let half := (ulp / 2)%Z in
    let m := if (r <? half)%Z then q
             else if (half <? r)%Z then (q + 1)%Z
             else if Z.even q then q else (q + 1)%Z in
    if (2 ^ 1024 <=? m * ulp)%Z then None else Some (m * ulp)%Z.

(** The decimal [x] reads back as the double [v]. *)
Definition reads_as (v x : Z) : bool :=
  (0 <? x)%Z &&
  match nearest_double x with
  | Some d => (d =? v)%Z
  | None => false
  end.

(** The decimal with the fewest significant digits that reads back as the
    double [v], the nearest to [v] when there are two: the multiples of
    [10^j] around [v] are tried from the largest [j] down. *)
Fixpoint shortest (j : nat) (v : Z) : Z :=
  let p := (10 ^ Z.of_nat j)%Z in
  let lo := (v / p * p)%Z in
  let hi := (lo + p)%Z in
  let below := reads_as v lo in
  let above := reads_as v hi in
  if below && above then
    (if (v - lo <? hi - v)%Z then lo
     else if (hi - v <? v - lo)%Z then hi
     else if Z.even (v / p) then lo else hi)
  else if below then lo
  else if above then hi
  else match j with
       | O => v
       | S j' => shortest j' v
       end.

Fixpoint strip_zeros (s : string) : string :=
  match s with
  | EmptyString => EmptyString
  | String a rest =>
      let rest' := strip_zeros rest in
      if Ascii.eqb a "0" && Str.is_empty rest' then EmptyString
      else String a rest'
  end.

(** The text of a positive decimal [x]: in full below 1e21, as
    [d.ddde+n] from there on. *)
Definition notation (x : Z) : string :=
  let digits := Str.of_Z x in
  if (x <? 10 ^ 21)%Z then digits
  else
    let exponent :=
      ("e+" ++ Str.of_Z (Z.of_nat (String.length digits) - 1))%string in
    match strip_zeros digits with
    | String d EmptyString => String d exponent
    | String d rest => (String d ("." ++ rest) ++ exponent)%string
    | EmptyString => digits
    end.

(** [String(n)] for the number that the integer literal [n] denotes. *)
Definition to_text (n : Z) : string :=
  if (n =? 0)%Z then "0"
  else
    let text :=
      match nearest_double (Z.abs n) with
      | Some v => notation (shortest (String.length (Str.of_Z v)) v)
      | None => "Infinity"
      end in
    if (n <? 0)%Z then ("-" ++ text)%string else text.

End Num.

(** ** Plain objects: own properties in insertion order *)

Module Obj.

Section Props.
Context {V : Type}.

(** [o[k]] among the own properties. *)
Fixpoint get (o : list (string * V)) (k : string) : option V :=
  match o with
  | [] => None
  | (k', v) :: rest => if String.eqb k' k then Some v else get rest k
  end.

(** [o[k] = v]: an existing property keeps its place. *)
Fixpoint set (o : list (string * V)) (k : string) (v : V)
  : list (string * V) :=
  match o with
  | [] => [(k, v)]
  | (k', v') :: rest =>
      if String.eqb k' k then (k, v) :: rest
      else (k', v') :: set rest k v
  end.

(** [{...o, k1: v1, k2: v2, ...}] *)
Definition spread (o extra : list (string * V)) : list (string * V) :=
  fold_left (fun acc kv => set acc (fst kv) (snd kv)) extra o.
End Props.

Definition is_digit (a : ascii) : bool :=
  let n := nat_of_ascii a in ((48 <=? n) && (n <=? 57))%nat.

Fixpoint digits (s : string) (acc : N) : option N :=
  match s with
  | EmptyString => Some acc
  | String a rest =>
      if is_digit a
      then digits rest (acc * 10 + N.of_nat (nat_of_ascii a - 48))%N
      else None
  end.

(** An array index: the canonical decimal text of an integer below
    2^32 - 1.  Such keys are listed first, in numeric order. *)
Definition array_index (k : string) : option N :=
  match k with
  | EmptyString => None
  | String a rest =>
      if Ascii.eqb a "0" then
        (if Str.is_empty rest then Some 0%N else None)
      else match digits k 0 with
           | Some n => if (n <? 4294967295)%N then Some n else None
           | None => None
           end
  end.

Fixpoint insert_index (e : N * string) (l : list (N * string))
  : list (N * string) :=
  match l with
  | [] => [e]
  | h :: rest =>
      if (fst e <=? fst h)%N then e :: l else h :: insert_index e rest
  end.

Fixpoint index_keys (ks : list string) : list (N * string) :=
  match ks with
  | [] => []
  | k :: rest =>
      match array_index k with
      | Some n => insert_index (n, k) (index_keys rest)
      | None => index_keys rest
      end
  end.

Definition named (k : string) : bool :=
  match array_index k with Some _ => false | None => true end.

(** [Object.keys(o)] *)
Definition keys {V : Type} (o : list (string * V)) : list string :=
  let ks := map fst o in
  map snd (index_keys ks) ++ filter named ks.

(** [Object.keys(o).length] *)
Definition size {V : Type} (o : list (string * V)) : nat :=
  List.length (keys o).

End Obj.

(** ** JavaScript values read from JSON *)

#[local] Set Warnings "-register-all".

Inductive json : Type :=
| JNull
| JBool (b : bool)
| JNum (n : Z)
| JStr (s : string)
| JArr (items : list json)
| JObj (props : list (string * json)).

(** A value that may be [undefined]. *)
Definition jsval : Type := option json.

(** [!!j] *)
Definition truthy (j : json) : bool :=
  match j with
  | JNull => false
  | JBool b => b
  | JNum n => negb (Z.eqb n 0)
  | JStr s => negb (Str.is_empty s)
  | JArr _ | JObj _ => true
  end.

Definition truthy_val (v : jsval) : bool :=
  match v with
  | Some j => truthy j
  | None => false
  end.

(** [v || d] *)
Definition either (v : jsval) (d : json) : json :=
  match v with
  | Some j => if truthy j then j else d
  | None => d
  end.

(** [j.k] for [j] other than [null].  The handler reads only names that
    no prototype defines, so a property is an own property of an object
    and [undefined] on everything else. *)
Definition member (j : json) (k : string) : jsval :=
  match j with
  | JObj props => Obj.get props k
  | _ => None
  end.

(** [v?.k] *)
Definition chain (v : jsval) (k : string) : jsval :=
  match v with
  | None | Some JNull => None
  | Some j => member j k
  end.

(** [v === true] *)
Definition is_true (v : jsval) : bool :=
  match v with
  | Some (JBool true) => true
  | _ => false
  end.

Definition has_key {V : Type} (o : list (string * V)) (k : string) : bool :=
  match Obj.get o k with
  | Some _ => true
  | None => false
  end.

(** [String(j)], [`${j}`] and the property key [o[j]]; [None] stands for
    the [TypeError] of a value without a primitive.  An object parsed
    from JSON has one when it does not shadow [toString] (a JSON value is
    never callable, and the inherited [valueOf] returns the object);
    an array joins its items, [null] items as empty text. *)
Fixpoint to_string (j : json) : option string :=
  match j with
  | JNull => Some "null"
  | JBool true => Some "true"
  | JBool false => Some "false"
  | JNum n => Some (Num.to_text n)
  | JStr s => Some s
  | JArr items =>
      let fix texts (l : list json) : option (list string) :=
        match l with
        | [] => Some []
        | item :: rest =>
            match (match item with
                   | JNull => Some EmptyString
                   | _ => to_string item
                   end), texts rest with
            | Some s, Some ss => Some (s :: ss)
            | _, _ => None
            end
        end in
      option_map (Str.join ",") (texts items)
  | JObj props =>
      if has_key props "toString" then None else Some "[object Object]"
  end.

(** [names.includes(j)] for an array of strings. *)
Definition includes (names : list string) (j : json) : bool :=
  match j with
  | JStr s => existsb (String.eqb s) names
  | _ => false
  end.

(** Members that every plain object inherits from [Object.prototype]
    (Deno removes the [__proto__] accessor, so that name is an ordinary
    key). *)
Definition object_prototype : list string :=
  [ "constructor"; "__defineGetter__"; "__defineSetter__";
    "hasOwnProperty"; "__lookupGetter__"; "__lookupSetter__";
    "isPrototypeOf"; "propertyIsEnumerable"; "toString"; "valueOf";
    "toLocaleString" ].

Definition inherited (k : string) : bool :=
  existsb (String.eqb k) object_prototype.

(** The value of [workflowMapping[k]]. *)
Inductive looked_up : Type :=
| Own (workflow : string)
| Builtin (name : string)
| Missing.

Definition lookup (m : list (string * string)) (k : string) : looked_up :=
  match Obj.get m k with
  | Some workflow => Own workflow
  | None => if inherited k then Builtin k else Missing
  end.

Definition found (r : looked_up) : bool :=
  match r with
  | Own workflow => negb (Str.is_empty workflow)
  | Builtin _ => true
  | Missing => false
  end.

(** ** Requests, responses and the outside world *)

Record request : Type := {
  event_header : option string;   (* req.headers.get("x-github-event") *)
  json_body : option json         (* req.json(); [None] when it rejects *)
}.

Record response : Type := {
  status : Z;
  body : list (string * json)
}.

(** A thrown [Error]. *)
Record js_error : Type := {
  err_message : string;
  err_stack : option string
}.

Record http_reply : Type := {
  reply_status : Z;
  reply_json : js_error + json;     (* res.json() *)
  reply_text : js_error + string    (* res.text() *)
}.

Inductive fetched : Type :=
| Rejected (e : js_error)
| Replied (r : http_reply).

(** [res.ok] *)
Definition ok (r : http_reply) : bool :=
  ((200 <=? reply_status r) && (reply_status r <=? 299))%Z.

(** Outbound calls. *)
Inductive call : Type :=
| GetRepo (url token : string)
| PostDispatch (url token : string) (ref : json)
    (inputs : list (string * json)).

Inductive fault : Type :=
| ReadOfNull (property : string)
| NotCallable (property : string)
| NoPrimitive.

Record world : Type := {
  env : string -> option string;              (* Deno.env.get *)
  now_prepared : string;    (* new Date().toISOString() of line 307, read
                               once the metadata fetch has answered *)
  now_replied : string;     (* the one of line 593, read once the dispatch
                               has answered *)
  net : call -> fetched;                      (* fetch *)
  fault_message : fault -> string;            (* message of an engine TypeError *)
  stack_of : string -> option string;         (* stack of an Error, by message *)
  stringify : json -> string;                 (* JSON.stringify *)
  source_text : string -> string              (* text of a built-in function *)
}.

Definition new_error (w : world) (message : string) : js_error :=
  {| err_message := message; err_stack := stack_of w message |}.

Definition type_error (w : world) (f : fault) : js_error :=
  new_error w (fault_message w f).

(** ** Early returns and exceptions *)

Inductive step (A : Type) : Type :=
| Next (a : A)            (* fall through to the next statement *)
| Reply (r : response)    (* return new Response(...) *)
| Raise (e : js_error).   (* throw *)

Arguments Next {A} a.
Arguments Reply {A} r.
Arguments Raise {A} e.

Definition bind {A B : Type} (m : step A) (k : A -> step B) : step B :=
  match m with
  | Next a => k a
  | Reply r => Reply r
  | Raise e => Raise e
  end.

Notation "x <- m ;; k" := (bind m (fun x => k))
  (at level 61, m at next level, right associativity).
Notation "' pat <- m ;; k" := (bind m (fun x => match x with pat => k end))
  (at level 61, pat pattern, m at next level, right associativity).
Notation "m ;;; k" := (bind m (fun _ => k))
  (at level 61, right associativity).

(** [if (cond) return r;] *)
Definition return_if (cond : bool) (r : response) : step unit :=
  if cond then Reply r else Next tt.

(** [try { m } catch (error) { handler }] *)
Definition try_catch {A : Type} (m : step A) (handler : js_error -> step A)
  : step A :=
  match m with
  | Raise e => handler e
  | _ => m
  end.

Definition settle {A : Type} (r : js_error + A) : step A :=
  match r with
  | inl e => Raise e
  | inr a => Next a
  end.

(** [j.k], which throws when [j] is [null]. *)
Definition read (w : world) (j : json) (k : string) : step jsval :=
  match j with
  | JNull => Raise (type_error w (ReadOfNull k))
  | _ => Next (member j k)
  end.

(** [String(j)] as a statement. *)
Definition text_of (w : world) (j : json) : step string :=
  match to_string j with
  | Some s => Next s
  | None => Raise (type_error w NoPrimitive)
  end.

(** [JSON.stringify(fields)]: properties whose value is [undefined] are
    left out. *)
Fixpoint defined (fields : list (string * jsval)) : list (string * json) :=
  match fields with
  | [] => []
  | (k, Some j) :: rest => (k, j) :: defined rest
  | (_, None) :: rest => defined rest
  end.

Definition json_response (code : Z) (fields : list (string * jsval))
  : response :=
  {| status := code; body := defined fields |}.

Definition str (s : string) : jsval := Some (JStr s).

(** ** The handler, stage by stage *)

Definition inputs_t : Type := list (string * json).

Record settings : Type := {
  GITHUB_TOKEN : string;
  AUTOMATION_REPO_OWNER : string;
  AUTOMATION_REPO_NAME : string
}.

Definition error_response (code : Z) (text : string) : response :=
  json_response code [("error", str text)].

(** [if (!s) return r;] for a header or an environment variable. *)
Definition require (v : option string) (r : response) : step string :=
  match v with
  | Some s => if Str.is_empty s then Reply r else Next s
  | None => Reply r
  end.

(** [if (!v) return r;] for a value. *)
Definition require_val (v : jsval) (r : response) : step json :=
  match v with
  | Some j => if truthy j then Next j else Reply r
  | None => Reply r
  end.

(** Steps 1 to 3 (lines 198-243): the event header, the configuration,
    the payload. *)
Definition intake (w : world) (rq : request)
  : step (string * settings * json) :=
  event <- require (event_header rq)
             (error_response 400 "Missing GitHub event header") ;;
  token <- require (env w "GITHUB_TOKEN")
             (error_response 500
                "Server configuration error: missing authentication token") ;;
  let missing_repo :=
    error_response 500
      "Server configuration error: missing repository configuration" in
  owner <- require (env w "AUTOMATION_REPO_OWNER") missing_repo ;;
  name <- require (env w "AUTOMATION_REPO_NAME") missing_repo ;;
  payload <- match json_body rq with
             | Some p => Next p
             | None => Reply (error_response 400 "Invalid JSON payload")
             end ;;
  Next (event,
        {| GITHUB_TOKEN := token;
           AUTOMATION_REPO_OWNER := owner;
           AUTOMATION_REPO_NAME := name |},
        payload).

Definition automation_repo (c : settings) : string :=
  AUTOMATION_REPO_OWNER c ++ "/" ++ AUTOMATION_REPO_NAME c.

Definition metadata_call (c : settings) : call :=
  GetRepo ("https://api.github.com/repos/" ++ automation_repo c)
    (GITHUB_TOKEN c).

(** Step 4 (lines 245-302): the default branch of the automation
    repository. *)
Definition default_branch (w : world) (c : settings) : step json :=
  let failed := "Failed to fetch automation repository metadata" in
  try_catch
    (match net w (metadata_call c) with
     | Rejected e => Raise e
     | Replied repoResponse =>
         if negb (ok repoResponse) then
           errorText <- settle (reply_text repoResponse) ;;
           Reply (json_response 500
                    [("error", str failed);
                     ("status", Some (JNum (reply_status repoResponse)));
                     ("details", str errorText)])
         else
           repoData <- settle (reply_json repoResponse) ;;
           workflowBranch <- read w repoData "default_branch" ;;
           workflowBranch <-
             require_val workflowBranch
               (json_response 500
                  [("error",
                    str "Could not determine default branch for automation repository");
                   ("repo_data", Some repoData)]) ;;
           (* the template literal of the log of line 288 *)
           text_of w workflowBranch ;;;
           Next workflowBranch
     end)
    (fun error =>
       Reply (json_response 500
                [("error", str failed);
                 ("message", str (err_message error))])).

(** Step 5 (lines 304-318): the inputs common to all events, and the
    repository name. *)
Definition base_inputs (w : world) (event : string) (payload : json)
  : step (json * inputs_t) :=
  let inputs := [("event_type", JStr event);
                 ("timestamp", JStr (now_prepared w))] in
  repository <- read w payload "repository" ;;
  let repositoryFullName :=
    match repository with
    | Some r => if truthy r then either (member r "full_name") (JStr "")
                else JStr ""
    | None => JStr ""
    end in
  let inputs :=
    if truthy repositoryFullName
    then Obj.set inputs "repository" repositoryFullName
    else inputs in
  sender <- read w payload "sender" ;;
  let inputs :=
    match sender with
    | Some s => if truthy s
                then Obj.set inputs "sender"
                       (either (member s "login") (JStr "Unknown"))
                else inputs
    | None => inputs
    end in
  Next (repositoryFullName, inputs).

(** The loop over [WORKFLOW_MAPPINGS.split(",")] (lines 334-340). *)
Fixpoint add_mappings (mappings : list string)
  (workflowMapping : list (string * string)) : list (string * string) :=
  match mappings with
  | [] => workflowMapping
  | mapping :: rest =>
      match Str.split ":" mapping with
      | repo :: workflow :: _ =>
          if negb (Str.is_empty repo) && negb (Str.is_empty workflow)
          then add_mappings rest
                 (Obj.set workflowMapping (Str.trim repo) (Str.trim workflow))
          else add_mappings rest workflowMapping
      | _ => add_mappings rest workflowMapping
      end
  end.

Definition parse_mappings (WORKFLOW_MAPPINGS : string)
  : list (string * string) :=
  add_mappings (Str.split "," WORKFLOW_MAPPINGS) [].

Definition not_configured (shown : string)
  (workflowMapping : list (string * string)) : response :=
  json_response 400
    [("error", str "Repository not configured");
     ("message", str ("No workflow mapping found for repository: " ++ shown));
     ("available_repositories",
      Some (JArr (map JStr (Obj.keys workflowMapping))))].

(** The mapping is parsed and the repository looked up in it (lines
    332-372). *)
Definition resolve_workflow (w : world) (WORKFLOW_MAPPINGS : string)
  (repositoryFullName : json) : step looked_up :=
  try_catch
    (let workflowMapping := parse_mappings WORKFLOW_MAPPINGS in
     (if (Obj.size workflowMapping =? 0)%nat
      then Raise (new_error w "No valid mappings found")
      else Next tt) ;;;
     hit <- (if truthy repositoryFullName
             then key <- text_of w repositoryFullName ;;
                  Next (lookup workflowMapping key)
             else Next Missing) ;;
     if found hit then Next hit
     else shown <- text_of w repositoryFullName ;;
          Reply (not_configured shown workflowMapping))
    (fun error =>
       Reply (json_response 500
                [("error", str "Failed to load workflow mapping");
                 ("message", str (err_message error))])).

(** [payload.ref.replace("refs/heads/", "")] *)
Definition branch_of_ref (w : world) (ref : jsval) : step string :=
  match ref with
  | Some (JStr s) => Next (Str.remove_first "refs/heads/" s)
  | _ => Raise (type_error w (NotCallable "replace"))
  end.

(** Step 6, [event === "push"] (lines 390-437). *)
Definition on_push (w : world) (payload : json) (inputs : inputs_t)
  : step (inputs_t * json) :=
  deleted <- read w payload "deleted" ;;
  return_if (is_true deleted)
    (json_response 200
       [("message", str "Branch deletion event, no build needed")]) ;;;
  ref <- read w payload "ref" ;;
  return_if (negb (truthy_val ref))
    (error_response 400 "Invalid push event payload: missing ref") ;;;
  try_catch
    (sourceRepoBranch <- branch_of_ref w ref ;;
     return_if (Str.is_empty sourceRepoBranch)
       (error_response 400 "Invalid branch reference format") ;;;
     pusher <- read w payload "pusher" ;;
     after <- read w payload "after" ;;
     head_commit <- read w payload "head_commit" ;;
     Next (Obj.spread inputs
             [("branch", JStr sourceRepoBranch);
              ("author", either (chain pusher "name") (JStr "Unknown"));
              ("commit_sha", either after (JStr ""));
              ("commit_message", either (chain head_commit "message") (JStr ""));
              ("commit_url", either (chain head_commit "url") (JStr ""))],
           JStr sourceRepoBranch))
    (fun _ => Reply (error_response 400 "Failed to process push event data")).

Definition buildTriggeringActions : list string :=
  ["opened"; "reopened"; "synchronize"].

(** [payload.number?.toString() || ""] *)
Definition number_text (w : world) (number : jsval) : step json :=
  match number with
  | None | Some JNull => Next (JStr "")
  | Some (JObj props) =>
      if has_key props "toString"
      then Raise (type_error w (NotCallable "toString"))
      else Next (JStr "[object Object]")
  | Some n => s <- text_of w n ;; Next (JStr s)
  end.

(** Step 6, [event === "pull_request"] (lines 438-501). *)
Definition on_pull_request (w : world) (payload : json) (inputs : inputs_t)
  : step (inputs_t * json) :=
  let invalid :=
    error_response 400
      "Invalid PR event payload: missing action or pull_request" in
  action <- read w payload "action" ;;
  prAction <- require_val action invalid ;;
  pull <- read w payload "pull_request" ;;
  pull_request <- require_val pull invalid ;;
  (if includes buildTriggeringActions prAction then Next tt
   else shown <- text_of w prAction ;;
        number <- read w payload "number" ;;
        Reply (json_response 200
                 [("message",
                   str ("PR action '" ++ shown ++ "' doesn't trigger a build"));
                  ("pr_number", number);
                  ("pr_action", Some prAction)])) ;;;
  try_catch
    (let sourceRepoBranch :=
       either (chain (member pull_request "head") "ref") (JStr "") in
     return_if (negb (truthy sourceRepoBranch))
       (error_response 400 "Missing branch information in PR data") ;;;
     number <- read w payload "number" ;;
     pr_number <- number_text w number ;;
     Next (Obj.spread inputs
             [("branch", sourceRepoBranch);
              ("pr_number", pr_number);
              ("pr_action", prAction);
              ("author",
               either (chain (member pull_request "user") "login")
                 (JStr "Unknown"));
              ("pr_title", either (member pull_request "title") (JStr ""));
              ("pr_url", either (member pull_request "html_url") (JStr ""));
              ("target_branch",
               either (chain (member pull_request "base") "ref") (JStr ""))],
           sourceRepoBranch))
    (fun _ => Reply (error_response 400 "Failed to process PR event data")).

(** Step 6 (lines 387-509): the event kinds. *)
Definition normalize (w : world) (event : string) (payload : json)
  (inputs : inputs_t) : step (inputs_t * json) :=
  if String.eqb event "push" then on_push w payload inputs
  else if String.eqb event "pull_request" then on_pull_request w payload inputs
  else Reply (json_response 200
                [("message", str ("Ignored event: " ++ event))]).

(** Step 5 and the mapping (lines 304-385): the workflow file of the
    repository and the inputs common to all events. *)
Definition located (w : world) (event : string) (payload : json)
  : step (looked_up * inputs_t) :=
  '(repositoryFullName, inputs) <- base_inputs w event payload ;;
  WORKFLOW_MAPPINGS <-
    require (env w "WORKFLOW_MAPPINGS")
      (error_response 500
         "Server configuration error: missing workflow mappings") ;;
  workflowFilename <- resolve_workflow w WORKFLOW_MAPPINGS repositoryFullName ;;
  return_if (negb (found workflowFilename))
    (json_response 500
       [("error", str "Could not determine workflow filename");
        ("repository", Some repositoryFullName)]) ;;;
  Next (workflowFilename, inputs).

(** Everything between the metadata fetch and the final checks. *)
Definition normalized (w : world) (event : string) (payload : json)
  : step (looked_up * inputs_t * json) :=
  '(workflowFilename, inputs) <- located w event payload ;;
  '(inputs, sourceRepoBranch) <- normalize w event payload inputs ;;
  Next (workflowFilename, inputs, sourceRepoBranch).

Definition essentialKeys : list string :=
  [ "event_type"; "timestamp"; "repository"; "sender"; "branch"; "author";
    "commit_sha"; "pr_number"; "pr_title"; "target_branch" ].

(** The loop over [essentialKeys], with its [break] (lines 545-551). *)
Fixpoint keep_essential (keys : list string) (inputs trimmedInputs : inputs_t)
  : inputs_t :=
  match keys with
  | [] => trimmedInputs
  | key :: rest =>
      match Obj.get inputs key with
      | Some v =>
          let trimmedInputs := Obj.set trimmedInputs key v in
          if (10 <=? Obj.size trimmedInputs)%nat then trimmedInputs
          else keep_essential rest inputs trimmedInputs
      | None => keep_essential rest inputs trimmedInputs
      end
  end.

(** Step 7 (lines 524-555): at most 10 inputs. *)
Definition trim_inputs (inputs : inputs_t) : inputs_t :=
  if (10 <? Obj.size inputs)%nat
  then keep_essential essentialKeys inputs []
  else inputs.

(** The text of [workflowFilename] in [WORKFLOW_URL]. *)
Definition filename_text (w : world) (workflowFilename : looked_up) : string :=
  match workflowFilename with
  | Own workflow => workflow
  | Builtin name => source_text w name
  | Missing => "null"
  end.

(** [workflowFilename] as JSON: a function is left out. *)
Definition filename_json (workflowFilename : looked_up) : jsval :=
  match workflowFilename with
  | Own workflow => Some (JStr workflow)
  | Builtin _ => None
  | Missing => Some JNull
  end.

Definition dispatch_call (w : world) (c : settings)
  (workflowFilename : looked_up) (workflowBranch : json) (inputs : inputs_t)
  : call :=
  PostDispatch
    ("https://api.github.com/repos/" ++ automation_repo c
       ++ "/actions/workflows/" ++ filename_text w workflowFilename
       ++ "/dispatches")
    (GITHUB_TOKEN c) workflowBranch inputs.

(** Step 8 (lines 575-629): the answer to the dispatch.  When [res.json()]
    rejects, the body has been read, so the [res.text()] of the fallback
    rejects as well and the placeholder is what is left. *)
Definition dispatch_response (w : world) (event : string) (c : settings)
  (workflowFilename : looked_up) (workflowBranch sourceRepoBranch : json)
  (inputs : inputs_t) (res : fetched) : response :=
  match res with
  | Rejected error =>
      json_response 500
        [("error", str "Network error");
         ("message", str (err_message error))]
  | Replied res =>
      if ok res then
        json_response 200
          [("message", str "Workflow triggered successfully");
           ("event", str event);
           ("inputs", Some (JObj inputs));
           ("automation_repo", str (automation_repo c));
           ("workflow_filename", filename_json workflowFilename);
           ("workflow_branch", Some workflowBranch);
           ("source_branch", Some sourceRepoBranch);
           ("timestamp", str (now_replied w))]
      else
        let details :=
          match reply_json res with
          | inr errorJson =>
              if truthy errorJson then errorJson
              else JStr (stringify w errorJson)
          | inl _ => JStr "Could not read error response"
          end in
        json_response 500
          [("error", str "Failed to trigger workflow");
           ("status", Some (JNum (reply_status res)));
           ("details", Some details)]
  end.

(** From the check of [inputs.branch] to the end (lines 511-629): the
    response and the calls made on the way. *)
Definition deliver (w : world) (event : string) (c : settings)
  (payload workflowBranch : json)
  (job : looked_up * inputs_t * json) : response * list call :=
  let '(workflowFilename, inputs, sourceRepoBranch) := job in
  if negb (truthy_val (Obj.get inputs "branch")) then
    (json_response 400
       [("error", str "Could not determine branch to build");
        ("event", str event);
        ("payload_excerpt", str (Str.take 1000 (stringify w payload)))],
     [])
  else
    let inputs := trim_inputs inputs in
    let post := dispatch_call w c workflowFilename workflowBranch inputs in
    (dispatch_response w event c workflowFilename workflowBranch
       sourceRepoBranch inputs (net w post),
     [post]).

(** [Deno.env.get("ENVIRONMENT") === "development"] *)
Definition development (w : world) : bool :=
  match env w "ENVIRONMENT" with
  | Some v => String.eqb v "development"
  | None => false
  end.

(** The catch-all at the end of the handler (lines 630-646). *)
Definition server_error (w : world) (error : js_error) : response :=
  json_response 500
    [("error", str "Server error");
     ("message", str (err_message error));
     ("stack",
      if development w then option_map JStr (err_stack error) else None)].

(** A stage that ended the request, if it did. *)
Definition ended {A : Type} (w : world) (m : step A) : response + A :=
  match m with
  | Next a => inr a
  | Reply r => inl r
  | Raise e => inl (server_error w e)
  end.

(** The handler given to [serve]: its response and its outbound calls, in
    the order they are made. *)
Definition serve (w : world) (rq : request) : response * list call :=
  match ended w (intake w rq) with
  | inl r => (r, [])
  | inr (event, c, payload) =>
      let get := metadata_call c in
      match ended w (default_branch w c) with
      | inl r => (r, [get])
      | inr workflowBranch =>
          match ended w (normalized w event payload) with
          | inl r => (r, [get])
          | inr job =>
              let (r, calls) := deliver w event c payload workflowBranch job in
              (r, get :: calls)
          end
      end
  end.

(** ** Reference definitions used in the statements *)

(** The entries of [inputs] under the given keys, in the order of the
    keys. *)
Fixpoint select (keys : list string) (inputs : inputs_t) : inputs_t :=
  match keys with
  | [] => []
  | key :: rest =>
      match Obj.get inputs key with
      | Some v => (key, v) :: select rest inputs
      | None => select rest inputs
      end
  end.

(** A header or an environment variable that is absent or empty. *)
Definition absent (v : option string) : bool :=
  match v with
  | Some s => Str.is_empty s
  | None => true
  end.

(** A mapping string that is present and holds at least one valid pair. *)
Definition usable_mappings (v : option string) : bool :=
  match v with
  | Some m => negb (Obj.size (parse_mappings m) =? 0)%nat
  | None => false
  end.

(** The world with [ENVIRONMENT] set to [flag], all else unchanged. *)
Definition with_environment (w : world) (flag : option string) : world :=
  {| env := fun k => if String.eqb k "ENVIRONMENT" then flag else env w k;
     now_prepared := now_prepared w;
     now_replied := now_replied w;
     net := net w;
     fault_message := fault_message w;
     stack_of := stack_of w;
     stringify := stringify w;
     source_text := source_text w |}.

(** The body without its [stack] field. *)
Definition without_stack (fields : list (string * json))
  : list (string * json) :=
  filter (fun kv => negb (String.eqb (fst kv) "stack")) fields.

Definition is_dispatch (c : call) : bool :=
  match c with
  | PostDispatch _ _ _ _ => true
  | GetRepo _ _ => false
  end.

(** A deployment used to evaluate the handler: both calls succeed and the
    mapping is the one of the round-trip scenario. *)
Module Sample.

Definition variables (k : string) : option string :=
  if String.eqb k "GITHUB_TOKEN" then Some "secret"
  else if String.eqb k "AUTOMATION_REPO_OWNER" then Some "acme"
  else if String.eqb k "AUTOMATION_REPO_NAME" then Some "automation"
  else if String.eqb k "WORKFLOW_MAPPINGS"
       then Some "acme/app:ci.yml,acme/site:deploy.yml"
  else None.

Definition eof : js_error :=
  {| err_message := "Unexpected end of JSON input"; err_stack := None |}.

Definition network (c : call) : fetched :=
  match c with
  | GetRepo _ _ =>
      Replied {| reply_status := 200;
                 reply_json := inr (JObj [("default_branch", JStr "main")]);
                 reply_text := inr "" |}
  | PostDispatch _ _ _ _ =>
      Replied {| reply_status := 204;
                 reply_json := inl eof;
                 reply_text := inr "" |}
  end.

Definition world_of (variables : string -> option string) : world :=
  {| env := variables;
     now_prepared := "2025-01-01T00:00:00.000Z";
     now_replied := "2025-01-01T00:00:01.000Z";
     net := network;
     fault_message := fun _ => "TypeError";
     stack_of := fun _ => Some "TypeError at handler";
     stringify := fun _ => "{}";
     source_text := fun _ => "function () { [native code] }" |}.

Definition deployment : world := world_of variables.

(** The same deployment without [WORKFLOW_MAPPINGS]. *)
Definition unmapped : world :=
  world_of (fun k => if String.eqb k "WORKFLOW_MAPPINGS" then None
                     else variables k).

(** A deployment with no variable set. *)
Definition bare : world := world_of (fun _ => None).

(** The deployment on another network. *)
Definition reached (network : call -> fetched) : world :=
  {| env := variables;
     now_prepared := "2025-01-01T00:00:00.000Z";
     now_replied := "2025-01-01T00:00:01.000Z";
     net := network;
     fault_message := fun _ => "TypeError";
     stack_of := fun _ => Some "TypeError at handler";
     stringify := fun _ => "{}";
     source_text := fun _ => "function () { [native code] }" |}.

(** GitHub refuses the dispatch with a body that is no JSON. *)
Definition refused : world :=
  reached (fun c =>
             match c with
             | GetRepo _ _ => network c
             | PostDispatch _ _ _ _ =>
                 Replied {| reply_status := 422;
                            reply_json := inl eof;
                            reply_text := inr "Unprocessable Entity" |}
             end).

(** The metadata name a default branch that has no text. *)
Definition unprintable : world :=
  reached (fun _ =>
             Replied {| reply_status := 200;
                        reply_json :=
                          inr (JObj [("default_branch",
                                      JObj [("toString", JNum 1)])]);
                        reply_text := inr "" |}).

Definition from (full_name : string) : string * json :=
  ("repository", JObj [("full_name", JStr full_name)]).

Definition push (full_name ref : string) : request :=
  {| event_header := Some "push";
     json_body :=
       Some (JObj [from full_name;
                   ("sender", JObj [("login", JStr "alice")]);
                   ("ref", JStr ref);
                   ("pusher", JObj [("name", JStr "alice")]);
                   ("after", JStr "abc123")]) |}.

Definition pull_payload (full_name action : string) : json :=
  JObj [from full_name;
        ("sender", JObj [("login", JStr "alice")]);
        ("action", JStr action);
        ("number", JNum 7);
        ("pull_request",
         JObj [("head", JObj [("ref", JStr "feature")]);
               ("base", JObj [("ref", JStr "main")]);
               ("title", JStr "Add feature");
               ("html_url", JStr "https://github.com/acme/app/pull/7");
               ("user", JObj [("login", JStr "bob")])])].

Definition pull_request (full_name action : string) : request :=
  {| event_header := Some "pull_request";
     json_body := Some (pull_payload full_name action) |}.

Definition other (kind full_name : string) : request :=
  {| event_header := Some kind;
     json_body := Some (JObj [from full_name]) |}.

(** What [intake] reads from [deployment]. *)
Definition config : settings :=
  {| GITHUB_TOKEN := "secret";
     AUTOMATION_REPO_OWNER := "acme";
     AUTOMATION_REPO_NAME := "automation" |}.

(** The inputs after step 5 for a payload of [full_name] sent by alice. *)
Definition common (event full_name : string) : inputs_t :=
  [("event_type", JStr event);
   ("timestamp", JStr "2025-01-01T00:00:00.000Z");
   ("repository", JStr full_name);
   ("sender", JStr "alice")].

(** The eleven inputs assembled for [pull_request "acme/app" "opened"]. *)
Definition opened_inputs : inputs_t :=
  common "pull_request" "acme/app" ++
  [("branch", JStr "feature");
   ("pr_number", JStr "7");
   ("pr_action", JStr "opened");
   ("author", JStr "bob");
   ("pr_title", JStr "Add feature");
   ("pr_url", JStr "https://github.com/acme/app/pull/7");
   ("target_branch", JStr "main")].

(** The nine of them that are dispatched. *)
Definition opened_sent : inputs_t :=
  common "pull_request" "acme/app" ++
  [("branch", JStr "feature");
   ("author", JStr "bob");
   ("pr_number", JStr "7");
   ("pr_title", JStr "Add feature");
   ("target_branch", JStr "main")].

End Sample.

(** ** The webhook registration script (lines 1-181)

    [scripts/manage-webhooks.js] makes sure that every repository of
    [REPOSITORIES] has an active webhook, for [push] and [pull_request],
    that points at the relay.  The script is a function of the machine it
    runs on: its environment once [.env] is loaded, and the answer of
    [api.github.com] to each request, which may depend on the requests
    sent before.  It returns the requests it sent, in order, and its exit
    code. *)

Module Script.

Record api_request : Type := {
  method : string;
  path : string;
  headers : list (string * string);
  data : option json               (* the body, before JSON.stringify *)
}.

Inductive http_outcome : Type :=
| Failed (e : js_error)                          (* req.on('error') *)
| Answered (statusCode : Z) (responseData : string).

Record machine : Type := {
  process_env : string -> option string;
  dotenv_available : bool;         (* import('dotenv') resolves *)
  http : list api_request -> api_request -> http_outcome;
  json_parse : string -> option json;   (* JSON.parse; [None] when it throws *)
  error_stack : string -> option string
}.

(** [`${v}`] for a string that may be [undefined]. *)
Definition shown (v : option string) : string :=
  match v with
  | Some s => s
  | None => "undefined"
  end.

Definition GITHUB_TOKEN (m : machine) : option string :=
  process_env m "OWNER_GITHUB_TOKEN".

Definition WEBHOOK_URL (m : machine) : string :=
  "https://" ++ shown (process_env m "SUPABASE_PROJECT_REF")
    ++ ".supabase.co/functions/v1/github-webhook".

(** [process.env.WEBHOOK_SECRET || ''] *)
Definition WEBHOOK_SECRET (m : machine) : string :=
  match process_env m "WEBHOOK_SECRET" with
  | Some s => s
  | None => EmptyString
  end.

(** [process.env.DRY_RUN === 'true'] *)
Definition DRY_RUN (m : machine) : bool :=
  match process_env m "DRY_RUN" with
  | Some s => String.eqb s "true"
  | None => false
  end.

(** Lines 31-33. *)
Definition repositories (m : machine) : list string :=
  match process_env m "REPOSITORIES" with
  | Some s => if Str.is_empty s then [] else map Str.trim (Str.split "," s)
  | None => []
  end.

(** The request that [githubRequest] writes (lines 44-58, 86-90). *)
Definition api_call (m : machine) (method path : string) (data : option json)
  : api_request :=
  let sends_data :=
    match data with
    | Some j => truthy j
    | None => false
    end in
  {| method := method;
     path := path;
     headers :=
       [("User-Agent", "GitHub-Webhook-Manager");
        ("Authorization", ("token " ++ shown (GITHUB_TOKEN m))%string);
        ("Accept", "application/vnd.github+json");
        ("X-GitHub-Api-Version", "2022-11-28")]
       ++ (if sends_data then [("Content-Type", "application/json")] else []);
     data := if sends_data then data else None |}.

(** What the promise of [githubRequest] settles to (lines 60-84). *)
Definition settled (m : machine) (answer : http_outcome) : js_error + json :=
  match answer with
  | Failed e => inl e
  | Answered statusCode responseData =>
      if ((200 <=? statusCode) && (statusCode <? 300))%Z then
        inr (if Str.is_empty responseData then JObj []
             else match json_parse m responseData with
                  | Some j => j
                  | None => JStr responseData
                  end)
      else
        let message :=
          ("Request failed with status " ++ Num.to_text statusCode ++ ": "
             ++ responseData)%string in
        inl {| err_message := message; err_stack := error_stack m message |}
  end.

(** [await githubRequest(method, path, data)] after the requests [sent]:
    the requests sent so far, and the value or the rejection. *)
Definition githubRequest (m : machine) (sent : list api_request)
  (method path : string) (data : option json)
  : list api_request * (js_error + json) :=
  let request := api_call m method path data in
  (sent ++ [request], settled m (http m sent request)).

(** [hook.config && hook.config.url === WEBHOOK_URL]; [None] when the
    read throws. *)
Definition is_ours (url : string) (hook : json) : option bool :=
  match hook with
  | JNull => None
  | _ =>
      match member hook "config" with
      | Some config =>
          if truthy config
          then Some match member config "url" with
                    | Some (JStr u) => String.eqb u url
                    | _ => false
                    end
          else Some false
      | None => Some false
      end
  end.

Fixpoint find_first (url : string) (hooks : list json)
  : option (option json) :=
  match hooks with
  | [] => Some None
  | hook :: rest =>
      match is_ours url hook with
      | None => None
      | Some true => Some (Some hook)
      | Some false => find_first url rest
      end
  end.

(** [hooks.find(...)] (lines 108-110): [None] when it throws, which it
    does on anything but an array. *)
Definition find_hook (url : string) (hooks : json) : option (option json) :=
  match hooks with
  | JArr items => find_first url items
  | _ => None
  end.

(** [text.includes(part)] on a string. *)
Fixpoint contains (part text : string) : bool :=
  if prefix part text then true
  else match text with
       | EmptyString => false
       | String _ rest => contains part rest
       end.

(** [events.includes(name)]: an array holds the name, a string contains
    it; anything else has no [includes] to call. *)
Definition includes_event (events : jsval) (name : string) : option bool :=
  match events with
  | Some (JArr items) =>
      Some (existsb (fun item => match item with
                                 | JStr s => String.eqb s name
                                 | _ => false
                                 end) items)
  | Some (JStr text) => Some (contains name text)
  | _ => None
  end.

(** Lines 116-118. *)
Definition hasRequiredEvents (existingHook : json) : option bool :=
  let events := member existingHook "events" in
  match includes_event events "push" with
  | Some true => includes_event events "pull_request"
  | other => other
  end.

(** [`/repos/${repo}/hooks/${existingHook.id}`] *)
Definition hook_path (repo : string) (existingHook : json) : option string :=
  match member existingHook "id" with
  | Some id =>
      option_map (fun text => ("/repos/" ++ repo ++ "/hooks/" ++ text)%string)
        (to_string id)
  | None => Some ("/repos/" ++ repo ++ "/hooks/undefined")%string
  end.

Definition required_events : json := JArr [JStr "push"; JStr "pull_request"].

(** Lines 145-159. *)
Definition webhookConfig (m : machine) : json :=
  JObj [("name", JStr "web");
        ("active", JBool true);
        ("events", required_events);
        ("config",
         JObj ([("url", JStr (WEBHOOK_URL m));
                ("content_type", JStr "json");
                ("insecure_ssl", JStr "0")]
               ++ (if Str.is_empty (WEBHOOK_SECRET m) then []
                   else [("secret", JStr (WEBHOOK_SECRET m))])))].

(** A [PATCH] of the hook, unless this is a dry run; [false] when the
    request is rejected or its path cannot be built. *)
Definition update (m : machine) (sent : list api_request) (repo : string)
  (existingHook change : json) : list api_request * bool :=
  if DRY_RUN m then (sent, true)
  else match hook_path repo existingHook with
       | None => (sent, false)
       | Some path =>
           match githubRequest m sent "PATCH" path (Some change) with
           | (sent, inr _) => (sent, true)
           | (sent, inl _) => (sent, false)
           end
       end.

(** The body of the loop (lines 101-168) for one repository: the requests
    sent so far, and [false] when the [catch] ends the process. *)
Definition manage_one (m : machine) (sent : list api_request) (repo : string)
  : list api_request * bool :=
  match githubRequest m sent "GET" ("/repos/" ++ repo ++ "/hooks")%string
          None with
  | (sent, inl _) => (sent, false)
  | (sent, inr hooks) =>
      match find_hook (WEBHOOK_URL m) hooks with
      | None => (sent, false)
      | Some (Some existingHook) =>
          match hasRequiredEvents existingHook with
          | None => (sent, false)
          | Some has =>
              let '(sent, fine) :=
                if has then (sent, true)
                else update m sent repo existingHook
                       (JObj [("events", required_events)]) in
              if fine then
                if truthy_val (member existingHook "active") then (sent, true)
                else update m sent repo existingHook
                       (JObj [("active", JBool true)])
              else (sent, false)
          end
      | Some None =>
          if DRY_RUN m then (sent, true)
          else match githubRequest m sent "POST"
                       ("/repos/" ++ repo ++ "/hooks")%string
                       (Some (webhookConfig m)) with
               | (sent, inr _) => (sent, true)
               | (sent, inl _) => (sent, false)
               end
      end
  end.

(** [manageWebhooks] (lines 95-176): the requests sent and the exit code. *)
Fixpoint manageWebhooks (m : machine) (sent : list api_request)
  (repos : list string) : list api_request * Z :=
  match repos with
  | [] => (sent, 0%Z)
  | repo :: rest =>
      let (sent, fine) := manage_one m sent repo in
      if fine then manageWebhooks m sent rest else (sent, 1%Z)
  end.

(** The script as a whole. *)
Definition main (m : machine) : list api_request * Z :=
  if negb (dotenv_available m) then ([], 1%Z)
  else match repositories m with
       | [] => ([], 1%Z)
       | repos => manageWebhooks m [] repos
       end.

End Script.

(** ** Reference definitions for the further properties *)

(** A response as the handler shapes it: 200 with a [message] and no
    [error], or 400 or 500 with an [error]. *)
Definition well_shaped (r : response) : bool :=
  if Z.eqb (status r) 200
  then has_key (body r) "message" && negb (has_key (body r) "error")
  else (Z.eqb (status r) 400 || Z.eqb (status r) 500)
       && has_key (body r) "error".

(** The answer of the [catch] of step 4 (lines 291-301). *)
Definition fetch_failed (message : string) : response :=
  json_response 500
    [("error", str "Failed to fetch automation repository metadata");
     ("message", str message)].

(** The answer of lines 277-286. *)
Definition no_default_branch (repoData : json) : response :=
  json_response 500
    [("error",
      str "Could not determine default branch for automation repository");
     ("repo_data", Some repoData)].

(** [payload.repository ? (payload.repository.full_name || "") : ""] *)
Definition repository_name (payload : json) : json :=
  match member payload "repository" with
  | Some r => if truthy r then either (member r "full_name") (JStr "")
              else JStr ""
  | None => JStr ""
  end.

(** The entry that a truthy [payload.sender] adds to the inputs. *)
Definition sender_input (payload : json) : inputs_t :=
  match member payload "sender" with
  | Some s => if truthy s
              then [("sender", either (member s "login") (JStr "Unknown"))]
              else []
  | None => []
  end.

(** The inputs of a request whose repository is in the mapping, before
    the event is looked at. *)
Definition common_inputs (w : world) (event : string) (payload : json)
  : inputs_t :=
  [("event_type", JStr event);
   ("timestamp", JStr (now_prepared w));
   ("repository", repository_name payload)]
  ++ sender_input payload.

(** The inputs that a push adds. *)
Definition push_fields (payload : json) (branch : string) : inputs_t :=
  [("branch", JStr branch);
   ("author", either (chain (member payload "pusher") "name") (JStr "Unknown"));
   ("commit_sha", either (member payload "after") (JStr ""));
   ("commit_message",
    either (chain (member payload "head_commit") "message") (JStr ""));
   ("commit_url",
    either (chain (member payload "head_commit") "url") (JStr ""))].

(** [payload.pull_request.head?.ref || ""] *)
Definition head_ref (pull_request : json) : json :=
  either (chain (member pull_request "head") "ref") (JStr "").

(** The inputs that a pull request adds. *)
Definition pull_fields (prAction pull_request pr_number : json) : inputs_t :=
  [("branch", head_ref pull_request);
   ("pr_number", pr_number);
   ("pr_action", prAction);
   ("author",
    either (chain (member pull_request "user") "login") (JStr "Unknown"));
   ("pr_title", either (member pull_request "title") (JStr ""));
   ("pr_url", either (member pull_request "html_url") (JStr ""));
   ("target_branch",
    either (chain (member pull_request "base") "ref") (JStr ""))].

(** The pull-request inputs that survive the cap when a sender is set. *)
Definition pull_fields_kept (pull_request pr_number : json) : inputs_t :=
  [("branch", head_ref pull_request);
   ("author",
    either (chain (member pull_request "user") "login") (JStr "Unknown"));
   ("pr_number", pr_number);
   ("pr_title", either (member pull_request "title") (JStr ""));
   ("target_branch",
    either (chain (member pull_request "base") "ref") (JStr ""))].

(** [s] holds no [c]. *)
Fixpoint avoids (c : ascii) (s : string) : bool :=
  match s with
  | EmptyString => true
  | String a rest => negb (Ascii.eqb a c) && avoids c rest
  end.

(** A repository name or a workflow file as a mapping string can hold it:
    not empty, without comma or colon, without white space around it. *)
Definition plain (s : string) : bool :=
  negb (Str.is_empty s) && avoids "," s && avoids ":" s
  && String.eqb (Str.trim s) s.

(** The mapping string of a list of pairs: [repo:workflow] joined by
    commas. *)
Definition render_pair (kv : string * string) : string :=
  fst kv ++ ":" ++ snd kv.

Definition render_mappings (m : list (string * string)) : string :=
  Str.join "," (map render_pair m).

(** A pair whose name and workflow file have no white space around
    them. *)
Definition trimmed_pair (kv : string * string) : Prop :=
  Str.trim (fst kv) = fst kv /\ Str.trim (snd kv) = snd kv.

(** The requests of the registration script. *)
Definition listing (m : Script.machine) (repo : string) : Script.api_request :=
  Script.api_call m "GET" ("/repos/" ++ repo ++ "/hooks") None.

Definition creation (m : Script.machine) (repo : string)
  : Script.api_request :=
  Script.api_call m "POST" ("/repos/" ++ repo ++ "/hooks")
    (Some (Script.webhookConfig m)).

Definition events_patch (m : Script.machine) (path : string)
  : Script.api_request :=
  Script.api_call m "PATCH" path
    (Some (JObj [("events", Script.required_events)])).

Definition activation (m : Script.machine) (path : string)
  : Script.api_request :=
  Script.api_call m "PATCH" path (Some (JObj [("active", JBool true)])).

Definition is_get (r : Script.api_request) : bool :=
  String.eqb (Script.method r) "GET".

(** A machine used to evaluate the script: two repositories, the first
    without hook, the second with a hook of the relay that is inactive
    and listens to pushes only. *)
Module Rig.

Definition relay : string :=
  "https://relay.supabase.co/functions/v1/github-webhook".

Definition stale_hook : json :=
  JObj [("id", JNum 12);
        ("active", JBool false);
        ("events", JArr [JStr "push"]);
        ("config", JObj [("url", JStr relay)])].

Definition healthy_hook : json :=
  JObj [("id", JNum 7);
        ("active", JBool true);
        ("events", JArr [JStr "push"; JStr "pull_request"; JStr "issues"]);
        ("config", JObj [("url", JStr relay)])].

Definition variables (dry : bool) (k : string) : option string :=
  if String.eqb k "OWNER_GITHUB_TOKEN" then Some "secret"
  else if String.eqb k "SUPABASE_PROJECT_REF" then Some "relay"
  else if String.eqb k "WEBHOOK_SECRET" then Some "hush"
  else if String.eqb k "REPOSITORIES" then Some "acme/app, acme/site"
  else if String.eqb k "DRY_RUN" then Some (if dry then "true" else "false")
  else None.

Definition parse (text : string) : option json :=
  if String.eqb text "[]" then Some (JArr [])
  else if String.eqb text "[stale]" then Some (JArr [stale_hook])
  else if String.eqb text "[healthy]" then Some (JArr [healthy_hook])
  else if String.eqb text "{}" then Some (JObj [])
  else None.

Definition answers (sent : list Script.api_request)
  (request : Script.api_request) : Script.http_outcome :=
  if String.eqb (Script.method request) "GET" then
    if String.eqb (Script.path request) "/repos/acme/app/hooks"
    then Script.Answered 200 "[]"
    else Script.Answered 200 "[stale]"
  else Script.Answered 201 "{}".

Definition machine (dry : bool) : Script.machine :=
  {| Script.process_env := variables dry;
     Script.dotenv_available := true;
     Script.http := answers;
     Script.json_parse := parse;
     Script.error_stack := fun _ => None |}.

End Rig.

(** * Properties *)

(** ** Objects *)

Section ObjectFacts.
Context {V : Type}.
Implicit Types (o : list (string * V)) (k : string) (v : V).

Lemma get_set_same o k v : Obj.get (Obj.set o k v) k = Some v.
Proof.
  induction o as [|[k' v'] rest IH]; simpl.
  - now rewrite String.eqb_refl.
  - destruct (String.eqb k' k) eqn:E; simpl.
    + now rewrite String.eqb_refl.
    + now rewrite E.
Qed.

Lemma get_set_other o k k' v :
  k <> k' -> Obj.get (Obj.set o k v) k' = Obj.get o k'.
Proof.
  intros Hne. induction o as [|[k0 v0] rest IH]; simpl.
  - destruct (String.eqb_spec k k'); congruence.
  - destruct (String.eqb_spec k0 k) as [->|Hk]; simpl.
    + destruct (String.eqb_spec k k'); congruence.
    + now rewrite IH.
Qed.

Lemma get_none_not_in o k : Obj.get o k = None -> ~ In k (map fst o).
Proof.
  induction o as [|[k' v'] rest IH]; simpl; [tauto|].
  destruct (String.eqb_spec k' k); [discriminate|].
  intros H [Heq|Hin]; [congruence | now apply IH].
Qed.

Lemma get_some_in o k v : Obj.get o k = Some v -> In k (map fst o).
Proof.
  induction o as [|[k' v'] rest IH]; simpl; [discriminate|].
  destruct (String.eqb_spec k' k); [now left | right; now apply IH].
Qed.

Lemma set_fresh o k v : Obj.get o k = None -> Obj.set o k v = o ++ [(k, v)].
Proof.
  induction o as [|[k' v'] rest IH]; simpl; [reflexivity|].
  destruct (String.eqb k' k); [discriminate|].
  intros H. now rewrite IH.
Qed.

Lemma get_app_fresh o k v k' :
  Obj.get (o ++ [(k, v)]) k' =
  match Obj.get o k' with
  | Some v' => Some v'
  | None => if String.eqb k k' then Some v else None
  end.
Proof.
  induction o as [|[k0 v0] rest IH]; simpl; [reflexivity|].
  now destruct (String.eqb k0 k').
Qed.
End ObjectFacts.

Lemma insert_index_perm e l : Permutation (Obj.insert_index e l) (e :: l).
Proof.
  induction l as [|h rest IH]; simpl; [reflexivity|].
  destruct (fst e <=? fst h)%N; [reflexivity|].
  rewrite IH. apply perm_swap.
Qed.

Lemma index_keys_perm ks :
  Permutation (map snd (Obj.index_keys ks))
              (filter (fun k => negb (Obj.named k)) ks).
Proof.
  induction ks as [|k rest IH]; simpl; [reflexivity|].
  unfold Obj.named at 1. destruct (Obj.array_index k); simpl.
  - rewrite (Permutation_map snd (insert_index_perm (n, k) _)). simpl.
    now constructor.
  - exact IH.
Qed.

Lemma filter_split_perm {A : Type} (f : A -> bool) (l : list A) :
  Permutation (filter (fun a => negb (f a)) l ++ filter f l) l.
Proof.
  induction l as [|a rest IH]; simpl; [reflexivity|].
  destruct (f a); simpl.
  - symmetry. apply Permutation_cons_app. now symmetry.
  - now constructor.
Qed.

(** [Object.keys] lists each own key once: it reorders the keys only. *)
Lemma keys_perm {V : Type} (o : list (string * V)) :
  Permutation (Obj.keys o) (map fst o).
Proof.
  unfold Obj.keys. rewrite index_keys_perm. apply filter_split_perm.
Qed.

Lemma size_length {V : Type} (o : list (string * V)) :
  Obj.size o = List.length o.
Proof.
  unfold Obj.size. rewrite (Permutation_length (keys_perm o)).
  apply length_map.
Qed.

Lemma keys_in {V : Type} (o : list (string * V)) (k : string) :
  In k (Obj.keys o) <-> In k (map fst o).
Proof.
  split; apply Permutation_in; [|symmetry]; apply keys_perm.
Qed.

(** ** Numbers *)

(** A decimal that reads back as a double below 2^53 is that double. *)
Lemma reads_as_safe v x :
  (0 < v < 2 ^ 53)%Z -> Num.reads_as v x = true -> x = v.
Proof.
  intros Hv. unfold Num.reads_as, Num.nearest_double.
  destruct (0 <? x)%Z eqn:Hpos; [|discriminate]. apply Z.ltb_lt in Hpos.
  cbn [andb].
  destruct (Z.log2 x - 52 <=? 0)%Z eqn:He.
  - intros H. now apply Z.eqb_eq in H.
  - apply Z.leb_gt in He. intros H. exfalso.
    set (e := (Z.log2 x - 52)%Z) in *.
    set (ulp := (2 ^ e)%Z) in *.
    assert (Hulp : (2 <= ulp)%Z).
    { unfold ulp. change 2%Z with (2 ^ 1)%Z at 1.
      apply Z.pow_le_mono_r; lia. }
    assert (Hq : (2 ^ 52 <= x / ulp)%Z).
    { apply Z.div_le_lower_bound; [lia|].
      unfold ulp. rewrite <- Z.pow_add_r by lia.
      replace (e + 52)%Z with (Z.log2 x) by (unfold e; lia).
      apply Z.log2_spec. exact Hpos. }
    destruct (2 ^ 1024 <=? _)%Z; [discriminate H|].
    apply Z.eqb_eq in H.
    assert (Hm : (2 ^ 52 * 2 <= v)%Z).
    { rewrite <- H.
      apply Z.mul_le_mono_nonneg; try lia.
      repeat match goal with
             | |- context [if ?c then _ else _] => destruct c
             end; lia. }
    change (2 ^ 53)%Z with (2 ^ 52 * 2)%Z in Hv. lia.
Qed.

Lemma shortest_safe j v : (0 < v < 2 ^ 53)%Z -> Num.shortest j v = v.
Proof.
  intros Hv. induction j as [|j IH]; cbn [Num.shortest].
  all: destruct (Num.reads_as v (v / _ * _)) eqn:Hlo;
    destruct (Num.reads_as v (v / _ * _ + _)) eqn:Hhi; cbn [andb].
  all: try apply (reads_as_safe _ _ Hv) in Hlo.
  all: try apply (reads_as_safe _ _ Hv) in Hhi.
  all: try exact IH; try reflexivity; try assumption.
  all: repeat match goal with
              | |- context [if ?c then _ else _] => destruct c
              end; assumption.
Qed.

(** An integer from 0 to 2^53 - 1 is printed in decimal. *)
Lemma safe_integer_text n :
  (0 <= n < 2 ^ 53)%Z -> Num.to_text n = Str.of_Z n.
Proof.
  intros Hn. unfold Num.to_text.
  destruct (n =? 0)%Z eqn:Hz; [apply Z.eqb_eq in Hz; now subst|].
  apply Z.eqb_neq in Hz.
  replace (n <? 0)%Z with false by (symmetry; apply Z.ltb_ge; lia).
  rewrite Z.abs_eq by lia.
  assert (Hsmall : (Z.log2 n - 52 <=? 0)%Z = true).
  { apply Z.leb_le. assert (Z.log2 n < 53)%Z; [|lia].
    apply Z.log2_lt_pow2; lia. }
  unfold Num.nearest_double. rewrite Hsmall.
  rewrite shortest_safe by lia.
  unfold Num.notation.
  replace (n <? 10 ^ 21)%Z with true; [reflexivity|].
  symmetry. apply Z.ltb_lt.
  assert (2 ^ 53 < 10 ^ 21)%Z by reflexivity. lia.
Qed.

(** Beyond 2^53 the literal is rounded to the nearest double, and from
    1e21 on the text has an exponent. *)
Example large_numbers_printed :
  map Num.to_text
    [7; -12; 9007199254740993; 18446744073709551615; 10 ^ 21; 2 ^ 70;
     10 ^ 400]%Z
  = ["7"; "-12"; "9007199254740992"; "18446744073709552000"; "1e+21";
     "1.1805916207174113e+21"; "Infinity"]
  /\ number_text Sample.deployment (Some (JNum (10 ^ 21)))
     = Next (JStr "1e+21")
  /\ to_string (JArr [JNum (10 ^ 21); JNull; JStr "a"]) = Some "1e+21,,a".
Proof. vm_compute. repeat split. Qed.

(** ** Trimming *)

Lemma essentialKeys_NoDup : NoDup essentialKeys.
Proof.
  unfold essentialKeys.
  repeat (constructor; [simpl; intuition discriminate|]).
  constructor.
Qed.

Lemma keep_essential_select keys inputs acc :
  NoDup keys ->
  (forall k, In k keys -> Obj.get acc k = None) ->
  (List.length acc + List.length keys <= 10)%nat ->
  keep_essential keys inputs acc = acc ++ select keys inputs.
Proof.
  revert acc.
  induction keys as [|key rest IH]; intros acc Hnd Hfresh Hlen;
    cbn [keep_essential select].
  - now rewrite app_nil_r.
  - inversion Hnd as [|? ? Hnotin Hnd']; subst.
    destruct (Obj.get inputs key) as [v|] eqn:Hget.
    + rewrite (set_fresh acc key v) by (apply Hfresh; now left).
      rewrite size_length, length_app. simpl List.length in *.
      destruct (Nat.leb_spec 10 (List.length acc + 1)) as [Hfull|Hroom].
      * destruct rest; [reflexivity | simpl in Hlen; lia].
      * rewrite IH; [now rewrite <- app_assoc | assumption | | rewrite length_app; simpl; lia].
        intros k Hk. rewrite get_app_fresh, Hfresh by now right.
        destruct (String.eqb_spec key k); [subst; contradiction | reflexivity].
    + apply IH; [assumption | intros k Hk; apply Hfresh; now right | simpl in Hlen; lia].
Qed.

Lemma select_length keys inputs :
  (List.length (select keys inputs) <= List.length keys)%nat.
Proof.
  induction keys as [|key rest IH]; simpl; [lia|].
  destruct (Obj.get inputs key); simpl; lia.
Qed.

Lemma select_keys keys inputs k :
  In k (map fst (select keys inputs)) -> In k keys.
Proof.
  induction keys as [|key rest IH]; simpl; [tauto|].
  destruct (Obj.get inputs key); simpl; intuition.
Qed.

Lemma select_get keys inputs k :
  In k keys -> Obj.get (select keys inputs) k = Obj.get inputs k.
Proof.
  induction keys as [|key rest IH]; simpl; [tauto|].
  intros Hin. destruct (String.eqb_spec key k) as [->|Hne].
  - destruct (Obj.get inputs k) eqn:E; simpl.
    + now rewrite String.eqb_refl.
    + clear IH Hin. induction rest as [|key' rest' IH']; simpl; [reflexivity|].
      destruct (Obj.get inputs key') eqn:E'; simpl; [|exact IH'].
      destruct (String.eqb_spec key' k); [congruence | exact IH'].
  - destruct Hin as [Heq|Hin]; [contradiction|].
    destruct (Obj.get inputs key); simpl.
    + destruct (String.eqb_spec key k); [contradiction | now apply IH].
    + now apply IH.
Qed.

Lemma trim_over_limit inputs :
  (10 < Obj.size inputs)%nat -> trim_inputs inputs = select essentialKeys inputs.
Proof.
  intros Hbig. unfold trim_inputs.
  destruct (Nat.ltb_spec 10 (Obj.size inputs)); [|lia].
  rewrite keep_essential_select; [reflexivity | apply essentialKeys_NoDup | reflexivity | simpl; lia].
Qed.

Lemma trim_size inputs : (Obj.size (trim_inputs inputs) <= 10)%nat.
Proof.
  unfold trim_inputs. destruct (Nat.ltb_spec 10 (Obj.size inputs)) as [Hbig|Hsmall].
  - rewrite keep_essential_select; [| apply essentialKeys_NoDup | reflexivity | simpl; lia].
    simpl app. rewrite size_length.
    apply (Nat.le_trans _ _ _ (select_length essentialKeys inputs)). simpl. lia.
  - exact Hsmall.
Qed.

Lemma trim_get inputs k :
  In k essentialKeys -> Obj.get (trim_inputs inputs) k = Obj.get inputs k.
Proof.
  intros Hin. unfold trim_inputs.
  destruct (Nat.ltb_spec 10 (Obj.size inputs)) as [Hbig|Hsmall]; [|reflexivity].
  rewrite keep_essential_select; [| apply essentialKeys_NoDup | reflexivity | simpl; lia].
  now apply select_get.
Qed.

(** ** Stages *)

Lemma read_next w j k v : read w j k = Next v -> j <> JNull /\ v = member j k.
Proof. destruct j; simpl; intros H; inversion H; split; congruence. Qed.

Lemma read_member w j k : j <> JNull -> read w j k = Next (member j k).
Proof. destruct j; simpl; congruence. Qed.

Lemma require_next v r s :
  require v r = Next s -> v = Some s /\ Str.is_empty s = false.
Proof.
  destruct v as [x|]; simpl; [destruct (Str.is_empty x) eqn:E|];
    intros H; inversion H; subst; auto.
Qed.

Lemma require_cases v r :
  (exists s, require v r = Next s) \/ require v r = Reply r.
Proof.
  destruct v as [x|]; simpl; [destruct (Str.is_empty x)|]; eauto.
Qed.

Lemma require_absent v r : absent v = true -> require v r = Reply r.
Proof. destruct v as [x|]; simpl; [intros ->|]; reflexivity. Qed.

Lemma require_present v r s :
  v = Some s -> Str.is_empty s = false -> require v r = Next s.
Proof. intros -> H. simpl. now rewrite H. Qed.

Lemma require_val_next v r j :
  require_val v r = Next j -> v = Some j /\ truthy j = true.
Proof.
  destruct v as [x|]; simpl; [destruct (truthy x) eqn:E|];
    intros H; inversion H; subst; auto.
Qed.

Lemma require_val_present v r j :
  v = Some j -> truthy j = true -> require_val v r = Next j.
Proof. intros -> H. simpl. now rewrite H. Qed.

(** Reads the property set last by an object literal with a spread. *)
Ltac obj_get :=
  unfold Obj.spread; cbn [fold_left fst snd];
  repeat rewrite get_set_other by discriminate;
  rewrite get_set_same.

Lemma on_push_branch w payload inputs0 inputs src :
  on_push w payload inputs0 = Next (inputs, src) ->
  exists s, Str.is_empty s = false /\ src = JStr s /\
            Obj.get inputs "branch" = Some (JStr s).
Proof.
  unfold on_push. destruct payload; simpl; try discriminate.
  all: match goal with
       | |- context [is_true ?x] => destruct (is_true x); simpl; try discriminate
       end.
  all: match goal with
       | |- context [truthy_val ?x] =>
           destruct (truthy_val x); simpl; try discriminate
       end.
  all: match goal with
       | |- context [branch_of_ref _ ?x] =>
           destruct x as [[]|]; simpl; try discriminate
       end.
  all: match goal with
       | |- context [Str.is_empty ?x] =>
           destruct (Str.is_empty x) eqn:E; simpl; try discriminate
       end.
  all: intros H; inversion H; subst; eexists;
    split; [exact E | split; [reflexivity|]]; obj_get; reflexivity.
Qed.

Lemma on_pull_request_branch w payload inputs0 inputs src :
  on_pull_request w payload inputs0 = Next (inputs, src) ->
  truthy src = true /\ Obj.get inputs "branch" = Some src.
Proof.
  unfold on_pull_request. destruct payload; simpl; try discriminate.
  all: repeat match goal with
       | |- context [require_val ?x ?r] =>
           destruct (require_val x r); simpl; try discriminate
       end.
  all: match goal with
       | |- context [includes ?x ?y] =>
           destruct (includes x y); simpl; try discriminate
       end.
  all: try match goal with
       | |- context [text_of ?w ?x] =>
           destruct (text_of w x); simpl; try discriminate
       end.
  all: match goal with
       | |- context [truthy ?x] =>
           destruct (truthy x) eqn:E; simpl; try discriminate
       end.
  all: match goal with
       | |- context [number_text ?w ?x] =>
           destruct (number_text w x); simpl; try discriminate
       end.
  all: intros H; inversion H; subst; split; [exact E|]; obj_get; reflexivity.
Qed.

(** When step 6 falls through, [branch] is set to a truthy value. *)
Lemma normalize_branch w event payload inputs0 inputs src :
  normalize w event payload inputs0 = Next (inputs, src) ->
  truthy src = true /\ Obj.get inputs "branch" = Some src.
Proof.
  unfold normalize. destruct (String.eqb event "push").
  - intros H. apply on_push_branch in H as (s & Hs & -> & ->).
    simpl. now rewrite Hs.
  - destruct (String.eqb event "pull_request");
      [apply on_pull_request_branch | discriminate].
Qed.

Lemma normalized_inv w event payload workflowFilename inputs src :
  normalized w event payload = Next (workflowFilename, inputs, src) ->
  exists inputs0,
    located w event payload = Next (workflowFilename, inputs0) /\
    normalize w event payload inputs0 = Next (inputs, src).
Proof.
  unfold normalized.
  destruct (located w event payload) as [[wf i0]|r|e]; simpl; try discriminate.
  destruct (normalize w event payload i0) as [[i s]|r|e] eqn:E;
    simpl; try discriminate.
  intros H; inversion H; subst. now exists i0.
Qed.

Lemma normalized_branch w event payload workflowFilename inputs src :
  normalized w event payload = Next (workflowFilename, inputs, src) ->
  truthy src = true /\ Obj.get inputs "branch" = Some src.
Proof.
  intros H. apply normalized_inv in H as (i0 & _ & H).
  now apply normalize_branch in H.
Qed.

(** ** The handler as a whole *)

Lemma serve_rejected w rq r : intake w rq = Reply r -> serve w rq = (r, []).
Proof. intros H. unfold serve. now rewrite H. Qed.

Lemma serve_unfetched w rq event c payload r :
  intake w rq = Next (event, c, payload) ->
  default_branch w c = Reply r ->
  serve w rq = (r, [metadata_call c]).
Proof. intros Hi Hb. unfold serve. rewrite Hi. cbn [ended]. now rewrite Hb. Qed.

Lemma serve_stopped w rq event c payload b r :
  intake w rq = Next (event, c, payload) ->
  default_branch w c = Next b ->
  normalized w event payload = Reply r ->
  serve w rq = (r, [metadata_call c]).
Proof.
  intros Hi Hb Hn. unfold serve. rewrite Hi. cbn [ended]. rewrite Hb.
  cbn [ended]. now rewrite Hn.
Qed.

Lemma serve_threw w rq event c payload b e :
  intake w rq = Next (event, c, payload) ->
  default_branch w c = Next b ->
  normalized w event payload = Raise e ->
  serve w rq = (server_error w e, [metadata_call c]).
Proof.
  intros Hi Hb Hn. unfold serve. rewrite Hi. cbn [ended]. rewrite Hb.
  cbn [ended]. now rewrite Hn.
Qed.

Lemma serve_dispatches w rq event c payload b workflowFilename inputs src :
  intake w rq = Next (event, c, payload) ->
  default_branch w c = Next b ->
  normalized w event payload = Next (workflowFilename, inputs, src) ->
  serve w rq =
  (dispatch_response w event c workflowFilename b src (trim_inputs inputs)
     (net w (dispatch_call w c workflowFilename b (trim_inputs inputs))),
   [metadata_call c;
    dispatch_call w c workflowFilename b (trim_inputs inputs)]).
Proof.
  intros Hi Hb Hn. unfold serve. rewrite Hi. cbn [ended]. rewrite Hb.
  cbn [ended]. rewrite Hn. cbn [ended]. unfold deliver.
  apply normalized_branch in Hn as [Ht Hg]. rewrite Hg. cbn [truthy_val].
  rewrite Ht. reflexivity.
Qed.

Lemma text_of_cases w j :
  (exists s, text_of w j = Next s) \/ (exists e, text_of w j = Raise e).
Proof. unfold text_of. destruct (to_string j); eauto. Qed.

(** The intake never replies by throwing, and the fetch catches what it
    throws. *)
Lemma intake_no_raise w rq e : intake w rq <> Raise e.
Proof.
  unfold intake. cbv zeta.
  repeat match goal with
         | |- context [require ?v ?r] =>
             destruct (require_cases v r) as [[? ->] | ->];
             simpl; try discriminate
         end.
  destruct (json_body rq); simpl; discriminate.
Qed.

Lemma default_branch_no_raise w c e : default_branch w c <> Raise e.
Proof.
  unfold default_branch.
  destruct (net w (metadata_call c)) as [e'|r]; simpl; [discriminate|].
  destruct (ok r); simpl.
  - destruct (reply_json r) as [e'|repoData]; simpl; [discriminate|].
    destruct repoData; simpl; try discriminate.
    destruct (Obj.get props "default_branch") as [j|]; simpl; [|discriminate].
    destruct (truthy j); simpl; [|discriminate].
    destruct (text_of_cases w j) as [[s ->]|[e' ->]]; simpl; discriminate.
  - destruct (reply_text r); simpl; discriminate.
Qed.

Lemma intake_next w rq event c payload :
  intake w rq = Next (event, c, payload) ->
  event_header rq = Some event /\ Str.is_empty event = false
  /\ env w "GITHUB_TOKEN" = Some (GITHUB_TOKEN c)
  /\ env w "AUTOMATION_REPO_OWNER" = Some (AUTOMATION_REPO_OWNER c)
  /\ env w "AUTOMATION_REPO_NAME" = Some (AUTOMATION_REPO_NAME c)
  /\ json_body rq = Some payload.
Proof.
  unfold intake. cbv zeta. intros H.
  destruct (require (event_header rq) _) as [e| |] eqn:He; try discriminate H.
  destruct (require (env w "GITHUB_TOKEN") _) as [t| |] eqn:Ht;
    try discriminate H.
  cbn [bind] in H.
  destruct (require (env w "AUTOMATION_REPO_OWNER") _) as [o| |] eqn:Ho;
    try discriminate H.
  destruct (require (env w "AUTOMATION_REPO_NAME") _) as [n| |] eqn:Hn;
    try discriminate H.
  cbn [bind] in H.
  destruct (json_body rq) as [p|]; try discriminate H.
  cbn [bind] in H. inversion H; subst. cbn.
  apply require_next in He as [He1 He2], Ht as [Ht _], Ho as [Ho _],
    Hn as [Hn _].
  repeat split; assumption.
Qed.

(** ** The event header (C4) *)

(** C4. A request without the event-kind header (the header is absent, or
    empty) is answered 400 with a body made of an [error] field, and no
    outbound call is made: neither the metadata fetch nor the dispatch. *)
Theorem missing_header_rejected (w : world) (rq : request) :
  absent (event_header rq) = true ->
  fst (serve w rq) = error_response 400 "Missing GitHub event header"
  /\ status (fst (serve w rq)) = 400%Z
  /\ has_key (body (fst (serve w rq))) "error" = true
  /\ snd (serve w rq) = [].
Proof.
  intros Hmissing.
  assert (Hstop : intake w rq =
                  Reply (error_response 400 "Missing GitHub event header")).
  { unfold intake. now rewrite (require_absent _ _ Hmissing). }
  rewrite (serve_rejected _ _ _ Hstop). repeat split.
Qed.

Lemma missing_header_rejected_witness :
  absent (event_header {| event_header := None; json_body := Some JNull |}) = true
  /\ status (fst (serve Sample.deployment
                    {| event_header := None; json_body := Some JNull |})) = 400%Z
  /\ snd (serve Sample.deployment
            {| event_header := None; json_body := Some JNull |}) = [].
Proof.
  split; [reflexivity|].
  pose proof (missing_header_rejected Sample.deployment
                {| event_header := None; json_body := Some JNull |}
                eq_refl) as (_ & Hstatus & _ & Hcalls).
  split; [exact Hstatus | exact Hcalls].
Defined.

(** ** The cap on the inputs (C2) *)

(** C2. When the inputs assembled for a request count more than 10, the
    inputs that are dispatched are the entries of the assembled inputs
    under the keys of the fixed priority list, taken in the order of that
    list: at most 10 entries, no key from outside the list, and every
    listed key that was assembled kept with its value. *)
Theorem dispatched_inputs_trimmed
  (w : world) (rq : request) (event : string) (c : settings)
  (payload b : json) (workflowFilename : looked_up) (inputs : inputs_t)
  (src : json) :
  intake w rq = Next (event, c, payload) ->
  default_branch w c = Next b ->
  normalized w event payload = Next (workflowFilename, inputs, src) ->
  (10 < Obj.size inputs)%nat ->
  let sent := select essentialKeys inputs in
  snd (serve w rq) =
    [metadata_call c; dispatch_call w c workflowFilename b sent]
  /\ (Obj.size sent <= 10)%nat
  /\ (forall k, In k (Obj.keys sent) -> In k essentialKeys)
  /\ (forall k, In k essentialKeys -> Obj.get sent k = Obj.get inputs k).
Proof.
  intros Hi Hb Hn Hbig sent.
  rewrite (serve_dispatches _ _ _ _ _ _ _ _ _ Hi Hb Hn).
  rewrite (trim_over_limit inputs Hbig). fold sent.
  split; [reflexivity|]. split; [|split].
  - unfold sent. rewrite <- (trim_over_limit inputs Hbig). apply trim_size.
  - intros k Hk. apply keys_in in Hk. now apply select_keys in Hk.
  - intros k Hk. now apply select_get.
Qed.

Lemma dispatched_inputs_trimmed_witness :
  normalized Sample.deployment "pull_request"
    (Sample.pull_payload "acme/app" "opened")
  = Next (Own "ci.yml", Sample.opened_inputs, JStr "feature")
  /\ (10 < Obj.size Sample.opened_inputs)%nat
  /\ select essentialKeys Sample.opened_inputs = Sample.opened_sent
  /\ snd (serve Sample.deployment (Sample.pull_request "acme/app" "opened"))
     = [metadata_call Sample.config;
        dispatch_call Sample.deployment Sample.config (Own "ci.yml")
          (JStr "main") Sample.opened_sent].
Proof.
  assert (Hn : normalized Sample.deployment "pull_request"
                 (Sample.pull_payload "acme/app" "opened")
               = Next (Own "ci.yml", Sample.opened_inputs, JStr "feature"))
    by reflexivity.
  assert (Hbig : (10 < Obj.size Sample.opened_inputs)%nat)
    by (vm_compute; lia).
  split; [exact Hn|]. split; [exact Hbig|]. split; [reflexivity|].
  exact (proj1 (dispatched_inputs_trimmed Sample.deployment
                  (Sample.pull_request "acme/app" "opened")
                  "pull_request" Sample.config
                  (Sample.pull_payload "acme/app" "opened") (JStr "main")
                  (Own "ci.yml") Sample.opened_inputs (JStr "feature")
                  eq_refl eq_refl Hn Hbig)).
Defined.

(** ** Stack traces (C9) *)

Lemma no_stack code fields :
  ~ In "stack" (map fst fields) ->
  has_key (body (json_response code fields)) "stack" = false.
Proof.
  unfold has_key. simpl. intros Hnot.
  destruct (Obj.get (defined fields) "stack") as [found|] eqn:E; [|reflexivity].
  exfalso. apply Hnot. apply get_some_in in E. clear Hnot found.
  induction fields as [|[k [j|]] rest IH]; simpl in *; [tauto| |]; intuition.
Qed.

(** Follows the control flow of a stage that ended in a given way. *)
Ltac walk H :=
  repeat first
    [ discriminate H
    | progress (simpl in H)
    | match type of H with
      | context [match ?x with _ => _ end] =>
          lazymatch x with
          | context [match _ with _ => _ end] => fail
          | _ => destruct x eqn:?
          end
      end ].

Ltac plain H :=
  walk H; inversion H; subst;
  first [reflexivity | apply no_stack; simpl; intuition discriminate].

Lemma intake_plain w rq r :
  intake w rq = Reply r -> has_key (body r) "stack" = false.
Proof. unfold intake, bind, require. intros H. plain H. Qed.

Lemma default_branch_plain w c r :
  default_branch w c = Reply r -> has_key (body r) "stack" = false.
Proof.
  unfold default_branch, try_catch, bind, settle, read, require_val, text_of.
  intros H. plain H.
Qed.

Lemma located_plain w event payload r :
  located w event payload = Reply r -> has_key (body r) "stack" = false.
Proof.
  unfold located, base_inputs, resolve_workflow, try_catch, bind, require,
    return_if, read, text_of, not_configured.
  intros H. plain H.
Qed.

Lemma number_text_cases w n :
  (exists j, number_text w n = Next j) \/ (exists e, number_text w n = Raise e).
Proof.
  unfold number_text.
  destruct n as [[ |b0|z|s0|items|props]|]; eauto.
  - destruct (text_of_cases w (JBool b0)) as [[s ->]|[e ->]]; simpl; eauto.
  - destruct (text_of_cases w (JNum z)) as [[s ->]|[e ->]]; simpl; eauto.
  - destruct (text_of_cases w (JStr s0)) as [[s ->]|[e ->]]; simpl; eauto.
  - destruct (text_of_cases w (JArr items)) as [[s ->]|[e ->]]; simpl; eauto.
  - destruct (has_key props "toString"); eauto.
Qed.

Lemma branch_of_ref_cases w ref :
  (exists s, branch_of_ref w ref = Next s) \/
  (exists e, branch_of_ref w ref = Raise e).
Proof. unfold branch_of_ref. destruct ref as [[]|]; eauto. Qed.

(** Splits the calls that either give a value or throw. *)
Ltac atoms H :=
  repeat match type of H with
    | context [text_of ?w ?j] =>
        let E := fresh "E" in
        destruct (text_of_cases w j) as [[? E]|[? E]]; rewrite E in H; clear E
    | context [number_text ?w ?n] =>
        let E := fresh "E" in
        destruct (number_text_cases w n) as [[? E]|[? E]];
        rewrite E in H; clear E
    | context [branch_of_ref ?w ?v] =>
        let E := fresh "E" in
        destruct (branch_of_ref_cases w v) as [[? E]|[? E]];
        rewrite E in H; clear E
    end.

Lemma normalize_plain w event payload inputs r :
  normalize w event payload inputs = Reply r ->
  has_key (body r) "stack" = false.
Proof.
  unfold normalize, on_push, on_pull_request,
    try_catch, bind, require_val, return_if, read.
  intros H.
  repeat first
    [ discriminate H
    | progress (simpl in H)
    | progress (atoms H)
    | match type of H with
      | context [match ?x with _ => _ end] =>
          lazymatch x with
          | context [match _ with _ => _ end] => fail
          | _ => destruct x eqn:?
          end
      end ].
  all: inversion H; subst;
    first [reflexivity | apply no_stack; simpl; intuition discriminate].
Qed.

Lemma normalized_plain w event payload r :
  normalized w event payload = Reply r -> has_key (body r) "stack" = false.
Proof.
  unfold normalized.
  destruct (located w event payload) as [[wf i0]|r0|e] eqn:El; simpl;
    try discriminate.
  - destruct (normalize w event payload i0) as [[i s]|r0|e] eqn:En; simpl;
      try discriminate.
    intros H; inversion H; subst. now apply normalize_plain in En.
  - intros H; inversion H; subst. now apply located_plain in El.
Qed.

Lemma deliver_plain w event c payload b job :
  has_key (body (fst (deliver w event c payload b job))) "stack" = false.
Proof.
  destruct job as [[wf inputs] src]. unfold deliver.
  destruct (negb (truthy_val (Obj.get inputs "branch"))); [reflexivity|].
  cbn [fst]. unfold dispatch_response.
  destruct (net w _) as [e|res]; [reflexivity|].
  destruct (ok res); apply no_stack; simpl; intuition discriminate.
Qed.

Lemma server_error_stack w e :
  has_key (body (server_error w e)) "stack" = true ->
  env w "ENVIRONMENT" = Some "development".
Proof.
  unfold server_error, development.
  destruct (env w "ENVIRONMENT") as [v|]; [|discriminate].
  destruct (String.eqb_spec v "development"); [now subst | discriminate].
Qed.

Lemma server_error_flag w flag e :
  status (server_error (with_environment w flag) e) = status (server_error w e)
  /\ without_stack (body (server_error (with_environment w flag) e))
     = without_stack (body (server_error w e)).
Proof.
  unfold server_error, development. split; [reflexivity|].
  cbn [env with_environment String.eqb Ascii.eqb Bool.eqb].
  destruct flag as [v|], (env w "ENVIRONMENT") as [v'|];
    repeat match goal with
           | |- context [String.eqb ?a "development"] =>
               destruct (String.eqb a "development")
           end;
    destruct (err_stack e); reflexivity.
Qed.

(** Only the catch-all reads [ENVIRONMENT]. *)
Lemma serve_flag w flag rq :
  status (fst (serve (with_environment w flag) rq)) = status (fst (serve w rq))
  /\ without_stack (body (fst (serve (with_environment w flag) rq)))
     = without_stack (body (fst (serve w rq)))
  /\ snd (serve (with_environment w flag) rq) = snd (serve w rq).
Proof.
  unfold serve.
  change (intake (with_environment w flag) rq) with (intake w rq).
  destruct (intake w rq) as [[[event c] payload]|r|e] eqn:Hi; cbn [ended].
  - change (default_branch (with_environment w flag) c)
      with (default_branch w c).
    destruct (default_branch w c) as [b|r|e] eqn:Hb; cbn [ended].
    + change (normalized (with_environment w flag) event payload)
        with (normalized w event payload).
      destruct (normalized w event payload) as [job|r|e] eqn:Hn; cbn [ended].
      * change (deliver (with_environment w flag) event c payload b job)
          with (deliver w event c payload b job).
        destruct (deliver w event c payload b job). repeat split.
      * repeat split.
      * cbn [fst snd]. destruct (server_error_flag w flag e). repeat split; assumption.
    + repeat split.
    + now apply default_branch_no_raise in Hb.
  - repeat split.
  - now apply intake_no_raise in Hi.
Qed.

(** C9. A response carries a [stack] field only when [ENVIRONMENT] is
    [development]; and two runs of the handler that differ only in the
    value of [ENVIRONMENT] answer with the same status and the same fields
    other than [stack], after the same outbound calls. *)
Theorem stack_only_in_development (w : world) (rq : request) :
  (has_key (body (fst (serve w rq))) "stack" = true ->
   env w "ENVIRONMENT" = Some "development")
  /\ (forall flag1 flag2 : option string,
        status (fst (serve (with_environment w flag1) rq))
        = status (fst (serve (with_environment w flag2) rq))
        /\ without_stack (body (fst (serve (with_environment w flag1) rq)))
           = without_stack (body (fst (serve (with_environment w flag2) rq)))
        /\ snd (serve (with_environment w flag1) rq)
           = snd (serve (with_environment w flag2) rq)).
Proof.
  split.
  - unfold serve.
    destruct (intake w rq) as [[[event c] payload]|r|e] eqn:Hi; cbn [ended fst].
    + destruct (default_branch w c) as [b|r|e] eqn:Hb; cbn [ended fst].
      * destruct (normalized w event payload) as [job|r|e] eqn:Hn;
          cbn [ended fst].
        -- pose proof (deliver_plain w event c payload b job) as Hp.
           destruct (deliver w event c payload b job). cbn [fst] in *.
           congruence.
        -- apply normalized_plain in Hn. congruence.
        -- apply server_error_stack.
      * apply default_branch_plain in Hb. congruence.
      * apply server_error_stack.
    + apply intake_plain in Hi. congruence.
    + apply server_error_stack.
  - intros flag1 flag2.
    destruct (serve_flag w flag1 rq) as (S1 & B1 & C1).
    destruct (serve_flag w flag2 rq) as (S2 & B2 & C2).
    repeat split; congruence.
Qed.

Lemma stack_only_in_development_witness :
  has_key
    (body (fst (serve (with_environment Sample.deployment (Some "development"))
                  {| event_header := Some "push"; json_body := Some JNull |})))
    "stack" = true
  /\ env (with_environment Sample.deployment (Some "development"))
       "ENVIRONMENT" = Some "development"
  /\ has_key
       (body (fst (serve (with_environment Sample.deployment (Some "production"))
                     {| event_header := Some "push";
                        json_body := Some JNull |})))
       "stack" = false.
Proof.
  split; [reflexivity|]. split; [|reflexivity].
  apply (proj1 (stack_only_in_development
                  (with_environment Sample.deployment (Some "development"))
                  {| event_header := Some "push"; json_body := Some JNull |})).
  reflexivity.
Defined.

(** ** The branch check (C8) *)

(** C8. Whatever the request, a dispatch call carries inputs whose
    [branch] is set and truthy (not empty); and if the inputs that come out
    of the normalization have no [branch], or an empty one, the rest of the
    handler answers 400 with an [error] field and makes no call. *)
Theorem dispatch_requires_branch (w : world) (rq : request) :
  (forall url token ref inputs,
      In (PostDispatch url token ref inputs) (snd (serve w rq)) ->
      truthy_val (Obj.get inputs "branch") = true)
  /\ (forall event c payload b workflowFilename inputs src,
         truthy_val (Obj.get inputs "branch") = false ->
         let answer :=
           deliver w event c payload b (workflowFilename, inputs, src) in
         status (fst answer) = 400%Z
         /\ Obj.get (body (fst answer)) "error"
            = Some (JStr "Could not determine branch to build")
         /\ snd answer = []).
Proof.
  split.
  - intros url token ref inputs. unfold serve.
    destruct (ended w (intake w rq)) as [r|[[event c] payload]];
      [intros []|].
    destruct (ended w (default_branch w c)) as [r|b];
      [intros [H|[]]; discriminate H|].
    destruct (ended w (normalized w event payload)) as [r|[[wf inputs0] src]];
      [intros [H|[]]; discriminate H|].
    unfold deliver.
    destruct (truthy_val (Obj.get inputs0 "branch")) eqn:Hbranch; cbn [negb snd].
    + intros [H|[H|[]]]; [discriminate H|].
      unfold dispatch_call in H. inversion H; subst.
      rewrite trim_get; [exact Hbranch|]. unfold essentialKeys. simpl. tauto.
    + intros [H|[]]; discriminate H.
  - intros event c payload b workflowFilename inputs src Hbranch.
    unfold deliver. rewrite Hbranch. repeat split.
Qed.

Lemma dispatch_requires_branch_witness :
  truthy_val (Obj.get Sample.opened_sent "branch") = true
  /\ truthy_val (Obj.get (Sample.common "push" "acme/app") "branch") = false
  /\ snd (deliver Sample.deployment "push" Sample.config JNull (JStr "main")
            (Own "ci.yml", Sample.common "push" "acme/app", JStr "")) = [].
Proof.
  destruct (dispatch_requires_branch Sample.deployment
              (Sample.pull_request "acme/app" "opened")) as [Hsent Hnone].
  split; [|split; [reflexivity|]].
  - apply (Hsent
             "https://api.github.com/repos/acme/automation/actions/workflows/ci.yml/dispatches"
             "secret" (JStr "main") Sample.opened_sent).
    right. left. reflexivity.
  - apply (Hnone "push" Sample.config JNull (JStr "main") (Own "ci.yml")
             (Sample.common "push" "acme/app") (JStr "")).
    reflexivity.
Defined.

(** ** The event kinds (C1, C3, C5) *)

Lemma located_not_null w event payload x :
  located w event payload = Next x -> payload <> JNull.
Proof. intros H ->. discriminate H. Qed.

Lemma normalized_from w event payload workflowFilename inputs0 :
  located w event payload = Next (workflowFilename, inputs0) ->
  normalized w event payload =
  ('(inputs, src) <- normalize w event payload inputs0 ;;
   Next (workflowFilename, inputs, src)).
Proof. intros H. unfold normalized. now rewrite H. Qed.

Lemma on_push_ref w payload inputs0 s :
  payload <> JNull ->
  is_true (member payload "deleted") = false ->
  member payload "ref" = Some (JStr s) ->
  Str.is_empty s = false ->
  if Str.is_empty (Str.remove_first "refs/heads/" s)
  then on_push w payload inputs0 =
       Reply (error_response 400 "Invalid branch reference format")
  else exists inputs,
      on_push w payload inputs0 =
      Next (inputs, JStr (Str.remove_first "refs/heads/" s)).
Proof.
  intros Hnn Hdel Href Hs. unfold on_push.
  rewrite !(read_member w payload _ Hnn). cbn [bind].
  rewrite Hdel, Href. cbn [return_if bind truthy_val truthy branch_of_ref].
  rewrite Hs. cbn [negb bind].
  destruct (Str.is_empty (Str.remove_first "refs/heads/" s));
    [reflexivity | eexists; reflexivity].
Qed.

Lemma on_push_no_ref w payload inputs0 :
  payload <> JNull ->
  is_true (member payload "deleted") = false ->
  truthy_val (member payload "ref") = false ->
  on_push w payload inputs0 =
  Reply (error_response 400 "Invalid push event payload: missing ref").
Proof.
  intros Hnn Hdel Href. unfold on_push.
  rewrite !(read_member w payload _ Hnn). cbn [bind].
  now rewrite Hdel, Href.
Qed.

Lemma on_push_odd_ref w payload inputs0 j :
  payload <> JNull ->
  is_true (member payload "deleted") = false ->
  member payload "ref" = Some j ->
  truthy j = true ->
  (forall s, j <> JStr s) ->
  on_push w payload inputs0 =
  Reply (error_response 400 "Failed to process push event data").
Proof.
  intros Hnn Hdel Href Ht Hodd. unfold on_push.
  rewrite !(read_member w payload _ Hnn). cbn [bind].
  rewrite Hdel, Href. cbn [return_if bind truthy_val]. rewrite Ht.
  destruct j; try reflexivity. now destruct (Hodd s).
Qed.

Lemma prefix_append pat s : prefix pat (pat ++ s) = true.
Proof.
  induction pat as [|a pat IH]; simpl; [now destruct s|].
  destruct (ascii_dec a a); [exact IH | contradiction].
Qed.

Lemma drop_append pat s : Str.drop (length pat) (pat ++ s) = s.
Proof. induction pat as [|a pat IH]; simpl; [reflexivity | exact IH]. Qed.

Lemma remove_first_eq pat s :
  Str.remove_first pat s =
  if prefix pat s then Str.drop (length pat) s
  else match s with
       | EmptyString => EmptyString
       | String a rest => String a (Str.remove_first pat rest)
       end.
Proof. destruct s; reflexivity. Qed.

(** Removing the first occurrence strips a prefix. *)
Lemma remove_first_prefix pat s : Str.remove_first pat (pat ++ s) = s.
Proof.
  rewrite remove_first_eq, prefix_append. apply drop_append.
Qed.

Lemma serve_normalize_reply w rq event c payload b workflowFilename inputs0 r :
  intake w rq = Next (event, c, payload) ->
  default_branch w c = Next b ->
  located w event payload = Next (workflowFilename, inputs0) ->
  normalize w event payload inputs0 = Reply r ->
  serve w rq = (r, [metadata_call c]).
Proof.
  intros Hi Hb Hl Hn. apply (serve_stopped _ _ _ _ _ _ _ Hi Hb).
  rewrite (normalized_from _ _ _ _ _ Hl), Hn. reflexivity.
Qed.

Lemma serve_normalize_next w rq event c payload b workflowFilename inputs0
  inputs src :
  intake w rq = Next (event, c, payload) ->
  default_branch w c = Next b ->
  located w event payload = Next (workflowFilename, inputs0) ->
  normalize w event payload inputs0 = Next (inputs, src) ->
  snd (serve w rq) =
    [metadata_call c;
     dispatch_call w c workflowFilename b (trim_inputs inputs)]
  /\ Obj.get (trim_inputs inputs) "branch" = Some src.
Proof.
  intros Hi Hb Hl Hn.
  assert (Hnd : normalized w event payload = Next (workflowFilename, inputs, src)).
  { rewrite (normalized_from _ _ _ _ _ Hl), Hn. reflexivity. }
  rewrite (serve_dispatches _ _ _ _ _ _ _ _ _ Hi Hb Hnd). split; [reflexivity|].
  rewrite trim_get by (unfold essentialKeys; simpl; tauto).
  now apply normalize_branch in Hn.
Qed.

(** What the handler has of C1.  For a push that is not a branch deletion
    and has passed the configuration checks, the metadata fetch and the
    mapping lookup: without a [ref] the answer is 400; with a string [ref]
    the branch is the [ref] with the first [refs/heads/] removed, the
    answer is 400 if nothing is left, and otherwise the dispatch carries
    that branch; a [ref] that is not a string is answered 400.  For a
    [ref] of the form [refs/heads/<branch>] this is [<branch>]; a [ref] of
    another form is not refused. *)
Theorem push_branch_extracted
  (w : world) (rq : request) (c : settings) (payload b : json)
  (workflowFilename : looked_up) (inputs0 : inputs_t) :
  intake w rq = Next ("push", c, payload) ->
  default_branch w c = Next b ->
  located w "push" payload = Next (workflowFilename, inputs0) ->
  is_true (member payload "deleted") = false ->
  (truthy_val (member payload "ref") = false ->
   serve w rq =
   (error_response 400 "Invalid push event payload: missing ref",
    [metadata_call c]))
  /\ (forall s, member payload "ref" = Some (JStr s) ->
        Str.is_empty s = false ->
        let branch := Str.remove_first "refs/heads/" s in
        if Str.is_empty branch
        then serve w rq =
             (error_response 400 "Invalid branch reference format",
              [metadata_call c])
        else exists sent,
            snd (serve w rq) =
              [metadata_call c; dispatch_call w c workflowFilename b sent]
            /\ Obj.get sent "branch" = Some (JStr branch))
  /\ (forall j, member payload "ref" = Some j -> truthy j = true ->
        (forall s, j <> JStr s) ->
        serve w rq =
        (error_response 400 "Failed to process push event data",
         [metadata_call c]))
  /\ (forall name,
        Str.remove_first "refs/heads/" ("refs/heads/" ++ name) = name).
Proof.
  intros Hi Hb Hl Hdel.
  pose proof (located_not_null _ _ _ _ Hl) as Hnn.
  split; [|split; [|split]].
  - intros Href. apply (serve_normalize_reply _ _ _ _ _ _ _ _ _ Hi Hb Hl).
    unfold normalize. cbn [String.eqb Ascii.eqb Bool.eqb].
    now apply on_push_no_ref.
  - intros s Href Hs branch.
    pose proof (on_push_ref w payload inputs0 s Hnn Hdel Href Hs) as Hpush.
    fold branch in Hpush. destruct (Str.is_empty branch).
    + apply (serve_normalize_reply _ _ _ _ _ _ _ _ _ Hi Hb Hl).
      unfold normalize. cbn [String.eqb Ascii.eqb Bool.eqb]. exact Hpush.
    + destruct Hpush as [inputs Hpush]. exists (trim_inputs inputs).
      apply (serve_normalize_next _ _ _ _ _ _ _ _ _ _ Hi Hb Hl).
      unfold normalize. cbn [String.eqb Ascii.eqb Bool.eqb]. exact Hpush.
  - intros j Href Ht Hodd.
    apply (serve_normalize_reply _ _ _ _ _ _ _ _ _ Hi Hb Hl).
    unfold normalize. cbn [String.eqb Ascii.eqb Bool.eqb].
    now apply (on_push_odd_ref _ _ _ j).
  - intros name. apply remove_first_prefix.
Qed.

Lemma push_branch_extracted_witness :
  located Sample.deployment "push"
    (JObj [Sample.from "acme/site";
           ("sender", JObj [("login", JStr "alice")]);
           ("ref", JStr "refs/heads/main");
           ("pusher", JObj [("name", JStr "alice")]);
           ("after", JStr "abc123")])
  = Next (Own "deploy.yml", Sample.common "push" "acme/site")
  /\ exists sent,
      snd (serve Sample.deployment (Sample.push "acme/site" "refs/heads/main"))
      = [metadata_call Sample.config;
         dispatch_call Sample.deployment Sample.config (Own "deploy.yml")
           (JStr "main") sent]
      /\ Obj.get sent "branch" = Some (JStr "main").
Proof.
  split; [reflexivity|].
  exact (proj1 (proj2
           (push_branch_extracted Sample.deployment
              (Sample.push "acme/site" "refs/heads/main") Sample.config _
              (JStr "main") (Own "deploy.yml")
              (Sample.common "push" "acme/site")
              eq_refl eq_refl eq_refl eq_refl))
           "refs/heads/main" eq_refl eq_refl).
Defined.

(** C1 on the code, at the push of a tag.  The handler means to take the
    branch out of a [ref] of the form [refs/heads/<branch>] (the comment
    of line 411) and to refuse another form (the [Invalid branch
    reference format] of line 417), but it only tests that something is
    left once a first [refs/heads/] is removed.  A [ref] that is not of
    that form is left whole, passes the test, and the workflow is
    dispatched with the whole [ref] as its branch: the request is
    answered 200, not 400. *)
Lemma tag_push_dispatched :
  prefix "refs/heads/" "refs/tags/v1.0" = false
  /\ status (fst (serve Sample.deployment
                    (Sample.push "acme/site" "refs/tags/v1.0"))) = 200%Z
  /\ snd (serve Sample.deployment (Sample.push "acme/site" "refs/tags/v1.0"))
     = [metadata_call Sample.config;
        dispatch_call Sample.deployment Sample.config (Own "deploy.yml")
          (JStr "main")
          (Sample.common "push" "acme/site" ++
           [("branch", JStr "refs/tags/v1.0");
            ("author", JStr "alice");
            ("commit_sha", JStr "abc123");
            ("commit_message", JStr "");
            ("commit_url", JStr "")])].
Proof. repeat split. Qed.

Lemma on_pull_request_skipped w payload inputs0 prAction pull shown :
  payload <> JNull ->
  member payload "action" = Some prAction -> truthy prAction = true ->
  member payload "pull_request" = Some pull -> truthy pull = true ->
  includes buildTriggeringActions prAction = false ->
  to_string prAction = Some shown ->
  on_pull_request w payload inputs0 =
  Reply (json_response 200
           [("message",
             str ("PR action '" ++ shown ++ "' doesn't trigger a build"));
            ("pr_number", member payload "number");
            ("pr_action", Some prAction)]).
Proof.
  intros Hnn Ha Hta Hp Htp Hno Hshown. unfold on_pull_request.
  rewrite !(read_member w payload _ Hnn). cbn [bind].
  rewrite (require_val_present _ _ _ Ha Hta). cbn [bind].
  rewrite (require_val_present _ _ _ Hp Htp). cbn [bind].
  rewrite Hno. unfold text_of. rewrite Hshown. reflexivity.
Qed.

(** A pull request whose action is outside the list never falls through
    to the dispatch, in any world. *)
Lemma on_pull_request_next w payload inputs0 x prAction :
  on_pull_request w payload inputs0 = Next x ->
  member payload "action" = Some prAction ->
  includes buildTriggeringActions prAction = true.
Proof.
  unfold on_pull_request. intros H Ha.
  destruct payload; simpl in H; try discriminate H.
  all: simpl in Ha; rewrite Ha in H; simpl in H.
  all: destruct (truthy prAction); simpl in H; try discriminate H.
  all: try match type of H with
       | context [require_val ?v ?r] =>
           destruct (require_val v r); simpl in H; try discriminate H
       end.
  all: destruct (includes buildTriggeringActions prAction);
    [reflexivity | simpl in H].
  all: destruct (text_of w prAction); discriminate H.
Qed.

Lemma non_build_action_never_dispatched w rq c payload prAction :
  intake w rq = Next ("pull_request", c, payload) ->
  member payload "action" = Some prAction ->
  includes buildTriggeringActions prAction = false ->
  existsb is_dispatch (snd (serve w rq)) = false.
Proof.
  intros Hi Ha Hno. unfold serve. rewrite Hi. cbn [ended].
  destruct (ended w (default_branch w c)) as [r|b]; [reflexivity|].
  destruct (normalized w "pull_request" payload) as [[[wf inputs] src]|r|e]
    eqn:Hn; cbn [ended]; try reflexivity.
  exfalso. apply normalized_inv in Hn as (inputs0 & _ & Hn).
  unfold normalize in Hn. cbn [String.eqb Ascii.eqb Bool.eqb] in Hn.
  apply (on_pull_request_next _ _ _ _ prAction) in Hn; congruence.
Qed.

(** C3, as the handler has it.  For a pull-request event whose payload
    has an [action] and a [pull_request] that are present, with an action
    outside [opened], [reopened], [synchronize]: no workflow is
    dispatched, in any world; and once the request has passed the
    configuration checks, the metadata fetch and the mapping lookup, and
    the action has a text, the answer is 200 with the message that the
    action does not trigger a build, the metadata fetch being the only
    outbound call. *)
Theorem non_build_action_skipped
  (w : world) (rq : request) (payload prAction pull : json) :
  event_header rq = Some "pull_request" ->
  json_body rq = Some payload ->
  member payload "action" = Some prAction -> truthy prAction = true ->
  member payload "pull_request" = Some pull -> truthy pull = true ->
  includes buildTriggeringActions prAction = false ->
  existsb is_dispatch (snd (serve w rq)) = false
  /\ forall (c : settings) (b : json) (workflowFilename : looked_up)
       (inputs0 : inputs_t) (shown : string),
      intake w rq = Next ("pull_request", c, payload) ->
      default_branch w c = Next b ->
      located w "pull_request" payload = Next (workflowFilename, inputs0) ->
      to_string prAction = Some shown ->
      serve w rq =
      (json_response 200
         [("message",
           str ("PR action '" ++ shown ++ "' doesn't trigger a build"));
          ("pr_number", member payload "number");
          ("pr_action", Some prAction)],
       [metadata_call c])
      /\ status (fst (serve w rq)) = 200%Z.
Proof.
  intros Hevent Hbody Ha Hta Hp Htp Hno. split.
  - destruct (intake w rq) as [[[event c] payload']|r|e] eqn:Hi.
    + destruct (intake_next _ _ _ _ _ Hi) as (He & _ & _ & _ & _ & Hp').
      assert (event = "pull_request") by congruence.
      assert (payload' = payload) by congruence. subst.
      now apply (non_build_action_never_dispatched _ _ c payload prAction).
    + now rewrite (serve_rejected _ _ _ Hi).
    + now apply intake_no_raise in Hi.
  - intros c b workflowFilename inputs0 shown Hi Hb Hl Hshown.
    pose proof (located_not_null _ _ _ _ Hl) as Hnn.
    assert (Hs : serve w rq =
      (json_response 200
         [("message",
           str ("PR action '" ++ shown ++ "' doesn't trigger a build"));
          ("pr_number", member payload "number");
          ("pr_action", Some prAction)],
       [metadata_call c])).
    { apply (serve_normalize_reply _ _ _ _ _ _ _ _ _ Hi Hb Hl).
      unfold normalize. cbn [String.eqb Ascii.eqb Bool.eqb].
      now apply (on_pull_request_skipped _ _ _ _ pull). }
    rewrite Hs. split; reflexivity.
Qed.

Lemma non_build_action_skipped_witness :
  includes buildTriggeringActions (JStr "labeled") = false
  /\ serve Sample.deployment (Sample.pull_request "acme/app" "labeled")
     = (json_response 200
          [("message", str "PR action 'labeled' doesn't trigger a build");
           ("pr_number", Some (JNum 7));
           ("pr_action", Some (JStr "labeled"))],
        [metadata_call Sample.config]).
Proof.
  split; [reflexivity|].
  exact (proj1
           (proj2
              (non_build_action_skipped Sample.deployment
                 (Sample.pull_request "acme/app" "labeled")
                 (Sample.pull_payload "acme/app" "labeled")
                 (JStr "labeled")
                 (JObj [("head", JObj [("ref", JStr "feature")]);
                        ("base", JObj [("ref", JStr "main")]);
                        ("title", JStr "Add feature");
                        ("html_url",
                         JStr "https://github.com/acme/app/pull/7");
                        ("user", JObj [("login", JStr "bob")])])
                 eq_refl eq_refl eq_refl eq_refl eq_refl eq_refl eq_refl)
              Sample.config (JStr "main") (Own "ci.yml")
              (Sample.common "pull_request" "acme/app") "labeled"
              eq_refl eq_refl eq_refl eq_refl)).
Defined.

(** An action that has no text makes the template of the message throw:
    the catch-all answers 500.  C3 as amended leaves this case out. *)
Example action_without_text_caught :
  let payload :=
    JObj [Sample.from "acme/app";
          ("action", JObj [("toString", JNum 1)]);
          ("pull_request", JObj [])] in
  to_string (JObj [("toString", JNum 1)]) = None
  /\ serve Sample.deployment
       {| event_header := Some "pull_request"; json_body := Some payload |}
     = (json_response 500
          [("error", str "Server error"); ("message", str "TypeError")],
        [metadata_call Sample.config]).
Proof. repeat split. Qed.

(** Against C3 as stated: a pull request that is labeled, sent from a
    repository that the mapping does not list, is answered 400, not
    200. *)
Lemma labeled_from_unmapped_repository :
  member (Sample.pull_payload "acme/none" "labeled") "action"
  = Some (JStr "labeled")
  /\ includes buildTriggeringActions (JStr "labeled") = false
  /\ truthy_val (member (Sample.pull_payload "acme/none" "labeled")
                   "pull_request") = true
  /\ status (fst (serve Sample.deployment
                    (Sample.pull_request "acme/none" "labeled"))) = 400%Z.
Proof. repeat split. Qed.

(** An event of another kind never falls through to the dispatch. *)
Lemma other_event_never_dispatched w rq event c payload :
  intake w rq = Next (event, c, payload) ->
  event <> "push" -> event <> "pull_request" ->
  existsb is_dispatch (snd (serve w rq)) = false.
Proof.
  intros Hi Hpush Hpull. unfold serve. rewrite Hi. cbn [ended].
  destruct (ended w (default_branch w c)) as [r|b]; [reflexivity|].
  destruct (normalized w event payload) as [[[wf inputs] src]|r|e]
    eqn:Hn; cbn [ended]; try reflexivity.
  exfalso. apply normalized_inv in Hn as (inputs0 & _ & Hn).
  unfold normalize in Hn.
  destruct (String.eqb_spec event "push"); [contradiction|].
  destruct (String.eqb_spec event "pull_request"); [contradiction|].
  discriminate Hn.
Qed.

(** C5, as the handler has it.  For an event that is neither [push] nor
    [pull_request] and has passed the configuration checks, the metadata
    fetch and the mapping lookup, the answer is 200 with the message
    [Ignored event: <kind>], and the only outbound call is the metadata
    fetch. *)
Theorem other_event_ignored
  (w : world) (rq : request) (event : string) (c : settings)
  (payload b : json) (workflowFilename : looked_up) (inputs0 : inputs_t) :
  intake w rq = Next (event, c, payload) ->
  event <> "push" -> event <> "pull_request" ->
  default_branch w c = Next b ->
  located w event payload = Next (workflowFilename, inputs0) ->
  serve w rq =
  (json_response 200 [("message", str ("Ignored event: " ++ event))],
   [metadata_call c])
  /\ status (fst (serve w rq)) = 200%Z.
Proof.
  intros Hi Hpush Hpull Hb Hl.
  assert (Hs : serve w rq =
    (json_response 200 [("message", str ("Ignored event: " ++ event))],
     [metadata_call c])).
  { apply (serve_normalize_reply _ _ _ _ _ _ _ _ _ Hi Hb Hl).
    unfold normalize.
    destruct (String.eqb_spec event "push"); [contradiction|].
    destruct (String.eqb_spec event "pull_request"); [contradiction|].
    reflexivity. }
  rewrite Hs. split; reflexivity.
Qed.

Lemma other_event_ignored_witness :
  serve Sample.deployment (Sample.other "issues" "acme/app")
  = (json_response 200 [("message", str "Ignored event: issues")],
     [metadata_call Sample.config]).
Proof.
  refine (proj1
            (other_event_ignored Sample.deployment
               (Sample.other "issues" "acme/app") "issues" Sample.config
               (JObj [Sample.from "acme/app"]) (JStr "main") (Own "ci.yml")
               [("event_type", JStr "issues");
                ("timestamp", JStr "2025-01-01T00:00:00.000Z");
                ("repository", JStr "acme/app")]
               eq_refl _ _ eq_refl eq_refl)); discriminate.
Defined.

(** Against C5 as stated: an [issues] event sent from a repository that
    the mapping does not list is answered 400, an error. *)
Lemma issues_from_unmapped_repository :
  event_header (Sample.other "issues" "acme/none") = Some "issues"
  /\ status (fst (serve Sample.deployment
                    (Sample.other "issues" "acme/none"))) = 400%Z
  /\ Obj.get (body (fst (serve Sample.deployment
                           (Sample.other "issues" "acme/none")))) "error"
     = Some (JStr "Repository not configured").
Proof. repeat split. Qed.

(** ** Configuration and ordering (C7, C10, C6) *)

Lemma default_branch_reply w c r :
  default_branch w c = Reply r -> status r = 500%Z.
Proof.
  unfold default_branch, try_catch, bind, settle, read, require_val, text_of.
  intros H. walk H; inversion H; subst; reflexivity.
Qed.

Lemma server_error_status w e : status (server_error w e) = 500%Z.
Proof. reflexivity. Qed.

Lemma located_reply w event payload r :
  located w event payload = Reply r ->
  status r = 400%Z \/ status r = 500%Z.
Proof.
  unfold located, base_inputs, resolve_workflow, try_catch, bind, require,
    return_if, read, text_of, not_configured.
  intros H. walk H; inversion H; subst; simpl; tauto.
Qed.

Lemma located_found w event payload workflowFilename inputs0 :
  located w event payload = Next (workflowFilename, inputs0) ->
  found workflowFilename = true.
Proof.
  unfold located, bind.
  destruct (base_inputs w event payload) as [[name i0]|r|e]; try discriminate.
  destruct (require _ _); try discriminate.
  destruct (resolve_workflow w _ name) as [wf|r|e]; try discriminate.
  unfold return_if. destruct (found wf) eqn:E; simpl; [|discriminate].
  intros H; inversion H; subst. exact E.
Qed.

Lemma unusable_mappings_stop w event payload :
  usable_mappings (env w "WORKFLOW_MAPPINGS") = false ->
  (exists r, located w event payload = Reply r /\ status r = 500%Z)
  \/ (exists e, located w event payload = Raise e).
Proof.
  intros Hbad. unfold located, bind.
  destruct (base_inputs w event payload) as [[name i0]|r|e] eqn:Hbase.
  - left. destruct (env w "WORKFLOW_MAPPINGS") as [m|]; simpl in *.
    + destruct (Str.is_empty m); [eexists; split; reflexivity|].
      unfold resolve_workflow.
      destruct (Obj.size (parse_mappings m) =? 0)%nat; [|discriminate].
      simpl. eexists; split; reflexivity.
    + eexists; split; reflexivity.
  - exfalso. unfold base_inputs, bind, read in Hbase.
    destruct payload; discriminate.
  - right. now exists e.
Qed.

Lemma normalized_stop w event payload :
  (exists r, located w event payload = Reply r /\ status r = 500%Z)
  \/ (exists e, located w event payload = Raise e) ->
  (exists r, normalized w event payload = Reply r /\ status r = 500%Z)
  \/ (exists e, normalized w event payload = Raise e).
Proof.
  unfold normalized.
  intros [(r & -> & Hr)|(e & ->)]; [left; now exists r | right; now exists e].
Qed.

(** C7, as the handler has it.  For a request that carries the event
    header: when the token, the owner or the name of the automation
    repository is absent, the answer is 500 and no outbound call is made;
    when these are present and the body parses but the mapping string is
    absent or holds no valid pair, the answer is 500 as well, after the
    metadata fetch, which is the only outbound call. *)
Theorem configuration_checked (w : world) (rq : request) :
  absent (event_header rq) = false ->
  (absent (env w "GITHUB_TOKEN") || absent (env w "AUTOMATION_REPO_OWNER")
   || absent (env w "AUTOMATION_REPO_NAME") = true ->
   status (fst (serve w rq)) = 500%Z /\ snd (serve w rq) = [])
  /\ (forall event c payload,
        intake w rq = Next (event, c, payload) ->
        usable_mappings (env w "WORKFLOW_MAPPINGS") = false ->
        status (fst (serve w rq)) = 500%Z
        /\ snd (serve w rq) = [metadata_call c]).
Proof.
  intros Hheader. split.
  - intros Hmissing.
    assert (Hstop : exists r, intake w rq = Reply r /\ status r = 500%Z).
    { unfold intake. cbv zeta.
      destruct (event_header rq) as [event|]; [|discriminate].
      simpl in Hheader. cbn [require]. rewrite Hheader. cbn [bind].
      destruct (absent (env w "GITHUB_TOKEN")) eqn:Ht.
      { rewrite (require_absent _ _ Ht). eexists; split; reflexivity. }
      destruct (require_cases (env w "GITHUB_TOKEN")
                  (error_response 500
                     "Server configuration error: missing authentication token"))
        as [[token ->]| ->]; [|eexists; split; reflexivity].
      cbn [bind].
      destruct (absent (env w "AUTOMATION_REPO_OWNER")) eqn:Ho.
      { rewrite (require_absent _ _ Ho). eexists; split; reflexivity. }
      destruct (require_cases (env w "AUTOMATION_REPO_OWNER")
                  (error_response 500
                     "Server configuration error: missing repository configuration"))
        as [[owner ->]| ->]; [|eexists; split; reflexivity].
      cbn [bind]. simpl in Hmissing.
      rewrite (require_absent _ _ Hmissing). eexists; split; reflexivity. }
    destruct Hstop as (r & Hstop & Hr).
    rewrite (serve_rejected _ _ _ Hstop). now split.
  - intros event c payload Hi Hbad.
    destruct (default_branch w c) as [b|r|e] eqn:Hb.
    + destruct (normalized_stop w event payload
                  (unusable_mappings_stop w event payload Hbad))
        as [(r & Hn & Hr)|(e & Hn)].
      * rewrite (serve_stopped _ _ _ _ _ _ _ Hi Hb Hn). now split.
      * rewrite (serve_threw _ _ _ _ _ _ _ Hi Hb Hn). now split.
    + rewrite (serve_unfetched _ _ _ _ _ _ Hi Hb). split; [|reflexivity].
      now apply default_branch_reply in Hb.
    + now apply default_branch_no_raise in Hb.
Qed.

Lemma configuration_checked_witness :
  (status (fst (serve Sample.bare
                  (Sample.push "acme/site" "refs/heads/main"))) = 500%Z
   /\ snd (serve Sample.bare (Sample.push "acme/site" "refs/heads/main")) = [])
  /\ (status (fst (serve Sample.unmapped
                     (Sample.push "acme/site" "refs/heads/main"))) = 500%Z
      /\ snd (serve Sample.unmapped
                (Sample.push "acme/site" "refs/heads/main"))
         = [metadata_call Sample.config]).
Proof.
  split.
  - apply (proj1 (configuration_checked Sample.bare
                    (Sample.push "acme/site" "refs/heads/main") eq_refl)).
    reflexivity.
  - apply (proj2 (configuration_checked Sample.unmapped
                    (Sample.push "acme/site" "refs/heads/main") eq_refl)
             "push" Sample.config
             (JObj [Sample.from "acme/site";
                    ("sender", JObj [("login", JStr "alice")]);
                    ("ref", JStr "refs/heads/main");
                    ("pusher", JObj [("name", JStr "alice")]);
                    ("after", JStr "abc123")])); reflexivity.
Defined.

(** Against C7 as stated: without [WORKFLOW_MAPPINGS] the metadata of the
    automation repository is fetched before the handler answers 500. *)
Lemma mappings_checked_after_fetch :
  absent (env Sample.unmapped "WORKFLOW_MAPPINGS") = true
  /\ status (fst (serve Sample.unmapped
                    (Sample.push "acme/site" "refs/heads/main"))) = 500%Z
  /\ snd (serve Sample.unmapped (Sample.push "acme/site" "refs/heads/main"))
     = [GetRepo "https://api.github.com/repos/acme/automation" "secret"].
Proof. repeat split. Qed.

Lemma usable_not_empty m :
  usable_mappings (Some m) = true -> Str.is_empty m = false.
Proof. destruct m; [discriminate | reflexivity]. Qed.

(** The lookup of a repository that the mapping does not resolve. *)
Lemma resolve_workflow_unmapped w m name :
  usable_mappings (Some m) = true ->
  Str.is_empty name || negb (found (lookup (parse_mappings m) name)) = true ->
  resolve_workflow w m (JStr name)
  = Reply (not_configured name (parse_mappings m)).
Proof.
  intros Husable Hname. unfold resolve_workflow. simpl in Husable.
  destruct (Obj.size (parse_mappings m) =? 0)%nat; [discriminate|].
  cbn [bind truthy text_of to_string].
  destruct (Str.is_empty name); cbn [negb bind found]; [reflexivity|].
  simpl in Hname. destruct (found (lookup (parse_mappings m) name));
    [discriminate | reflexivity].
Qed.

Lemma located_unmapped w event payload m name inputs0 :
  env w "WORKFLOW_MAPPINGS" = Some m ->
  usable_mappings (Some m) = true ->
  base_inputs w event payload = Next (JStr name, inputs0) ->
  Str.is_empty name || negb (found (lookup (parse_mappings m) name)) = true ->
  located w event payload = Reply (not_configured name (parse_mappings m)).
Proof.
  intros Henv Husable Hbase Hname. unfold located.
  rewrite Hbase. cbn [bind].
  rewrite (require_present _ _ m Henv (usable_not_empty m Husable)).
  cbn [bind]. now rewrite (resolve_workflow_unmapped w m name Husable Hname).
Qed.

(** What the handler has of C10.  For a request with the header, the token,
    the owner and the name, and a body that parses: the metadata fetch is
    the first outbound call, whatever the event kind; if it does not yield
    a default branch the answer is 500 and nothing else is called; if it
    does, the mapping string is usable and the payload, not [null], has no
    repository name or one, a string, that the lookup does not resolve,
    the answer is 400 with the keys of the mapping, whatever the event
    kind; and an answer of 200, the no-op ones included, comes only after
    the fetch has succeeded and the lookup has found a workflow. *)
Theorem fetch_and_lookup_first
  (w : world) (rq : request) (event : string) (c : settings)
  (payload : json) :
  intake w rq = Next (event, c, payload) ->
  (exists rest, snd (serve w rq) = metadata_call c :: rest)
  /\ ((forall b, default_branch w c <> Next b) ->
      status (fst (serve w rq)) = 500%Z
      /\ snd (serve w rq) = [metadata_call c])
  /\ (forall b m name inputs0,
        default_branch w c = Next b ->
        env w "WORKFLOW_MAPPINGS" = Some m ->
        usable_mappings (Some m) = true ->
        base_inputs w event payload = Next (JStr name, inputs0) ->
        Str.is_empty name
        || negb (found (lookup (parse_mappings m) name)) = true ->
        serve w rq
        = (not_configured name (parse_mappings m), [metadata_call c])
        /\ status (fst (serve w rq)) = 400%Z)
  /\ (status (fst (serve w rq)) = 200%Z ->
      exists b workflowFilename inputs0,
        default_branch w c = Next b
        /\ located w event payload = Next (workflowFilename, inputs0)
        /\ found workflowFilename = true).
Proof.
  intros Hi. split; [|split; [|split]].
  - unfold serve. rewrite Hi. cbn [ended].
    destruct (ended w (default_branch w c)) as [r|b]; [now eexists|].
    destruct (ended w (normalized w event payload)) as [r|job];
      [now eexists|].
    destruct (deliver w event c payload b job). now eexists.
  - intros Hfail. destruct (default_branch w c) as [b|r|e] eqn:Hb.
    + now destruct (Hfail b).
    + rewrite (serve_unfetched _ _ _ _ _ _ Hi Hb). split; [|reflexivity].
      now apply default_branch_reply in Hb.
    + now apply default_branch_no_raise in Hb.
  - intros b m name inputs0 Hb Henv Husable Hbase Hname.
    assert (Hn : normalized w event payload
                 = Reply (not_configured name (parse_mappings m))).
    { unfold normalized.
      now rewrite (located_unmapped _ _ _ _ _ _ Henv Husable Hbase Hname). }
    rewrite (serve_stopped _ _ _ _ _ _ _ Hi Hb Hn). split; reflexivity.
  - intros Hok. destruct (default_branch w c) as [b|r|e] eqn:Hb.
    + destruct (located w event payload) as [[wf i0]|r|e] eqn:Hl.
      * exists b, wf, i0. repeat split. now apply located_found in Hl.
      * exfalso.
        assert (Hn : normalized w event payload = Reply r)
          by (unfold normalized; now rewrite Hl).
        rewrite (serve_stopped _ _ _ _ _ _ _ Hi Hb Hn) in Hok.
        apply located_reply in Hl. cbn [fst] in Hok. destruct Hl; congruence.
      * exfalso.
        assert (Hn : normalized w event payload = Raise e)
          by (unfold normalized; now rewrite Hl).
        rewrite (serve_threw _ _ _ _ _ _ _ Hi Hb Hn) in Hok. discriminate Hok.
    + exfalso. rewrite (serve_unfetched _ _ _ _ _ _ Hi Hb) in Hok.
      apply default_branch_reply in Hb. cbn [fst] in Hok. congruence.
    + now apply default_branch_no_raise in Hb.
Qed.

Lemma fetch_and_lookup_first_witness :
  intake Sample.deployment (Sample.other "issues" "acme/none")
  = Next ("issues", Sample.config, JObj [Sample.from "acme/none"])
  /\ found (lookup (parse_mappings "acme/app:ci.yml,acme/site:deploy.yml")
              "acme/none") = false
  /\ serve Sample.deployment (Sample.other "issues" "acme/none")
     = (not_configured "acme/none"
          (parse_mappings "acme/app:ci.yml,acme/site:deploy.yml"),
        [metadata_call Sample.config])
  /\ exists b workflowFilename inputs0,
      default_branch Sample.deployment Sample.config = Next b
      /\ located Sample.deployment "issues" (JObj [Sample.from "acme/app"])
         = Next (workflowFilename, inputs0)
      /\ found workflowFilename = true.
Proof.
  split; [reflexivity|]. split; [reflexivity|]. split.
  - exact (proj1
             (proj1 (proj2 (proj2
                (fetch_and_lookup_first Sample.deployment
                   (Sample.other "issues" "acme/none") "issues" Sample.config
                   (JObj [Sample.from "acme/none"]) eq_refl)))
                (JStr "main") "acme/app:ci.yml,acme/site:deploy.yml"
                "acme/none"
                [("event_type", JStr "issues");
                 ("timestamp", JStr "2025-01-01T00:00:00.000Z");
                 ("repository", JStr "acme/none")]
                eq_refl eq_refl eq_refl eq_refl eq_refl)).
  - exact (proj2 (proj2 (proj2
             (fetch_and_lookup_first Sample.deployment
                (Sample.other "issues" "acme/app") "issues" Sample.config
                (JObj [Sample.from "acme/app"]) eq_refl)))
             eq_refl).
Defined.

(** C10 on the code, at a body that parses to [null].  With the
    configuration in place and the fetch successful, such a body names no
    repository of the mapping, so C10 has it answered 400, as the code
    answers the bodies [5], [false] and [{}].  The handler reads
    [payload.repository] (line 311) outside every inner [try]: the read
    throws, and the catch-all for unexpected errors answers 500. *)
Lemma null_payload_server_error :
  intake Sample.deployment
    {| event_header := Some "issues"; json_body := Some JNull |}
  = Next ("issues", Sample.config, JNull)
  /\ default_branch Sample.deployment Sample.config = Next (JStr "main")
  /\ usable_mappings (env Sample.deployment "WORKFLOW_MAPPINGS") = true
  /\ serve Sample.deployment
       {| event_header := Some "issues"; json_body := Some JNull |}
     = (json_response 500
          [("error", str "Server error"); ("message", str "TypeError")],
        [metadata_call Sample.config])
  /\ Forall (fun other =>
               status (fst (serve Sample.deployment
                              {| event_header := Some "issues";
                                 json_body := Some other |})) = 400%Z)
       [JNum 5; JBool false; JObj []].
Proof. repeat split; repeat constructor. Qed.

(** The round trip of the mapping string. *)
Lemma mapping_round_trip :
  parse_mappings "acme/app:ci.yml,acme/site:deploy.yml"
  = [("acme/app", "ci.yml"); ("acme/site", "deploy.yml")]
  /\ lookup (parse_mappings "acme/app:ci.yml,acme/site:deploy.yml")
       "acme/site" = Own "deploy.yml"
  /\ Obj.keys (parse_mappings "acme/app:ci.yml,acme/site:deploy.yml")
     = ["acme/app"; "acme/site"].
Proof. repeat split. Qed.

(** A name of the owner/name form is no member of [Object.prototype]. *)
Lemma slash_not_inherited name :
  In "/"%char (list_ascii_of_string name) -> inherited name = false.
Proof.
  intros Hslash. unfold inherited, object_prototype. cbn [existsb].
  repeat match goal with
         | |- context [String.eqb name ?k] =>
             destruct (String.eqb_spec name k);
             [subst; simpl in Hslash; exfalso; intuition discriminate|]
         end.
  reflexivity.
Qed.

(** A repository that is no key of the mapping and no member of
    [Object.prototype] is answered 400, with the keys of the mapping. *)
Lemma unmapped_repository_rejected w m name :
  usable_mappings (Some m) = true ->
  Obj.get (parse_mappings m) name = None ->
  inherited name = false ->
  resolve_workflow w m (JStr name)
  = Reply (json_response 400
             [("error", str "Repository not configured");
              ("message",
               str ("No workflow mapping found for repository: " ++ name));
              ("available_repositories",
               Some (JArr (map JStr (Obj.keys (parse_mappings m)))))]).
Proof.
  intros Husable Hget Hproto.
  apply resolve_workflow_unmapped; [assumption|].
  unfold lookup. rewrite Hget, Hproto. apply orb_true_r.
Qed.

(** C6 on the code, at a repository name that the mapping does not hold:
    [constructor] is no key of the parsed mapping, yet [workflowMapping]
    inherits a member of that name from [Object.prototype], so the lookup
    of line 349 is truthy.  The request is not answered 400 with the keys
    of the mapping: an [issues] event is answered as ignored, and a push
    goes on to the dispatch, to a URL made of the text of the inherited
    function. *)
Theorem inherited_name_passes_lookup :
  Obj.get (parse_mappings "acme/app:ci.yml,acme/site:deploy.yml")
    "constructor" = None
  /\ lookup (parse_mappings "acme/app:ci.yml,acme/site:deploy.yml")
       "constructor" = Builtin "constructor"
  /\ serve Sample.deployment (Sample.other "issues" "constructor")
     = (json_response 200 [("message", str "Ignored event: issues")],
        [metadata_call Sample.config])
  /\ snd (serve Sample.deployment
            (Sample.push "constructor" "refs/heads/main"))
     = [metadata_call Sample.config;
        dispatch_call Sample.deployment Sample.config (Builtin "constructor")
          (JStr "main")
          (Sample.common "push" "constructor" ++
           [("branch", JStr "main");
            ("author", JStr "alice");
            ("commit_sha", JStr "abc123");
            ("commit_message", JStr "");
            ("commit_url", JStr "")])].
Proof. repeat split. Qed.

(** * Further properties of the handler *)

(** ** The shape of the responses *)

(** Checks the shape of a response that is given field by field. *)
Ltac shaped :=
  unfold well_shaped, has_key;
  repeat first
    [ reflexivity
    | progress simpl
    | match goal with
      | |- context [match ?x with _ => _ end] =>
          lazymatch x with
          | context [match _ with _ => _ end] => fail
          | _ => destruct x
          end
      end ].

Lemma intake_shaped w rq r : intake w rq = Reply r -> well_shaped r = true.
Proof. unfold intake, bind, require. intros H. walk H; inversion H; subst; reflexivity. Qed.

Lemma default_branch_shaped w c r :
  default_branch w c = Reply r -> well_shaped r = true.
Proof.
  unfold default_branch, try_catch, bind, settle, read, require_val, text_of.
  intros H. walk H; inversion H; subst; reflexivity.
Qed.

Lemma located_shaped w event payload r :
  located w event payload = Reply r -> well_shaped r = true.
Proof.
  unfold located, base_inputs, resolve_workflow, try_catch, bind, require,
    return_if, read, text_of, not_configured.
  intros H. walk H; inversion H; subst; reflexivity.
Qed.

Lemma normalize_shaped w event payload inputs r :
  normalize w event payload inputs = Reply r -> well_shaped r = true.
Proof.
  unfold normalize, on_push, on_pull_request,
    try_catch, bind, require_val, return_if, read.
  intros H.
  repeat first
    [ discriminate H
    | progress (simpl in H)
    | progress (atoms H)
    | match type of H with
      | context [match ?x with _ => _ end] =>
          lazymatch x with
          | context [match _ with _ => _ end] => fail
          | _ => destruct x eqn:?
          end
      end ].
  all: inversion H; subst; first [reflexivity | shaped].
Qed.

Lemma normalized_reply w event payload r :
  normalized w event payload = Reply r ->
  located w event payload = Reply r
  \/ exists workflowFilename inputs0,
      located w event payload = Next (workflowFilename, inputs0)
      /\ normalize w event payload inputs0 = Reply r.
Proof.
  unfold normalized.
  destruct (located w event payload) as [[wf i0]|r0|e]; simpl;
    try discriminate.
  - destruct (normalize w event payload i0) as [[i s]|r0|e] eqn:En; simpl;
      try discriminate.
    intros H; inversion H; subst. right. now exists wf, i0.
  - intros H; inversion H; subst. now left.
Qed.

Lemma normalized_shaped w event payload r :
  normalized w event payload = Reply r -> well_shaped r = true.
Proof.
  intros H. apply normalized_reply in H as [H|(wf & i0 & _ & H)].
  - now apply located_shaped in H.
  - now apply normalize_shaped in H.
Qed.

Lemma deliver_shaped w event c payload b job :
  well_shaped (fst (deliver w event c payload b job)) = true.
Proof.
  destruct job as [[wf inputs] src]. unfold deliver.
  destruct (negb (truthy_val (Obj.get inputs "branch"))); [reflexivity|].
  cbn [fst]. unfold dispatch_response.
  destruct (net w _) as [e|res]; [reflexivity|].
  destruct (ok res); [|reflexivity]. shaped.
Qed.

Lemma server_error_shaped w e : well_shaped (server_error w e) = true.
Proof. unfold server_error. shaped. Qed.

(** X1. Whatever the request and the world, the status of the response is
    200, 400 or 500; a 200 carries a [message] and no [error], a 400 or a
    500 carries an [error]. *)
Theorem responses_well_shaped (w : world) (rq : request) :
  well_shaped (fst (serve w rq)) = true
  /\ In (status (fst (serve w rq))) [200%Z; 400%Z; 500%Z].
Proof.
  assert (Hshape : well_shaped (fst (serve w rq)) = true).
  { unfold serve.
    destruct (intake w rq) as [[[event c] payload]|r|e] eqn:Hi;
      cbn [ended fst].
    - destruct (default_branch w c) as [b|r|e] eqn:Hb; cbn [ended fst].
      + destruct (normalized w event payload) as [job|r|e] eqn:Hn;
          cbn [ended fst].
        * pose proof (deliver_shaped w event c payload b job) as Hd.
          destruct (deliver w event c payload b job). exact Hd.
        * now apply normalized_shaped in Hn.
        * apply server_error_shaped.
      + now apply default_branch_shaped in Hb.
      + apply server_error_shaped.
    - now apply intake_shaped in Hi.
    - apply server_error_shaped. }
  split; [exact Hshape|].
  unfold well_shaped in Hshape. simpl.
  destruct (Z.eqb_spec (status (fst (serve w rq))) 200); [auto|].
  destruct (Z.eqb_spec (status (fst (serve w rq))) 400); [auto|].
  destruct (Z.eqb_spec (status (fst (serve w rq))) 500); [auto|].
  discriminate Hshape.
Qed.

(** ** What the stages hand on *)

Lemma intake_stops w rq :
  absent (event_header rq) || absent (env w "GITHUB_TOKEN")
  || absent (env w "AUTOMATION_REPO_OWNER")
  || absent (env w "AUTOMATION_REPO_NAME") = true
  \/ json_body rq = None ->
  exists r, intake w rq = Reply r.
Proof.
  unfold intake. cbv zeta. intros Hstop.
  destruct (absent (event_header rq)) eqn:He;
    [rewrite (require_absent _ _ He); now eexists|].
  destruct (require_cases (event_header rq)
              (error_response 400 "Missing GitHub event header"))
    as [[event ->]| ->]; [|now eexists]. cbn [bind].
  destruct (absent (env w "GITHUB_TOKEN")) eqn:Ht;
    [rewrite (require_absent _ _ Ht); now eexists|].
  destruct (require_cases (env w "GITHUB_TOKEN")
              (error_response 500
                 "Server configuration error: missing authentication token"))
    as [[token ->]| ->]; [|now eexists]. cbn [bind].
  destruct (absent (env w "AUTOMATION_REPO_OWNER")) eqn:Ho;
    [rewrite (require_absent _ _ Ho); now eexists|].
  destruct (require_cases (env w "AUTOMATION_REPO_OWNER")
              (error_response 500
                 "Server configuration error: missing repository configuration"))
    as [[owner ->]| ->]; [|now eexists]. cbn [bind].
  destruct (absent (env w "AUTOMATION_REPO_NAME")) eqn:Hn;
    [rewrite (require_absent _ _ Hn); now eexists|].
  destruct (require_cases (env w "AUTOMATION_REPO_NAME")
              (error_response 500
                 "Server configuration error: missing repository configuration"))
    as [[name ->]| ->]; [|now eexists]. cbn [bind].
  destruct Hstop as [Hstop|Hbody]; [discriminate Hstop|].
  rewrite Hbody. now eexists.
Qed.


Lemma serve_calls w rq event c payload :
  intake w rq = Next (event, c, payload) ->
  snd (serve w rq) = [metadata_call c]
  \/ exists b workflowFilename inputs src,
      default_branch w c = Next b
      /\ normalized w event payload = Next (workflowFilename, inputs, src)
      /\ snd (serve w rq) =
         [metadata_call c;
          dispatch_call w c workflowFilename b (trim_inputs inputs)].
Proof.
  intros Hi.
  destruct (default_branch w c) as [b|r|e] eqn:Hb.
  - destruct (normalized w event payload) as [[[wf inputs] src]|r|e] eqn:Hn.
    + right. exists b, wf, inputs, src. repeat split.
      now rewrite (serve_dispatches _ _ _ _ _ _ _ _ _ Hi Hb Hn).
    + left. now rewrite (serve_stopped _ _ _ _ _ _ _ Hi Hb Hn).
    + left. now rewrite (serve_threw _ _ _ _ _ _ _ Hi Hb Hn).
  - left. now rewrite (serve_unfetched _ _ _ _ _ _ Hi Hb).
  - now apply default_branch_no_raise in Hb.
Qed.

(** ** The outbound calls *)


(** X3. The handler calls GitHub exactly when the event header, the
    token, the owner and the name are set and the body parses.  With
    these set and a body that does not parse, the answer is 400
    [Invalid JSON payload]. *)
Theorem github_called_iff_intake_passes (w : world) (rq : request) :
  (snd (serve w rq) = [] <->
   absent (event_header rq) || absent (env w "GITHUB_TOKEN")
   || absent (env w "AUTOMATION_REPO_OWNER")
   || absent (env w "AUTOMATION_REPO_NAME") = true
   \/ json_body rq = None)
  /\ (absent (event_header rq) || absent (env w "GITHUB_TOKEN")
      || absent (env w "AUTOMATION_REPO_OWNER")
      || absent (env w "AUTOMATION_REPO_NAME") = false ->
      json_body rq = None ->
      serve w rq = (error_response 400 "Invalid JSON payload", [])).
Proof.
  split; [split|].
  - intros Hnone.
    destruct (intake w rq) as [[[event c] payload]|r|e] eqn:Hi.
    + exfalso.
      destruct (serve_calls _ _ _ _ _ Hi) as [Hc|(b & wf & i & s & _ & _ & Hc)];
        rewrite Hc in Hnone; discriminate Hnone.
    + destruct (absent (event_header rq) || absent (env w "GITHUB_TOKEN")
                || absent (env w "AUTOMATION_REPO_OWNER")
                || absent (env w "AUTOMATION_REPO_NAME")) eqn:Hcfg;
        [now left|right].
      destruct (json_body rq) as [p|] eqn:Hbody; [exfalso|reflexivity].
      apply orb_false_elim in Hcfg as [Hcfg Hn].
      apply orb_false_elim in Hcfg as [Hcfg Ho].
      apply orb_false_elim in Hcfg as [He Ht].
      unfold intake in Hi. cbv zeta in Hi. unfold absent in *.
      destruct (event_header rq) as [x1|]; [|discriminate].
      destruct (env w "GITHUB_TOKEN") as [x2|]; [|discriminate].
      destruct (env w "AUTOMATION_REPO_OWNER") as [x3|]; [|discriminate].
      destruct (env w "AUTOMATION_REPO_NAME") as [x4|]; [|discriminate].
      cbn [require bind] in Hi. rewrite He in Hi. cbn [bind require] in Hi.
      rewrite Ht in Hi. cbn [bind require] in Hi.
      rewrite Ho in Hi. cbn [bind require] in Hi.
      rewrite Hn, Hbody in Hi. discriminate Hi.
    + now apply intake_no_raise in Hi.
  - intros Hstop. destruct (intake_stops w rq Hstop) as [r Hi].
    now rewrite (serve_rejected _ _ _ Hi).
  - intros Hcfg Hbody.
    apply orb_false_elim in Hcfg as [Hcfg Hn].
    apply orb_false_elim in Hcfg as [Hcfg Ho].
    apply orb_false_elim in Hcfg as [He Ht].
    apply serve_rejected. unfold intake. cbv zeta. unfold absent in *.
    destruct (event_header rq) as [x1|]; [|discriminate].
    destruct (env w "GITHUB_TOKEN") as [x2|]; [|discriminate].
    destruct (env w "AUTOMATION_REPO_OWNER") as [x3|]; [|discriminate].
    destruct (env w "AUTOMATION_REPO_NAME") as [x4|]; [|discriminate].
    cbn [require]. rewrite He, Ht, Ho, Hn, Hbody. reflexivity.
Qed.

Lemma github_called_iff_intake_passes_witness :
  serve Sample.deployment {| event_header := Some "push"; json_body := None |}
  = (error_response 400 "Invalid JSON payload", []).
Proof.
  apply (proj2 (github_called_iff_intake_passes Sample.deployment
                  {| event_header := Some "push"; json_body := None |}));
    reflexivity.
Defined.

(** ** The inputs *)

Lemma resolve_workflow_next w m name workflowFilename :
  resolve_workflow w m name = Next workflowFilename ->
  truthy name = true /\ found workflowFilename = true.
Proof.
  unfold resolve_workflow, try_catch, bind.
  destruct (Obj.size (parse_mappings m) =? 0)%nat; [discriminate|].
  destruct (truthy name).
  - destruct (text_of_cases w name) as [[key E]|[e E]]; rewrite E;
      [|discriminate].
    destruct (found (lookup (parse_mappings m) key)) eqn:Hf;
      [|discriminate].
    intros H; inversion H; subst. now split.
  - simpl. destruct (text_of_cases w name) as [[key E]|[e E]]; rewrite E;
      discriminate.
Qed.

(** What reaches the event branch: a payload that is not [null], a
    repository name that is set, and the inputs common to all events. *)
Lemma located_inputs w event payload workflowFilename inputs0 :
  located w event payload = Next (workflowFilename, inputs0) ->
  payload <> JNull
  /\ truthy (repository_name payload) = true
  /\ inputs0 = common_inputs w event payload.
Proof.
  intros H. assert (Hnn : payload <> JNull) by (intros ->; discriminate H).
  split; [exact Hnn|].
  unfold located, base_inputs in H.
  rewrite !(read_member w payload _ Hnn) in H. cbn [bind] in H.
  fold (repository_name payload) in H.
  destruct (require (env w "WORKFLOW_MAPPINGS") _) as [m| |];
    try discriminate H.
  cbn [bind] in H.
  destruct (resolve_workflow w m (repository_name payload)) as [wf| |] eqn:Hr;
    try discriminate H.
  apply resolve_workflow_next in Hr as [Hname Hfound].
  cbn [bind] in H. rewrite Hfound in H. cbn [negb return_if bind] in H.
  rewrite Hname in H. inversion H; subst. split; [exact Hname|].
  unfold common_inputs, sender_input.
  destruct (member payload "sender") as [s|]; [|reflexivity].
  destruct (truthy s); reflexivity.
Qed.

Lemma on_push_next w payload inputs0 inputs src :
  on_push w payload inputs0 = Next (inputs, src) ->
  exists branch,
    Str.is_empty branch = false /\ src = JStr branch
    /\ inputs = Obj.spread inputs0 (push_fields payload branch).
Proof.
  unfold on_push. destruct payload; simpl; try discriminate.
  all: match goal with
       | |- context [is_true ?x] => destruct (is_true x); simpl; try discriminate
       end.
  all: match goal with
       | |- context [truthy_val ?x] =>
           destruct (truthy_val x); simpl; try discriminate
       end.
  all: match goal with
       | |- context [branch_of_ref _ ?x] =>
           destruct x as [[]|]; simpl; try discriminate
       end.
  all: match goal with
       | |- context [Str.is_empty ?x] =>
           destruct (Str.is_empty x) eqn:E; simpl; try discriminate
       end.
  all: intros H; inversion H; subst; eexists;
    split; [exact E | split; reflexivity].
Qed.

Lemma on_pull_request_built w payload inputs0 inputs src :
  on_pull_request w payload inputs0 = Next (inputs, src) ->
  exists prAction pull_request pr_number,
    member payload "action" = Some prAction
    /\ includes buildTriggeringActions prAction = true
    /\ member payload "pull_request" = Some pull_request
    /\ truthy pull_request = true
    /\ truthy (head_ref pull_request) = true
    /\ number_text w (member payload "number") = Next pr_number
    /\ src = head_ref pull_request
    /\ inputs = Obj.spread inputs0 (pull_fields prAction pull_request pr_number).
Proof.
  unfold on_pull_request. intros H.
  assert (Hnn : payload <> JNull) by (intros ->; discriminate H).
  rewrite !(read_member w payload _ Hnn) in H. cbn [bind] in H.
  destruct (require_val (member payload "action") _) as [prAction| |] eqn:Ha;
    try discriminate H.
  apply require_val_next in Ha as [Ha _]. cbn [bind] in H.
  destruct (require_val (member payload "pull_request") _)
    as [pull_request| |] eqn:Hp; try discriminate H.
  apply require_val_next in Hp as [Hp Htp]. cbn [bind] in H.
  destruct (includes buildTriggeringActions prAction) eqn:Hinc.
  - cbn [bind try_catch] in H. fold (head_ref pull_request) in H.
    destruct (truthy (head_ref pull_request)) eqn:Hhead;
      cbn [negb return_if bind] in H; [|discriminate H].
    destruct (number_text w (member payload "number")) as [n| |] eqn:Hnum;
      cbn [bind] in H; try discriminate H.
    inversion H; subst.
    exists prAction, pull_request, n. repeat split; assumption.
  - destruct (text_of_cases w prAction) as [[s E]|[e E]]; rewrite E in H;
      discriminate H.
Qed.

Lemma spread_get_other {V : Type} (o extra : list (string * V)) k :
  ~ In k (map fst extra) ->
  Obj.get (Obj.spread o extra) k = Obj.get o k.
Proof.
  unfold Obj.spread. revert o.
  induction extra as [|[k' v] rest IH]; intros o Hnot; simpl; [reflexivity|].
  rewrite IH by (intros Hin; apply Hnot; now right).
  apply get_set_other. intros ->. apply Hnot. now left.
Qed.

Lemma common_inputs_get w event payload :
  Obj.get (common_inputs w event payload) "event_type" = Some (JStr event)
  /\ Obj.get (common_inputs w event payload) "timestamp"
     = Some (JStr (now_prepared w))
  /\ Obj.get (common_inputs w event payload) "repository"
     = Some (repository_name payload).
Proof. repeat split. Qed.

(** X4. Every dispatch carries, whatever was trimmed, the event kind of
    the header as [event_type], the repository name of the payload (never
    empty) as [repository], and at most 10 inputs; the event kind is
    [push] or [pull_request].  Its [timestamp] is the reading of the
    clock that the handler takes when it builds the base inputs (line
    307), which is after the metadata fetch has answered, not when the
    request arrives; the event and the payload have no part in it. *)
Theorem dispatched_inputs_identify_event
  (w : world) (rq : request) (url token : string) (ref : json)
  (inputs : inputs_t) :
  In (PostDispatch url token ref inputs) (snd (serve w rq)) ->
  exists event payload,
    event_header rq = Some event /\ json_body rq = Some payload
    /\ (event = "push" \/ event = "pull_request")
    /\ Obj.get inputs "event_type" = Some (JStr event)
    /\ Obj.get inputs "timestamp" = Some (JStr (now_prepared w))
    /\ Obj.get inputs "repository" = Some (repository_name payload)
    /\ truthy (repository_name payload) = true
    /\ (Obj.size inputs <= 10)%nat.
Proof.
  intros Hin.
  destruct (intake w rq) as [[[event c] payload]|r|e] eqn:Hi.
  - destruct (serve_calls _ _ _ _ _ Hi)
      as [Hc|(b & wf & i & s & Hb & Hn & Hc)]; rewrite Hc in Hin.
    + destruct Hin as [H|[]]; discriminate H.
    + destruct Hin as [H|[H|[]]]; [discriminate H|].
      unfold dispatch_call in H. inversion H; subst. clear H.
      destruct (intake_next _ _ _ _ _ Hi) as (He & _ & _ & _ & _ & Hbody).
      apply normalized_inv in Hn as (i0 & Hl & Hn).
      destruct (located_inputs _ _ _ _ _ Hl) as (_ & Hname & ->).
      exists event, payload.
      assert (Hkind : (event = "push" \/ event = "pull_request")
                      /\ exists extra,
                          i = Obj.spread (common_inputs w event payload) extra
                          /\ ~ In "event_type" (map fst extra)
                          /\ ~ In "timestamp" (map fst extra)
                          /\ ~ In "repository" (map fst extra)).
      { unfold normalize in Hn.
        destruct (String.eqb_spec event "push") as [->|Hpush].
        - split; [now left|].
          apply on_push_next in Hn as (branch & _ & _ & ->).
          eexists; split; [reflexivity|].
          repeat split; simpl; intuition discriminate.
        - destruct (String.eqb_spec event "pull_request") as [->|Hpull];
            [|discriminate Hn].
          split; [now right|].
          apply on_pull_request_built in Hn
            as (a & p & n & _ & _ & _ & _ & _ & _ & _ & ->).
          eexists; split; [reflexivity|].
          repeat split; simpl; intuition discriminate. }
      destruct Hkind as (Hkind & extra & -> & H1 & H2 & H3).
      repeat (split; [assumption|]).
      rewrite !trim_get by (unfold essentialKeys; simpl; tauto).
      rewrite !spread_get_other by assumption.
      repeat split; try reflexivity; try assumption. apply trim_size.
  - rewrite (serve_rejected _ _ _ Hi) in Hin. destruct Hin.
  - now apply intake_no_raise in Hi.
Qed.

Lemma dispatched_inputs_identify_event_witness :
  Obj.get Sample.opened_sent "event_type" = Some (JStr "pull_request")
  /\ Obj.get Sample.opened_sent "repository" = Some (JStr "acme/app").
Proof.
  destruct (dispatched_inputs_identify_event Sample.deployment
              (Sample.pull_request "acme/app" "opened")
              "https://api.github.com/repos/acme/automation/actions/workflows/ci.yml/dispatches"
              "secret" (JStr "main") Sample.opened_sent)
    as (event & payload & He & Hp & _ & Hevent & _ & Hrepo & _).
  - right. left. reflexivity.
  - inversion He; subst. inversion Hp; subst. split; assumption.
Defined.

(** ** Pushes *)

Lemma normalize_push w payload inputs0 :
  normalize w "push" payload inputs0 = on_push w payload inputs0.
Proof. reflexivity. Qed.

Lemma normalize_pull_request w payload inputs0 :
  normalize w "pull_request" payload inputs0
  = on_pull_request w payload inputs0.
Proof. reflexivity. Qed.

Lemma on_push_deleted w payload inputs0 :
  payload <> JNull ->
  member payload "deleted" = Some (JBool true) ->
  on_push w payload inputs0
  = Reply (json_response 200
             [("message", str "Branch deletion event, no build needed")]).
Proof.
  intros Hnn Hdel. unfold on_push.
  rewrite !(read_member w payload _ Hnn). cbn [bind]. now rewrite Hdel.
Qed.

Lemma on_push_deleted_stops w payload inputs0 x :
  member payload "deleted" = Some (JBool true) ->
  on_push w payload inputs0 <> Next x.
Proof.
  intros Hdel H.
  assert (Hnn : payload <> JNull) by (intros ->; discriminate H).
  rewrite (on_push_deleted w payload inputs0 Hnn Hdel) in H. discriminate H.
Qed.

(** X5. A push whose payload says [deleted: true] is never dispatched;
    once the configuration, the fetch and the lookup have passed it is
    answered 200, [Branch deletion event, no build needed], whatever its
    [ref]. *)
Theorem deleted_branch_skipped
  (w : world) (rq : request) (c : settings) (payload : json) :
  intake w rq = Next ("push", c, payload) ->
  member payload "deleted" = Some (JBool true) ->
  existsb is_dispatch (snd (serve w rq)) = false
  /\ (forall b workflowFilename inputs0,
        default_branch w c = Next b ->
        located w "push" payload = Next (workflowFilename, inputs0) ->
        serve w rq
        = (json_response 200
             [("message", str "Branch deletion event, no build needed")],
           [metadata_call c])).
Proof.
  intros Hi Hdel. split.
  - destruct (serve_calls _ _ _ _ _ Hi)
      as [Hc|(b & wf & i & s & _ & Hn & _)]; [now rewrite Hc|].
    exfalso. apply normalized_inv in Hn as (i0 & _ & Hn).
    rewrite normalize_push in Hn.
    now apply (on_push_deleted_stops _ _ _ _ Hdel) in Hn.
  - intros b wf inputs0 Hb Hl.
    apply (serve_normalize_reply _ _ _ _ _ _ _ _ _ Hi Hb Hl).
    rewrite normalize_push.
    apply on_push_deleted; [|assumption].
    now apply located_not_null in Hl.
Qed.

Lemma deleted_branch_skipped_witness :
  serve Sample.deployment
    {| event_header := Some "push";
       json_body := Some (JObj [Sample.from "acme/app";
                                ("ref", JStr "refs/heads/old");
                                ("deleted", JBool true)]) |}
  = (json_response 200
       [("message", str "Branch deletion event, no build needed")],
     [metadata_call Sample.config]).
Proof.
  exact (proj2
           (deleted_branch_skipped Sample.deployment
              {| event_header := Some "push";
                 json_body := Some (JObj [Sample.from "acme/app";
                                          ("ref", JStr "refs/heads/old");
                                          ("deleted", JBool true)]) |}
              Sample.config
              (JObj [Sample.from "acme/app";
                     ("ref", JStr "refs/heads/old");
                     ("deleted", JBool true)])
              eq_refl eq_refl)
           (JStr "main") (Own "ci.yml")
           [("event_type", JStr "push");
            ("timestamp", JStr "2025-01-01T00:00:00.000Z");
            ("repository", JStr "acme/app")]
           eq_refl eq_refl).
Defined.

Lemma common_inputs_cases w event payload :
  (sender_input payload = []
   /\ common_inputs w event payload
      = [("event_type", JStr event);
         ("timestamp", JStr (now_prepared w));
         ("repository", repository_name payload)])
  \/ (exists sender,
        sender_input payload = [("sender", sender)]
        /\ common_inputs w event payload
           = [("event_type", JStr event);
              ("timestamp", JStr (now_prepared w));
              ("repository", repository_name payload);
              ("sender", sender)]).
Proof.
  unfold common_inputs, sender_input.
  destruct (member payload "sender") as [s|]; [|now left].
  destruct (truthy s); [right; now eexists | now left].
Qed.

Lemma remove_first_nonempty pat s :
  Str.is_empty (Str.remove_first pat s) = false -> Str.is_empty s = false.
Proof. destruct s; [now destruct pat | reflexivity]. Qed.

(** X6. A push is never trimmed: its dispatch carries the common inputs
    followed by [branch], [author] (the pusher's name, or [Unknown]),
    [commit_sha], [commit_message] and [commit_url] (empty when the
    payload has none), eight or nine inputs in all. *)
Theorem push_inputs_complete
  (w : world) (rq : request) (c : settings) (payload b : json)
  (workflowFilename : looked_up) (inputs0 : inputs_t) (s : string) :
  intake w rq = Next ("push", c, payload) ->
  default_branch w c = Next b ->
  located w "push" payload = Next (workflowFilename, inputs0) ->
  is_true (member payload "deleted") = false ->
  member payload "ref" = Some (JStr s) ->
  Str.is_empty (Str.remove_first "refs/heads/" s) = false ->
  snd (serve w rq)
  = [metadata_call c;
     dispatch_call w c workflowFilename b
       (common_inputs w "push" payload
        ++ push_fields payload (Str.remove_first "refs/heads/" s))].
Proof.
  intros Hi Hb Hl Hdel Href Hbranch.
  destruct (located_inputs _ _ _ _ _ Hl) as (Hnn & _ & ->).
  pose proof (on_push_ref w payload (common_inputs w "push" payload) s
                Hnn Hdel Href (remove_first_nonempty _ _ Hbranch)) as Hpush.
  rewrite Hbranch in Hpush. destruct Hpush as [inputs Hpush].
  pose proof Hpush as Hshape.
  apply on_push_next in Hshape as (branch & _ & Hsrc & ->).
  inversion Hsrc; subst branch.
  destruct (serve_normalize_next _ _ _ _ _ _ _ _ _ _ Hi Hb Hl Hpush)
    as [Hcalls _].
  rewrite Hcalls. do 2 f_equal. f_equal.
  destruct (common_inputs_cases w "push" payload)
    as [[_ ->]|(sender & _ & ->)]; reflexivity.
Qed.

Lemma push_inputs_complete_witness :
  snd (serve Sample.deployment (Sample.push "acme/site" "refs/heads/main"))
  = [metadata_call Sample.config;
     dispatch_call Sample.deployment Sample.config (Own "deploy.yml")
       (JStr "main")
       (Sample.common "push" "acme/site" ++
        [("branch", JStr "main");
         ("author", JStr "alice");
         ("commit_sha", JStr "abc123");
         ("commit_message", JStr "");
         ("commit_url", JStr "")])].
Proof.
  exact (push_inputs_complete Sample.deployment
           (Sample.push "acme/site" "refs/heads/main") Sample.config
           (JObj [Sample.from "acme/site";
                  ("sender", JObj [("login", JStr "alice")]);
                  ("ref", JStr "refs/heads/main");
                  ("pusher", JObj [("name", JStr "alice")]);
                  ("after", JStr "abc123")])
           (JStr "main") (Own "deploy.yml")
           (Sample.common "push" "acme/site") "refs/heads/main"
           eq_refl eq_refl eq_refl eq_refl eq_refl eq_refl).
Defined.

(** ** Pull requests *)

Lemma includes_truthy names j :
  ~ In EmptyString names -> includes names j = true -> truthy j = true.
Proof.
  intros Hne. destruct j; simpl; try discriminate.
  intros H. apply existsb_exists in H as (n & Hin & Heq).
  apply String.eqb_eq in Heq. subst n.
  destruct s; [contradiction | reflexivity].
Qed.

Lemma build_action_truthy prAction :
  includes buildTriggeringActions prAction = true -> truthy prAction = true.
Proof.
  apply includes_truthy. unfold buildTriggeringActions. simpl.
  intuition discriminate.
Qed.

Lemma on_pull_request_build w payload inputs0 prAction pull_request :
  payload <> JNull ->
  member payload "action" = Some prAction ->
  includes buildTriggeringActions prAction = true ->
  member payload "pull_request" = Some pull_request ->
  truthy pull_request = true ->
  on_pull_request w payload inputs0 =
  if truthy (head_ref pull_request) then
    match number_text w (member payload "number") with
    | Next pr_number =>
        Next (Obj.spread inputs0 (pull_fields prAction pull_request pr_number),
              head_ref pull_request)
    | _ => Reply (error_response 400 "Failed to process PR event data")
    end
  else Reply (error_response 400 "Missing branch information in PR data").
Proof.
  intros Hnn Ha Hinc Hp Htp. unfold on_pull_request.
  rewrite !(read_member w payload _ Hnn). cbn [bind].
  rewrite (require_val_present _ _ _ Ha (build_action_truthy _ Hinc)).
  cbn [bind].
  rewrite (require_val_present _ _ _ Hp Htp). cbn [bind].
  rewrite Hinc. cbn [bind]. fold (head_ref pull_request).
  destruct (truthy (head_ref pull_request)); [|reflexivity].
  cbn [negb return_if bind try_catch].
  destruct (number_text_cases w (member payload "number"))
    as [[n ->]|[e ->]]; reflexivity.
Qed.

(** X7. A pull request that is opened, reopened or synchronized, with a
    head branch, is dispatched with the common inputs and [branch] (the
    head ref), [pr_number] (the text that [toString] gives
    [payload.number]: [7] for 7, [1e+21] for 1e21), [author], [pr_title]
    and [target_branch].
    [pr_action] and [pr_url] are sent too when the payload has no sender;
    with a sender the inputs would be eleven, and the cap drops these
    two. *)
Theorem pull_request_inputs_capped
  (w : world) (rq : request) (c : settings) (payload b : json)
  (workflowFilename : looked_up) (inputs0 : inputs_t)
  (prAction pull_request pr_number : json) :
  intake w rq = Next ("pull_request", c, payload) ->
  default_branch w c = Next b ->
  located w "pull_request" payload = Next (workflowFilename, inputs0) ->
  member payload "action" = Some prAction ->
  includes buildTriggeringActions prAction = true ->
  member payload "pull_request" = Some pull_request ->
  truthy pull_request = true ->
  truthy (head_ref pull_request) = true ->
  number_text w (member payload "number") = Next pr_number ->
  snd (serve w rq)
  = [metadata_call c;
     dispatch_call w c workflowFilename b
       (common_inputs w "pull_request" payload
        ++ match sender_input payload with
           | [] => pull_fields prAction pull_request pr_number
           | _ => pull_fields_kept pull_request pr_number
           end)].
Proof.
  intros Hi Hb Hl Ha Hinc Hp Htp Hhead Hnum.
  destruct (located_inputs _ _ _ _ _ Hl) as (Hnn & _ & ->).
  pose proof (on_pull_request_build w payload
                (common_inputs w "pull_request" payload) prAction pull_request
                Hnn Ha Hinc Hp Htp) as Hpull.
  rewrite Hhead, Hnum in Hpull.
  destruct (serve_normalize_next _ _ _ _ _ _ _ _ _ _ Hi Hb Hl Hpull)
    as [Hcalls _].
  rewrite Hcalls. do 2 f_equal. f_equal.
  destruct (common_inputs_cases w "pull_request" payload)
    as [[-> ->]|(sender & -> & ->)]; reflexivity.
Qed.

Lemma pull_request_inputs_capped_witness :
  snd (serve Sample.deployment (Sample.pull_request "acme/app" "opened"))
  = [metadata_call Sample.config;
     dispatch_call Sample.deployment Sample.config (Own "ci.yml")
       (JStr "main") Sample.opened_sent].
Proof.
  exact (pull_request_inputs_capped Sample.deployment
           (Sample.pull_request "acme/app" "opened") Sample.config
           (Sample.pull_payload "acme/app" "opened") (JStr "main")
           (Own "ci.yml") (Sample.common "pull_request" "acme/app")
           (JStr "opened")
           (JObj [("head", JObj [("ref", JStr "feature")]);
                  ("base", JObj [("ref", JStr "main")]);
                  ("title", JStr "Add feature");
                  ("html_url", JStr "https://github.com/acme/app/pull/7");
                  ("user", JObj [("login", JStr "bob")])])
           (JStr "7")
           eq_refl eq_refl eq_refl eq_refl eq_refl eq_refl eq_refl eq_refl
           eq_refl).
Defined.

(** X8. A pull request that has passed the configuration, the fetch and
    the lookup is answered 400, with the metadata fetch as only call,
    when its [action] or its [pull_request] is missing, when its action
    triggers a build but the head branch is missing, and when its number
    has no text. *)
Theorem pull_request_rejected
  (w : world) (rq : request) (c : settings) (payload b : json)
  (workflowFilename : looked_up) (inputs0 : inputs_t) :
  intake w rq = Next ("pull_request", c, payload) ->
  default_branch w c = Next b ->
  located w "pull_request" payload = Next (workflowFilename, inputs0) ->
  (truthy_val (member payload "action")
   && truthy_val (member payload "pull_request") = false ->
   serve w rq
   = (error_response 400
        "Invalid PR event payload: missing action or pull_request",
      [metadata_call c]))
  /\ (forall prAction pull_request,
        member payload "action" = Some prAction ->
        includes buildTriggeringActions prAction = true ->
        member payload "pull_request" = Some pull_request ->
        truthy pull_request = true ->
        (truthy (head_ref pull_request) = false ->
         serve w rq
         = (error_response 400 "Missing branch information in PR data",
            [metadata_call c]))
        /\ (truthy (head_ref pull_request) = true ->
            (forall pr_number,
                number_text w (member payload "number") <> Next pr_number) ->
            serve w rq
            = (error_response 400 "Failed to process PR event data",
               [metadata_call c]))).
Proof.
  intros Hi Hb Hl.
  pose proof (located_not_null _ _ _ _ Hl) as Hnn. split.
  - intros Hmissing.
    apply (serve_normalize_reply _ _ _ _ _ _ _ _ _ Hi Hb Hl).
    rewrite normalize_pull_request. unfold on_pull_request.
    rewrite !(read_member w payload _ Hnn). cbn [bind].
    destruct (member payload "action") as [a|]; [|reflexivity].
    cbn [require_val truthy_val] in *.
    destruct (truthy a); [|reflexivity]. cbn [bind andb] in *.
    destruct (member payload "pull_request") as [p|]; [|reflexivity].
    cbn [require_val truthy_val] in *. now rewrite Hmissing.
  - intros prAction pull_request Ha Hinc Hp Htp.
    pose proof (on_pull_request_build w payload inputs0 prAction pull_request
                  Hnn Ha Hinc Hp Htp) as Hpull.
    split.
    + intros Hhead. rewrite Hhead in Hpull.
      apply (serve_normalize_reply _ _ _ _ _ _ _ _ _ Hi Hb Hl).
      now rewrite normalize_pull_request.
    + intros Hhead Hnum. rewrite Hhead in Hpull.
      apply (serve_normalize_reply _ _ _ _ _ _ _ _ _ Hi Hb Hl).
      rewrite normalize_pull_request, Hpull.
      destruct (number_text w (member payload "number")) as [n| |];
        [now destruct (Hnum n) | reflexivity | reflexivity].
Qed.

Lemma pull_request_rejected_witness :
  serve Sample.deployment
    {| event_header := Some "pull_request";
       json_body := Some (JObj [Sample.from "acme/app";
                                ("action", JStr "opened");
                                ("pull_request", JObj [])]) |}
  = (error_response 400 "Missing branch information in PR data",
     [metadata_call Sample.config])
  /\ serve Sample.deployment
       {| event_header := Some "pull_request";
          json_body := Some (JObj [Sample.from "acme/app";
                                   ("pull_request", JObj [])]) |}
     = (error_response 400
          "Invalid PR event payload: missing action or pull_request",
        [metadata_call Sample.config]).
Proof.
  split.
  - apply (proj2
             (pull_request_rejected Sample.deployment
                {| event_header := Some "pull_request";
                   json_body := Some (JObj [Sample.from "acme/app";
                                            ("action", JStr "opened");
                                            ("pull_request", JObj [])]) |}
                Sample.config
                (JObj [Sample.from "acme/app";
                       ("action", JStr "opened");
                       ("pull_request", JObj [])])
                (JStr "main") (Own "ci.yml")
                [("event_type", JStr "pull_request");
                 ("timestamp", JStr "2025-01-01T00:00:00.000Z");
                 ("repository", JStr "acme/app")]
                eq_refl eq_refl eq_refl)
             (JStr "opened") (JObj []) eq_refl eq_refl eq_refl eq_refl);
      reflexivity.
  - apply (proj1
             (pull_request_rejected Sample.deployment
                {| event_header := Some "pull_request";
                   json_body := Some (JObj [Sample.from "acme/app";
                                            ("pull_request", JObj [])]) |}
                Sample.config
                (JObj [Sample.from "acme/app"; ("pull_request", JObj [])])
                (JStr "main") (Own "ci.yml")
                [("event_type", JStr "pull_request");
                 ("timestamp", JStr "2025-01-01T00:00:00.000Z");
                 ("repository", JStr "acme/app")]
                eq_refl eq_refl eq_refl));
      reflexivity.
Defined.

(** ** The two answers of GitHub *)

(** X9. Once the header, the configuration and the body have passed, what
    the metadata fetch gives decides the request.  A rejected fetch, a
    body that cannot be read, a body that is [null] and a default branch
    that has no text (it is printed in a log inside the [try]) are
    answered 500 [Failed to fetch automation repository metadata] with
    the message of the error; an answer outside 200..299 is answered 500
    with the upstream status and text; an answer without a truthy
    [default_branch] is answered 500 with the repository data.  In each
    of these cases the fetch is the only call.  Only a truthy
    [default_branch] that has a text lets the handler go on, with that
    branch. *)
Theorem metadata_answer_decides
  (w : world) (rq : request) (event : string) (c : settings)
  (payload : json) :
  intake w rq = Next (event, c, payload) ->
  match net w (metadata_call c) with
  | Rejected e =>
      serve w rq = (fetch_failed (err_message e), [metadata_call c])
  | Replied r =>
      if ok r then
        match reply_json r with
        | inl e =>
            serve w rq = (fetch_failed (err_message e), [metadata_call c])
        | inr JNull =>
            serve w rq
            = (fetch_failed (fault_message w (ReadOfNull "default_branch")),
               [metadata_call c])
        | inr repoData =>
            match member repoData "default_branch" with
            | Some branch =>
                if truthy branch then
                  match to_string branch with
                  | Some _ => default_branch w c = Next branch
                  | None =>
                      serve w rq
                      = (fetch_failed (fault_message w NoPrimitive),
                         [metadata_call c])
                  end
                else
                  serve w rq
                  = (no_default_branch repoData, [metadata_call c])
            | None =>
                serve w rq = (no_default_branch repoData, [metadata_call c])
            end
        end
      else
        match reply_text r with
        | inr errorText =>
            serve w rq
            = (json_response 500
                 [("error",
                   str "Failed to fetch automation repository metadata");
                  ("status", Some (JNum (reply_status r)));
                  ("details", str errorText)],
               [metadata_call c])
        | inl e =>
            serve w rq = (fetch_failed (err_message e), [metadata_call c])
        end
  end.
Proof.
  intros Hi.
  destruct (net w (metadata_call c)) as [e|r] eqn:Hnet.
  - apply (serve_unfetched _ _ _ _ _ _ Hi).
    unfold default_branch. now rewrite Hnet.
  - destruct (ok r) eqn:Hok.
    + destruct (reply_json r) as [e|repoData] eqn:Hjson.
      * apply (serve_unfetched _ _ _ _ _ _ Hi).
        unfold default_branch. now rewrite Hnet, Hok, Hjson.
      * assert (Hcases :
          repoData <> JNull ->
          match member repoData "default_branch" with
          | Some branch =>
              if truthy branch then
                match to_string branch with
                | Some _ => default_branch w c = Next branch
                | None =>
                    serve w rq
                    = (fetch_failed (fault_message w NoPrimitive),
                       [metadata_call c])
                end
              else
                serve w rq = (no_default_branch repoData, [metadata_call c])
          | None =>
              serve w rq = (no_default_branch repoData, [metadata_call c])
          end).
        { intros Hnn.
          destruct (member repoData "default_branch") as [branch|] eqn:Hm.
          - destruct (truthy branch) eqn:Ht.
            + destruct (to_string branch) as [text|] eqn:Htext.
              * unfold default_branch. rewrite Hnet, Hok, Hjson.
                cbn [negb settle bind]. rewrite (read_member _ _ _ Hnn), Hm.
                cbn [bind require_val]. rewrite Ht. cbn [bind].
                unfold text_of. now rewrite Htext.
              * apply (serve_unfetched _ _ _ _ _ _ Hi).
                unfold default_branch. rewrite Hnet, Hok, Hjson.
                cbn [negb settle bind]. rewrite (read_member _ _ _ Hnn), Hm.
                cbn [bind require_val]. rewrite Ht. cbn [bind].
                unfold text_of. now rewrite Htext.
            + apply (serve_unfetched _ _ _ _ _ _ Hi).
              unfold default_branch. rewrite Hnet, Hok, Hjson.
              cbn [negb settle bind]. rewrite (read_member _ _ _ Hnn), Hm.
              cbn [bind require_val]. now rewrite Ht.
          - apply (serve_unfetched _ _ _ _ _ _ Hi).
            unfold default_branch. rewrite Hnet, Hok, Hjson.
            cbn [negb settle bind]. now rewrite (read_member _ _ _ Hnn), Hm. }
        destruct repoData; try (apply Hcases; discriminate).
        apply (serve_unfetched _ _ _ _ _ _ Hi).
        unfold default_branch. now rewrite Hnet, Hok, Hjson.
    + destruct (reply_text r) as [e|errorText] eqn:Htext;
        apply (serve_unfetched _ _ _ _ _ _ Hi);
        unfold default_branch; now rewrite Hnet, Hok, Htext.
Qed.

Lemma metadata_answer_decides_witness :
  default_branch Sample.deployment Sample.config = Next (JStr "main")
  /\ serve Sample.unprintable (Sample.other "issues" "acme/app")
     = (fetch_failed "TypeError", [metadata_call Sample.config]).
Proof.
  split.
  - exact (metadata_answer_decides Sample.deployment
             (Sample.other "issues" "acme/app") "issues" Sample.config
             (JObj [Sample.from "acme/app"]) eq_refl).
  - exact (metadata_answer_decides Sample.unprintable
             (Sample.other "issues" "acme/app") "issues" Sample.config
             (JObj [Sample.from "acme/app"]) eq_refl).
Defined.

(** X10. What the dispatch gives decides the answer.  A rejected request
    is answered 500 [Network error] with the message of the error; an
    answer in 200..299 is answered 200 and reports the inputs and the
    branch exactly as they were sent; any other answer is answered 500
    with the upstream status, and with [details] that are the upstream
    body when it is JSON and truthy, its [JSON.stringify] text when it is
    JSON and falsy, and the placeholder [Could not read error response]
    when it is not JSON: the text of such a body is never reported,
    whatever [res.text()] would have given. *)
Theorem dispatch_answer_reported
  (w : world) (rq : request) (get : call) (url token : string) (ref : json)
  (sent : inputs_t) :
  snd (serve w rq) = [get; PostDispatch url token ref sent] ->
  match net w (PostDispatch url token ref sent) with
  | Rejected e =>
      fst (serve w rq)
      = json_response 500
          [("error", str "Network error");
           ("message", str (err_message e))]
  | Replied r =>
      if ok r then
        status (fst (serve w rq)) = 200%Z
        /\ Obj.get (body (fst (serve w rq))) "message"
           = Some (JStr "Workflow triggered successfully")
        /\ Obj.get (body (fst (serve w rq))) "inputs" = Some (JObj sent)
        /\ Obj.get (body (fst (serve w rq))) "workflow_branch" = Some ref
      else
        fst (serve w rq)
        = json_response 500
            [("error", str "Failed to trigger workflow");
             ("status", Some (JNum (reply_status r)));
             ("details",
              Some match reply_json r with
                   | inr errorJson =>
                       if truthy errorJson then errorJson
                       else JStr (stringify w errorJson)
                   | inl _ => JStr "Could not read error response"
                   end)]
  end.
Proof.
  intros Hcalls.
  destruct (intake w rq) as [[[event c] payload]|r|e] eqn:Hi.
  - destruct (serve_calls _ _ _ _ _ Hi)
      as [Hc|(b & wf & i & s & Hb & Hn & Hc)];
      rewrite Hc in Hcalls; [discriminate Hcalls|].
    unfold dispatch_call in Hcalls. inversion Hcalls; subst. clear Hcalls.
    rewrite (serve_dispatches _ _ _ _ _ _ _ _ _ Hi Hb Hn). cbn [fst].
    unfold dispatch_call, dispatch_response.
    destruct (net w _) as [e|r]; [reflexivity|].
    destruct (ok r).
    + destruct wf; repeat split.
    + reflexivity.
  - rewrite (serve_rejected _ _ _ Hi) in Hcalls. discriminate Hcalls.
  - now apply intake_no_raise in Hi.
Qed.

Lemma dispatch_answer_reported_witness :
  (status (fst (serve Sample.deployment
                  (Sample.pull_request "acme/app" "opened"))) = 200%Z
   /\ Obj.get (body (fst (serve Sample.deployment
                            (Sample.pull_request "acme/app" "opened"))))
        "inputs" = Some (JObj Sample.opened_sent))
  /\ fst (serve Sample.refused (Sample.pull_request "acme/app" "opened"))
     = json_response 500
         [("error", str "Failed to trigger workflow");
          ("status", Some (JNum 422));
          ("details", str "Could not read error response")].
Proof.
  split.
  - pose proof (dispatch_answer_reported Sample.deployment
                  (Sample.pull_request "acme/app" "opened")
                  (metadata_call Sample.config)
                  "https://api.github.com/repos/acme/automation/actions/workflows/ci.yml/dispatches"
                  "secret" (JStr "main") Sample.opened_sent eq_refl)
      as (Hstatus & _ & Hinputs & _).
    split; assumption.
  - exact (dispatch_answer_reported Sample.refused
             (Sample.pull_request "acme/app" "opened")
             (metadata_call Sample.config)
             "https://api.github.com/repos/acme/automation/actions/workflows/ci.yml/dispatches"
             "secret" (JStr "main") Sample.opened_sent eq_refl).
Defined.

(** X21. A body that parses to [null] is caught by the catch-all: once
    the configuration and the fetch have passed, the answer is 500
    [Server error] with the message of the engine, whatever the event
    kind, and nothing is dispatched. *)
Theorem null_payload_caught
  (w : world) (rq : request) (event : string) (c : settings) (b : json) :
  intake w rq = Next (event, c, JNull) ->
  default_branch w c = Next b ->
  serve w rq
  = (server_error w (type_error w (ReadOfNull "repository")),
     [metadata_call c])
  /\ status (fst (serve w rq)) = 500%Z
  /\ Obj.get (body (fst (serve w rq))) "message"
     = Some (JStr (fault_message w (ReadOfNull "repository"))).
Proof.
  intros Hi Hb.
  assert (Hs : serve w rq
               = (server_error w (type_error w (ReadOfNull "repository")),
                  [metadata_call c]))
    by (apply (serve_threw _ _ _ _ _ _ _ Hi Hb); reflexivity).
  rewrite Hs. repeat split.
Qed.

Lemma null_payload_caught_witness :
  status (fst (serve Sample.deployment
                 {| event_header := Some "push";
                    json_body := Some JNull |})) = 500%Z.
Proof.
  exact (proj1 (proj2
           (null_payload_caught Sample.deployment
              {| event_header := Some "push"; json_body := Some JNull |}
              "push" Sample.config (JStr "main") eq_refl eq_refl))).
Defined.

(** ** The mapping string *)

Lemma split_nonempty c s : Str.split c s <> [].
Proof.
  destruct s as [|a rest]; simpl; [discriminate|].
  destruct (Ascii.eqb a c); [discriminate|].
  destruct (Str.split c rest); discriminate.
Qed.

Lemma split_append c a b :
  Str.split c (a ++ String c b)%string = Str.split c a ++ Str.split c b.
Proof.
  induction a as [|x a IH]; simpl.
  - now rewrite Ascii.eqb_refl.
  - destruct (Ascii.eqb x c); [now rewrite IH|].
    rewrite IH. pose proof (split_nonempty c a) as Hne.
    destruct (Str.split c a); [contradiction | reflexivity].
Qed.

Lemma split_avoids c s : avoids c s = true -> Str.split c s = [s].
Proof.
  induction s as [|a rest IH]; simpl; [reflexivity|].
  destruct (Ascii.eqb a c); simpl; [discriminate|].
  intros H. now rewrite IH.
Qed.

Lemma add_mappings_app l1 l2 acc :
  add_mappings (l1 ++ l2) acc = add_mappings l2 (add_mappings l1 acc).
Proof.
  revert acc. induction l1 as [|t rest IH]; intros acc; simpl; [reflexivity|].
  destruct (Str.split ":" t) as [|repo [|workflow more]]; try apply IH.
  destruct (negb (Str.is_empty repo) && negb (Str.is_empty workflow));
    apply IH.
Qed.

Lemma plain_parts s :
  plain s = true ->
  Str.is_empty s = false /\ avoids "," s = true /\ avoids ":" s = true
  /\ Str.trim s = s.
Proof.
  unfold plain. intros H.
  apply andb_true_iff in H as [H Htrim].
  apply andb_true_iff in H as [H Hcolon].
  apply andb_true_iff in H as [Hne Hcomma].
  apply String.eqb_eq in Htrim. apply negb_true_iff in Hne. tauto.
Qed.

Lemma avoids_append c a b :
  avoids c (a ++ b)%string = avoids c a && avoids c b.
Proof.
  induction a as [|x a IH]; simpl; [reflexivity|].
  now rewrite IH, andb_assoc.
Qed.

(** One token [repo:workflow] sets one entry. *)
Lemma add_mapping_token repo workflow acc :
  plain repo = true -> plain workflow = true ->
  add_mappings [(repo ++ ":" ++ workflow)%string] acc
  = Obj.set acc repo workflow.
Proof.
  intros Hr Hw.
  destruct (plain_parts _ Hr) as (Hr1 & _ & Hr3 & Hr4).
  destruct (plain_parts _ Hw) as (Hw1 & _ & Hw3 & Hw4).
  cbn [add_mappings]. change (repo ++ ":" ++ workflow)%string
    with (repo ++ String ":" workflow)%string.
  rewrite split_append, (split_avoids _ _ Hr3), (split_avoids _ _ Hw3).
  cbn [app]. now rewrite Hr1, Hw1, Hr4, Hw4.
Qed.

Lemma split_join c parts :
  parts <> [] -> Forall (fun p => avoids c p = true) parts ->
  Str.split c (Str.join (String c EmptyString) parts) = parts.
Proof.
  induction parts as [|p rest IH]; [contradiction|].
  intros _ Hall. inversion Hall as [|? ? Hp Hrest]; subst.
  destruct rest as [|q rest'].
  - simpl. now apply split_avoids.
  - change (Str.join (String c EmptyString) (p :: q :: rest'))
      with (p ++ String c (Str.join (String c EmptyString) (q :: rest')))%string.
    rewrite split_append, (split_avoids _ _ Hp), IH;
      [reflexivity | discriminate | assumption].
Qed.

Lemma add_mappings_rendered m acc :
  Forall (fun kv => plain (fst kv) = true /\ plain (snd kv) = true) m ->
  NoDup (map fst m) ->
  (forall k, In k (map fst m) -> Obj.get acc k = None) ->
  add_mappings (map render_pair m) acc = acc ++ m.
Proof.
  revert acc. induction m as [|[k v] rest IH]; intros acc Hall Hnd Hfresh.
  - simpl. now rewrite app_nil_r.
  - inversion Hall as [|? ? [Hk Hv] Hrest]; subst.
    inversion Hnd as [|? ? Hnotin Hnd']; subst.
    change (map render_pair ((k, v) :: rest))
      with ([(k ++ ":" ++ v)%string] ++ map render_pair rest).
    rewrite add_mappings_app, (add_mapping_token k v acc Hk Hv).
    rewrite (set_fresh acc k v) by (apply Hfresh; now left).
    rewrite IH; [now rewrite <- app_assoc | assumption | assumption |].
    intros k' Hk'. rewrite get_app_fresh, Hfresh by now right.
    destruct (String.eqb_spec k k'); [subst; contradiction | reflexivity].
Qed.

Lemma parse_rendered (m : list (string * string)) :
  Forall (fun kv => plain (fst kv) = true /\ plain (snd kv) = true) m ->
  NoDup (map fst m) ->
  parse_mappings (render_mappings m) = m.
Proof.
  intros Hall Hnd. unfold parse_mappings, render_mappings.
  destruct m as [|kv rest]; [reflexivity|].
  rewrite split_join.
  - now rewrite add_mappings_rendered.
  - discriminate.
  - apply Forall_map. apply (Forall_impl _ (P := fun kv =>
      plain (fst kv) = true /\ plain (snd kv) = true)); [|assumption].
    intros [k v] [Hk Hv]. unfold render_pair. cbn [fst snd] in *.
    destruct (plain_parts _ Hk) as (_ & Hk2 & _).
    destruct (plain_parts _ Hv) as (_ & Hv2 & _).
    change (k ++ ":" ++ v)%string with (k ++ String ":" v)%string.
    rewrite avoids_append. cbn [avoids]. now rewrite Hk2, Hv2.
Qed.

Lemma get_in_nodup {V : Type} (o : list (string * V)) k v :
  NoDup (map fst o) -> In (k, v) o -> Obj.get o k = Some v.
Proof.
  induction o as [|[k' v'] o IH]; simpl; intros Hnd Hin; [contradiction|].
  inversion Hnd as [|? ? Hfresh Hrest]; subst.
  destruct Hin as [Heq|Hin].
  - inversion Heq; subst. now rewrite String.eqb_refl.
  - destruct (String.eqb_spec k' k) as [->|Hne]; [|now apply IH].
    exfalso. apply Hfresh. apply in_map_iff. now exists (k, v).
Qed.

(** Without array indices among the keys, [Object.keys] follows the order
    of insertion. *)
Lemma keys_named {V : Type} (o : list (string * V)) :
  Forall (fun kv => Obj.named (fst kv) = true) o -> Obj.keys o = map fst o.
Proof.
  intros Hall. unfold Obj.keys.
  assert (Hindex : Obj.index_keys (map fst o) = []
                   /\ filter Obj.named (map fst o) = map fst o).
  { induction Hall as [|[k v] o Hk _ IH]; [now split|].
    destruct IH as [IH1 IH2]. cbn [map fst Obj.index_keys filter] in *.
    rewrite Hk. unfold Obj.named in Hk.
    destruct (Obj.array_index k); [discriminate Hk|].
    split; [exact IH1 | now rewrite IH2]. }
  destruct Hindex as [-> ->]. reflexivity.
Qed.

(** X11. Round trip of the mapping.  For pairs with distinct repository
    names, whose names and workflow files are not empty and hold no
    comma, no colon and no surrounding white space, the object parsed
    from [repo:workflow,repo:workflow,...] maps each repository to its
    workflow file and holds no other repository.  [Object.keys] lists
    these names and no other; it lists them in the order of the string
    when no name is an array index (names that are, like [10] and [2],
    come first and in numeric order, whatever the string). *)
Theorem mappings_round_trip (m : list (string * string)) :
  Forall (fun kv => plain (fst kv) = true /\ plain (snd kv) = true) m ->
  NoDup (map fst m) ->
  (forall repo workflow,
      In (repo, workflow) m ->
      Obj.get (parse_mappings (render_mappings m)) repo = Some workflow)
  /\ (forall repo,
        ~ In repo (map fst m) ->
        Obj.get (parse_mappings (render_mappings m)) repo = None)
  /\ Permutation (Obj.keys (parse_mappings (render_mappings m))) (map fst m)
  /\ (Forall (fun kv => Obj.named (fst kv) = true) m ->
      Obj.keys (parse_mappings (render_mappings m)) = map fst m).
Proof.
  intros Hall Hnd. rewrite (parse_rendered m Hall Hnd).
  split; [|split; [|split]].
  - intros repo workflow Hin. now apply get_in_nodup.
  - intros repo Hout. destruct (Obj.get m repo) as [workflow|] eqn:Hget;
      [|reflexivity].
    now apply get_some_in in Hget.
  - apply keys_perm.
  - apply keys_named.
Qed.

Lemma mappings_round_trip_witness :
  Obj.get (parse_mappings "acme/app:ci.yml,acme/site:deploy.yml") "acme/site"
  = Some "deploy.yml"
  /\ Obj.keys (parse_mappings "acme/app:ci.yml,acme/site:deploy.yml")
     = ["acme/app"; "acme/site"].
Proof.
  assert (Hplain :
    Forall (fun kv => plain (fst kv) = true /\ plain (snd kv) = true)
      [("acme/app", "ci.yml"); ("acme/site", "deploy.yml")])
    by (repeat constructor).
  assert (Hdistinct : NoDup (map fst [("acme/app", "ci.yml");
                                      ("acme/site", "deploy.yml")]))
    by (repeat constructor; simpl; intuition discriminate).
  destruct (mappings_round_trip
              [("acme/app", "ci.yml"); ("acme/site", "deploy.yml")]
              Hplain Hdistinct) as (Hget & _ & _ & Hkeys).
  split.
  - apply (Hget "acme/site" "deploy.yml"). simpl. tauto.
  - apply Hkeys. repeat constructor.
Defined.

(** Names that are array indices are listed first and in numeric order,
    not in the order of the string. *)
Example index_names_listed_first :
  plain "10" = true /\ plain "2" = true
  /\ parse_mappings "10:a.yml,2:b.yml" = [("10", "a.yml"); ("2", "b.yml")]
  /\ Obj.keys (parse_mappings "10:a.yml,2:b.yml") = ["2"; "10"].
Proof. repeat split. Qed.

(** X13. A pair added at the end of the mapping string sets the workflow
    of its repository, also when the string already had one for it, and
    changes no other repository. *)
Theorem appended_mapping_wins (s repo workflow : string) :
  plain repo = true -> plain workflow = true ->
  Obj.get (parse_mappings (s ++ "," ++ repo ++ ":" ++ workflow)%string) repo
  = Some workflow
  /\ forall other,
      other <> repo ->
      Obj.get (parse_mappings (s ++ "," ++ repo ++ ":" ++ workflow)%string)
        other
      = Obj.get (parse_mappings s) other.
Proof.
  intros Hr Hw.
  assert (Hparse : parse_mappings (s ++ "," ++ repo ++ ":" ++ workflow)%string
                   = Obj.set (parse_mappings s) repo workflow).
  { unfold parse_mappings.
    change (s ++ "," ++ repo ++ ":" ++ workflow)%string
      with (s ++ String "," (repo ++ ":" ++ workflow))%string.
    rewrite split_append, add_mappings_app.
    destruct (plain_parts _ Hr) as (_ & Hr2 & _).
    destruct (plain_parts _ Hw) as (_ & Hw2 & _).
    rewrite (split_avoids "," (repo ++ ":" ++ workflow)%string).
    - now apply add_mapping_token.
    - change (repo ++ ":" ++ workflow)%string
        with (repo ++ String ":" workflow)%string.
      rewrite avoids_append. cbn [avoids]. now rewrite Hr2, Hw2. }
  rewrite Hparse. split.
  - apply get_set_same.
  - intros other Hne. apply get_set_other. congruence.
Qed.

Lemma appended_mapping_wins_witness :
  Obj.get (parse_mappings ("acme/app:ci.yml" ++ "," ++ "acme/app" ++ ":"
                             ++ "release.yml")%string) "acme/app"
  = Some "release.yml".
Proof.
  apply (proj1 (appended_mapping_wins "acme/app:ci.yml" "acme/app"
                  "release.yml" eq_refl eq_refl)).
Defined.

Lemma trim_end_idem s : Str.trim_end (Str.trim_end s) = Str.trim_end s.
Proof.
  induction s as [|a rest IH]; simpl; [reflexivity|].
  destruct (Str.is_space a && Str.is_empty (Str.trim_end rest)) eqn:E;
    [reflexivity|].
  simpl. now rewrite IH, E.
Qed.

Lemma trim_start_head s :
  Str.trim_start s = EmptyString
  \/ exists a rest,
      Str.trim_start s = String a rest /\ Str.is_space a = false.
Proof.
  induction s as [|a rest IH]; simpl; [now left|].
  destruct (Str.is_space a) eqn:E; [exact IH | right; now exists a, rest].
Qed.

(** [trim] leaves a trimmed string as it is. *)
Lemma trim_idem s : Str.trim (Str.trim s) = Str.trim s.
Proof.
  unfold Str.trim.
  destruct (trim_start_head s) as [->|(a & rest & -> & Ha)]; [reflexivity|].
  simpl. rewrite Ha. simpl. rewrite Ha. simpl.
  now rewrite trim_end_idem, Ha.
Qed.

Section SetFacts.
Context {V : Type}.
Implicit Types (o : list (string * V)) (k : string) (v : V).

Lemma set_keys_in o k v k' :
  In k' (map fst (Obj.set o k v)) <-> k' = k \/ In k' (map fst o).
Proof.
  induction o as [|[k0 v0] rest IH]; simpl.
  - intuition.
  - destruct (String.eqb_spec k0 k) as [->|Hne]; simpl; [intuition|].
    rewrite IH. intuition.
Qed.

Lemma set_keys_nodup o k v :
  NoDup (map fst o) -> NoDup (map fst (Obj.set o k v)).
Proof.
  induction o as [|[k0 v0] rest IH]; simpl; intros Hnd.
  - repeat constructor. intros [].
  - inversion Hnd as [|? ? Hnotin Hnd']; subst.
    destruct (String.eqb_spec k0 k) as [->|Hne]; simpl.
    + now constructor.
    + constructor; [|now apply IH].
      rewrite set_keys_in. intros [->|Hin]; [congruence | contradiction].
Qed.

Lemma set_forall (P : string * V -> Prop) o k v :
  Forall P o -> P (k, v) -> Forall P (Obj.set o k v).
Proof.
  induction o as [|[k0 v0] rest IH]; simpl; intros Hall Hp.
  - now repeat constructor.
  - inversion Hall; subst.
    destruct (String.eqb k0 k); constructor; auto.
Qed.

Lemma set_length o k v :
  (List.length (Obj.set o k v) <= S (List.length o))%nat.
Proof.
  induction o as [|[k0 v0] rest IH]; simpl; [lia|].
  destruct (String.eqb k0 k); simpl; lia.
Qed.
End SetFacts.

Lemma add_mappings_normal tokens acc :
  NoDup (map fst acc) -> Forall trimmed_pair acc ->
  NoDup (map fst (add_mappings tokens acc))
  /\ Forall trimmed_pair (add_mappings tokens acc)
  /\ (List.length (add_mappings tokens acc)
      <= List.length acc + List.length tokens)%nat.
Proof.
  revert acc. induction tokens as [|t rest IH]; intros acc Hnd Hall; simpl.
  - repeat split; [assumption | assumption | lia].
  - assert (Hskip : NoDup (map fst (add_mappings rest acc))
                    /\ Forall trimmed_pair (add_mappings rest acc)
                    /\ (List.length (add_mappings rest acc)
                        <= List.length acc + S (List.length rest))%nat).
    { destruct (IH acc Hnd Hall) as (H1 & H2 & H3). repeat split; auto; lia. }
    destruct (Str.split ":" t) as [|repo [|workflow more]]; try exact Hskip.
    destruct (negb (Str.is_empty repo) && negb (Str.is_empty workflow));
      [|exact Hskip].
    destruct (IH (Obj.set acc (Str.trim repo) (Str.trim workflow)))
      as (H1 & H2 & H3).
    + now apply set_keys_nodup.
    + apply set_forall; [assumption|].
      split; apply trim_idem.
    + repeat split; auto.
      pose proof (set_length acc (Str.trim repo) (Str.trim workflow)). lia.
Qed.

(** X12. Whatever the mapping string, the parsed mapping has each
    repository once, names and workflow files without surrounding white
    space, and at most one entry per comma-separated token. *)
Theorem parsed_mapping_normal (s : string) :
  NoDup (map fst (parse_mappings s))
  /\ Forall trimmed_pair (parse_mappings s)
  /\ (List.length (parse_mappings s) <= List.length (Str.split "," s))%nat.
Proof.
  unfold parse_mappings.
  destruct (add_mappings_normal (Str.split "," s) [])
    as (H1 & H2 & H3); [constructor | constructor |].
  repeat split; assumption.
Qed.

(** * Properties of the registration script *)

Module ScriptFacts.

Import Script.

(** The requests that the loop sends for one repository: the listing,
    then no write, or the creation, or one or two updates of the hook
    that was found; and no write in a dry run. *)
Lemma manage_one_requests m sent repo :
  exists writes,
    fst (manage_one m sent repo) = sent ++ listing m repo :: writes
    /\ (writes = []
        \/ DRY_RUN m = false
           /\ (writes = [creation m repo]
               \/ exists path,
                   writes = [events_patch m path]
                   \/ writes = [activation m path]
                   \/ writes = [events_patch m path; activation m path])).
Proof.
  assert (Hlist : forall (l : list api_request) a b,
             (l ++ [a]) ++ [b] = l ++ [a; b])
    by (intros; now rewrite <- app_assoc).
  assert (Hlist3 : forall (l : list api_request) a b c,
             ((l ++ [a]) ++ [b]) ++ [c] = l ++ [a; b; c])
    by (intros; now rewrite <- !app_assoc).
  unfold manage_one, githubRequest. fold (listing m repo).
  destruct (settled m (http m sent (listing m repo))) as [e|hooks].
  { exists []. split; [reflexivity | now left]. }
  destruct (find_hook (WEBHOOK_URL m) hooks) as [[existingHook|]|].
  - destruct (hasRequiredEvents existingHook) as [has|];
      [|exists []; split; [reflexivity | now left]].
    unfold update, githubRequest.
    destruct (DRY_RUN m) eqn:Hdry.
    + exists []. split; [|now left].
      destruct has; cbn; destruct (truthy_val _); reflexivity.
    + destruct (hook_path repo existingHook) as [path|].
      * fold (events_patch m path). fold (activation m path).
        destruct has.
        -- cbn. destruct (truthy_val (member existingHook "active")).
           ++ exists []. split; [reflexivity | now left].
           ++ exists [activation m path]. split.
              ** destruct (settled m _); cbn; apply Hlist.
              ** right. split; [reflexivity|]. right. exists path. tauto.
        -- destruct (settled m (http m (sent ++ [listing m repo])
                                  (events_patch m path))) as [e|j].
           ++ exists [events_patch m path]. split.
              ** cbn. apply Hlist.
              ** right. split; [reflexivity|]. right. exists path. tauto.
           ++ cbn. destruct (truthy_val (member existingHook "active")).
              ** exists [events_patch m path]. split.
                 --- cbn. apply Hlist.
                 --- right. split; [reflexivity|]. right. exists path. tauto.
              ** exists [events_patch m path; activation m path]. split.
                 --- destruct (settled m _); cbn; apply Hlist3.
                 --- right. split; [reflexivity|]. right. exists path. tauto.
      * exists []. split; [|now left].
        destruct has; cbn; [|reflexivity].
        destruct (truthy_val _); reflexivity.
  - destruct (DRY_RUN m) eqn:Hdry.
    + exists []. split; [reflexivity | now left].
    + fold (creation m repo). exists [creation m repo]. split.
      * destruct (settled m _); cbn; apply Hlist.
      * right. split; [reflexivity|]. now left.
  - exists []. split; [reflexivity | now left].
Qed.

Lemma write_not_get m repo path :
  is_get (creation m repo) = false
  /\ is_get (events_patch m path) = false
  /\ is_get (activation m path) = false
  /\ is_get (listing m repo) = true.
Proof. repeat split. Qed.

Lemma manage_one_gets m sent repo :
  filter is_get (fst (manage_one m sent repo))
  = filter is_get sent ++ [listing m repo].
Proof.
  destruct (manage_one_requests m sent repo) as (writes & -> & Hshape).
  rewrite filter_app. f_equal. cbn [filter].
  change (is_get (listing m repo)) with true. cbn iota. f_equal.
  destruct Hshape as [-> | (_ & [-> | (path & [-> | [-> | ->]])])];
    reflexivity.
Qed.

Lemma manage_one_dry m sent repo :
  DRY_RUN m = true ->
  fst (manage_one m sent repo) = sent ++ [listing m repo].
Proof.
  intros Hdry.
  destruct (manage_one_requests m sent repo) as (writes & -> & Hshape).
  destruct Hshape as [-> | (Hwet & _)]; [reflexivity | congruence].
Qed.

Lemma manageWebhooks_gets m repos sent :
  exists k,
    (k <= List.length repos)%nat
    /\ filter is_get (fst (manageWebhooks m sent repos))
       = filter is_get sent ++ map (listing m) (firstn k repos)
    /\ (DRY_RUN m = true ->
        fst (manageWebhooks m sent repos)
        = sent ++ map (listing m) (firstn k repos))
    /\ (snd (manageWebhooks m sent repos) = 0%Z -> k = List.length repos)
    /\ (snd (manageWebhooks m sent repos) = 0%Z
        \/ snd (manageWebhooks m sent repos) = 1%Z).
Proof.
  revert sent. induction repos as [|repo rest IH]; intros sent.
  - exists 0%nat. cbn. rewrite !app_nil_r. repeat split; auto.
  - cbn [manageWebhooks].
    pose proof (manage_one_gets m sent repo) as Hgets.
    pose proof (manage_one_dry m sent repo) as Hdry.
    destruct (manage_one m sent repo) as [sent1 fine]. cbn [fst] in *.
    destruct fine.
    + destruct (IH sent1) as (k & Hk & Hf & Hd & Hzero & Hcode).
      exists (S k). cbn [firstn map List.length].
      split; [lia|]. split; [|split; [|split]].
      * rewrite Hf, Hgets, <- app_assoc. reflexivity.
      * intros Hdrym. rewrite (Hd Hdrym), (Hdry Hdrym), <- app_assoc.
        reflexivity.
      * intros Hz. now rewrite (Hzero Hz).
      * exact Hcode.
    + exists 1%nat. cbn [firstn map List.length fst snd].
      split; [lia|]. split; [exact Hgets|]. split; [exact Hdry|].
      split; [discriminate | now right].
Qed.

(** X14. In a dry run the script writes nothing: its requests are the
    listings of the hooks, one for each repository in the order of
    [REPOSITORIES], up to the first one that fails. *)
Theorem dry_run_only_lists (m : machine) :
  DRY_RUN m = true ->
  exists k,
    (k <= List.length (repositories m))%nat
    /\ fst (main m) = map (listing m) (firstn k (repositories m))
    /\ Forall (fun r => method r = "GET" /\ data r = None) (fst (main m)).
Proof.
  intros Hdry.
  assert (Hmain : exists k,
             (k <= List.length (repositories m))%nat
             /\ fst (main m) = map (listing m) (firstn k (repositories m))).
  { unfold main. destruct (dotenv_available m); cbn [negb].
    - destruct (repositories m) as [|repo rest] eqn:Hrepos.
      + exists 0%nat. now split.
      + destruct (manageWebhooks_gets m (repo :: rest) [])
          as (k & Hk & _ & Hd & _). exists k. split; [exact Hk|].
        now rewrite (Hd Hdry).
    - exists 0%nat. split; [lia | reflexivity]. }
  destruct Hmain as (k & Hk & Hreq). exists k.
  split; [exact Hk|]. split; [exact Hreq|].
  rewrite Hreq. apply Forall_map. apply Forall_forall. intros repo _.
  now split.
Qed.

(** X18. The script lists the hooks of the repositories in the order of
    [REPOSITORIES], once each, and stops at the first repository that
    fails: the [GET]s it sends are the listings of a prefix of the
    repositories.  It exits with 0 or 1, and with 0 only after [.env]
    was loaded, at least one repository was configured and every
    repository was listed. *)
Theorem repositories_listed_in_order (m : machine) :
  exists k,
    (k <= List.length (repositories m))%nat
    /\ filter is_get (fst (main m))
       = map (listing m) (firstn k (repositories m))
    /\ (snd (main m) = 0%Z \/ snd (main m) = 1%Z)
    /\ (snd (main m) = 0%Z ->
        dotenv_available m = true /\ repositories m <> []
        /\ k = List.length (repositories m)).
Proof.
  unfold main. destruct (dotenv_available m); cbn [negb].
  - destruct (repositories m) as [|repo rest] eqn:Hrepos.
    + exists 0%nat. cbn.
      split; [lia|]. split; [reflexivity|]. split; [now right|].
      intros Hz; discriminate Hz.
    + destruct (manageWebhooks_gets m (repo :: rest) [])
        as (k & Hk & Hf & _ & Hzero & Hcode).
      exists k. split; [exact Hk|]. split; [exact Hf|].
      split; [exact Hcode|]. intros Hz.
      split; [reflexivity|]. split; [discriminate | now apply Hzero].
  - exists 0%nat. cbn.
    split; [lia|]. split; [reflexivity|]. split; [now right|].
    intros Hz; discriminate Hz.
Qed.

Lemma dry_run_only_lists_witness :
  fst (main (Rig.machine true))
  = [listing (Rig.machine true) "acme/app";
     listing (Rig.machine true) "acme/site"]
  /\ Forall (fun r => method r = "GET" /\ data r = None)
       (fst (main (Rig.machine true))).
Proof.
  destruct (dry_run_only_lists (Rig.machine true) eq_refl)
    as (k & _ & _ & Hall).
  split; [reflexivity | exact Hall].
Defined.

(** X15. The script is idempotent on a repository that is set up: when
    the first hook of the listing that points at the relay is active and
    has both [push] and [pull_request] among its events, the listing is
    the only request for that repository, dry run or not, and the loop
    goes on. *)
Theorem healthy_hook_untouched
  (m : machine) (sent : list api_request) (repo : string)
  (hooks existingHook : json) :
  settled m (http m sent (listing m repo)) = inr hooks ->
  find_hook (WEBHOOK_URL m) hooks = Some (Some existingHook) ->
  hasRequiredEvents existingHook = Some true ->
  truthy_val (member existingHook "active") = true ->
  manage_one m sent repo = (sent ++ [listing m repo], true).
Proof.
  intros Hlist Hfind Hevents Hactive.
  unfold manage_one, githubRequest. fold (listing m repo).
  now rewrite Hlist, Hfind, Hevents, Hactive.
Qed.

Lemma healthy_hook_untouched_witness :
  manage_one
    {| process_env := Rig.variables false;
       dotenv_available := true;
       http := fun _ _ => Answered 200 "[healthy]";
       json_parse := Rig.parse;
       error_stack := fun _ => None |} [] "acme/site"
  = ([listing (Rig.machine false) "acme/site"], true).
Proof.
  exact (healthy_hook_untouched
           {| process_env := Rig.variables false;
              dotenv_available := true;
              http := fun _ _ => Answered 200 "[healthy]";
              json_parse := Rig.parse;
              error_stack := fun _ => None |} [] "acme/site"
           (JArr [Rig.healthy_hook]) Rig.healthy_hook
           eq_refl eq_refl eq_refl eq_refl).
Defined.

(** X16. When no hook of the listing points at the relay, the script
    creates one, unless this is a dry run: one [POST] to the hooks of the
    repository, for the events [push] and [pull_request], active, with
    the URL of the relay, and with a secret exactly when
    [WEBHOOK_SECRET] is set.  The loop goes on when the [POST] is
    accepted, and ends the process otherwise. *)
Theorem missing_hook_created
  (m : machine) (sent : list api_request) (repo : string) (hooks : json) :
  settled m (http m sent (listing m repo)) = inr hooks ->
  find_hook (WEBHOOK_URL m) hooks = Some None ->
  manage_one m sent repo
  = (if DRY_RUN m then (sent ++ [listing m repo], true)
     else (sent ++ [listing m repo; creation m repo],
           match settled m (http m (sent ++ [listing m repo])
                              (creation m repo)) with
           | inr _ => true
           | inl _ => false
           end))
  /\ method (creation m repo) = "POST"
  /\ data (creation m repo) = Some (webhookConfig m)
  /\ member (webhookConfig m) "events" = Some required_events
  /\ member (webhookConfig m) "active" = Some (JBool true)
  /\ chain (member (webhookConfig m) "config") "url"
     = Some (JStr (WEBHOOK_URL m))
  /\ chain (member (webhookConfig m) "config") "secret"
     = (if Str.is_empty (WEBHOOK_SECRET m) then None
        else Some (JStr (WEBHOOK_SECRET m))).
Proof.
  intros Hlist Hfind. split.
  - unfold manage_one, githubRequest. unfold creation, listing in *.
    rewrite Hlist, Hfind. destruct (DRY_RUN m); [reflexivity|].
    destruct (settled m (http m (sent ++ _) _)); now rewrite <- app_assoc.
  - repeat split. cbn. destruct (Str.is_empty (WEBHOOK_SECRET m)); reflexivity.
Qed.

Lemma missing_hook_created_witness :
  manage_one (Rig.machine false) [] "acme/app"
  = ([listing (Rig.machine false) "acme/app";
      creation (Rig.machine false) "acme/app"], true).
Proof.
  exact (proj1 (missing_hook_created (Rig.machine false) [] "acme/app"
                  (JArr []) eq_refl eq_refl)).
Defined.

(** X17. For one repository the script sends the listing first and at
    most two more requests, none of them a [GET]: the creation, or
    updates of one hook (its events, its activation, or both in that
    order), never a creation together with an update. *)
Theorem writes_per_repository
  (m : machine) (sent : list api_request) (repo : string) :
  exists writes,
    fst (manage_one m sent repo) = sent ++ listing m repo :: writes
    /\ (List.length writes <= 2)%nat
    /\ Forall (fun r => is_get r = false) writes
    /\ (writes = [] \/ writes = [creation m repo]
        \/ exists path,
            writes = [events_patch m path] \/ writes = [activation m path]
            \/ writes = [events_patch m path; activation m path]).
Proof.
  destruct (manage_one_requests m sent repo) as (writes & Hsent & Hshape).
  exists writes. split; [exact Hsent|].
  destruct Hshape as [-> | (_ & [-> | (path & [-> | [-> | ->]])])].
  - repeat split; [cbn; lia | constructor | now left].
  - repeat split; [cbn; lia | now repeat constructor | right; now left].
  - repeat split; [cbn; lia | now repeat constructor |].
    right; right. exists path. tauto.
  - repeat split; [cbn; lia | now repeat constructor |].
    right; right. exists path. tauto.
  - repeat split; [cbn; lia | now repeat constructor |].
    right; right. exists path. tauto.
Qed.

(** X19. Unless the listing is answered with a JSON array, the
    repository is not written to and the process ends: a rejected
    request, an answer outside 200..299, an empty answer (read as [{}])
    and an answer that is not JSON (kept as text) all stop the script
    after the listing. *)
Theorem unreadable_listing_stops
  (m : machine) (sent : list api_request) (repo : string) :
  (forall items,
      settled m (http m sent (listing m repo)) <> inr (JArr items)) ->
  manage_one m sent repo = (sent ++ [listing m repo], false)
  /\ forall rest,
      manageWebhooks m sent (repo :: rest) = (sent ++ [listing m repo], 1%Z).
Proof.
  intros Hodd.
  assert (Hone : manage_one m sent repo = (sent ++ [listing m repo], false)).
  { unfold manage_one, githubRequest. fold (listing m repo).
    destruct (settled m (http m sent (listing m repo))) as [e|hooks];
      [reflexivity|].
    destruct hooks; try reflexivity. now destruct (Hodd items). }
  split; [exact Hone|]. intros rest. cbn [manageWebhooks]. now rewrite Hone.
Qed.

Lemma unreadable_listing_stops_witness :
  main {| process_env := Rig.variables false;
          dotenv_available := true;
          http := fun _ _ => Answered 200 EmptyString;
          json_parse := Rig.parse;
          error_stack := fun _ => None |}
  = ([listing (Rig.machine false) "acme/app"], 1%Z).
Proof.
  refine (proj2 (unreadable_listing_stops
                   {| process_env := Rig.variables false;
                      dotenv_available := true;
                      http := fun _ _ => Answered 200 EmptyString;
                      json_parse := Rig.parse;
                      error_stack := fun _ => None |} [] "acme/app" _)
            ["acme/site"]).
  intros items. discriminate.
Defined.

Lemma find_first_spec url hooks hook :
  find_first url hooks = Some (Some hook) ->
  exists before after,
    hooks = before ++ hook :: after
    /\ is_ours url hook = Some true
    /\ Forall (fun other => is_ours url other = Some false) before.
Proof.
  induction hooks as [|h rest IH]; simpl; [discriminate|].
  destruct (is_ours url h) as [[|]|] eqn:Hh; [| |discriminate].
  - intros H; inversion H; subst. exists [], rest. repeat split; auto.
  - intros H. destruct (IH H) as (before & after & -> & Hhook & Hbefore).
    exists (h :: before), after. repeat split; auto.
Qed.

(** X20. The hook that the script updates is the first hook of the
    listing whose [config.url] is the URL of the relay: no hook before
    it has that URL, and a hook with another URL is never taken. *)
Theorem found_hook_is_first_of_relay
  (url : string) (hooks existingHook : json) :
  find_hook url hooks = Some (Some existingHook) ->
  chain (member existingHook "config") "url" = Some (JStr url)
  /\ exists before after,
      hooks = JArr (before ++ existingHook :: after)
      /\ Forall (fun other =>
                   chain (member other "config") "url" <> Some (JStr url))
           before.
Proof.
  destruct hooks; try discriminate. cbn [find_hook]. intros Hfind.
  destruct (find_first_spec _ _ _ Hfind) as (before & after & -> & Hhook & Hb).
  assert (Hours : forall h flag,
             is_ours url h = Some flag ->
             (flag = true -> chain (member h "config") "url" = Some (JStr url))
             /\ (flag = false ->
                 chain (member h "config") "url" <> Some (JStr url))).
  { intros h flag. unfold is_ours.
    destruct h; try discriminate; cbn [member].
    all: try (intros H; inversion H; subst; split;
              [discriminate | intros _; discriminate]).
    destruct (Obj.get props "config") as [config|];
      [|intros H; inversion H; subst; split;
        [discriminate | intros _; discriminate]].
    destruct config; cbn [truthy chain member].
    all: try (intros H; inversion H; subst; split;
              [discriminate | intros _; discriminate]).
    - destruct b; intros H; inversion H; subst; split;
        first [discriminate | intros _; discriminate].
    - destruct (negb (n =? 0)%Z); intros H; inversion H; subst; split;
        first [discriminate | intros _; discriminate].
    - destruct (negb (Str.is_empty s)); intros H; inversion H; subst; split;
        first [discriminate | intros _; discriminate].
    - destruct (Obj.get props0 "url") as [[| | |u| |]|];
        intros H; inversion H; subst; split;
        try discriminate; try (intros _; discriminate).
      + intros Hu. apply String.eqb_eq in Hu. now subst.
      + intros Hu Heq. inversion Heq; subst.
        now rewrite String.eqb_refl in Hu. }
  split.
  - now apply (Hours existingHook true).
  - exists before, after. split; [reflexivity|].
    apply (Forall_impl _ (P := fun other => is_ours url other = Some false));
      [|exact Hb].
    intros other Ho. now apply (Hours other false).
Qed.

Lemma found_hook_is_first_of_relay_witness :
  chain (member Rig.stale_hook "config") "url" = Some (JStr Rig.relay).
Proof.
  exact (proj1 (found_hook_is_first_of_relay Rig.relay
                  (JArr [JObj [("config", JObj [("url", JStr "other")])];
                         Rig.stale_hook])
                  Rig.stale_hook eq_refl)).
Defined.

End ScriptFacts.
